(** * Transcript: the transcription request pipeline of [transcription.py]

    A shallow embedding of the two request handlers
    ([transcribe_audio_file], [transcribe_base64_audio]) and of the provider
    adapter ([_call_sarvam_transcription_api]), together with the fragment of
    the Python standard library they call ([os.path.splitext], [os.path.join],
    [base64.b64decode], [tempfile.NamedTemporaryFile], [open]/[write],
    [os.unlink]).

    Conventions.
    - A Python [str] is a [string]; every character is a code point below 256,
      and the code points from 128 on are the non-ASCII ones.
    - A Python [bytes] is a [list Z] of 8-bit values.
    - The file system is a finite map from paths to file contents.
    - A handler is a computation in a state-and-exception monad; the state
      holds the file system, the trace of observable effects and the
      handler's local variable [temp_file_path]. *)

From Stdlib Require Import ZArith String Ascii List Lia DecimalString.
From stdpp Require Import gmap strings.

Import ListNotations.
Local Open Scope string_scope.
Local Open Scope Z_scope.

(** ** Python strings *)

Module PyStr.

(** [s.startswith(prefix)] *)
Definition startswith (s pre : string) : bool := String.prefix pre s.

(** [s.endswith(suffix)] *)
Definition endswith (s suf : string) : bool :=
  let n := String.length s in
  let m := String.length suf in
  if (m <=? n)%nat then String.eqb (substring (n - m) m s) suf else false.

(** [s.rfind(c)] for a one-character needle: the highest index, or -1. *)
Fixpoint rfind_from (c : ascii) (s : string) (i last : Z) : Z :=
  match s with
  | EmptyString => last
  | String a s' => rfind_from c s' (i + 1) (if Ascii.eqb a c then i else last)
  end.

Definition rfind (s : string) (c : ascii) : Z := rfind_from c s 0 (-1).

(** [s[:k]] and [s[k:]] for [0 <= k]. *)
Definition slice_to (s : string) (k : Z) : string :=
  substring 0 (Z.to_nat k) s.

Definition slice_from (s : string) (k : Z) : string :=
  substring (Z.to_nat k) (String.length s - Z.to_nat k) s.

(** [s[k:k+1]] *)
Definition slice1 (s : string) (k : Z) : string :=
  substring (Z.to_nat k) 1 s.

(** Truth value of a [str]: the empty string is falsy. *)
Definition truthy (s : string) : bool := negb (String.eqb s "").

(** [o or d] for an [Optional[str]] [o]. *)
Definition or_else (o : option string) (d : string) : string :=
  match o with
  | Some s => if truthy s then s else d
  | None => d
  end.

(** [str(o)] inside an f-string. *)
Definition format_opt (o : option string) : string :=
  match o with
  | Some s => s
  | None => "None"
  end.

Definition of_Z (z : Z) : string := NilZero.string_of_int (Z.to_int z).

End PyStr.

(** ** [os.path] (POSIX flavour) *)

Module OsPath.

Definition sep : ascii := "/"%char.
Definition extsep : ascii := "."%char.

(** The [while filenameIndex < dotIndex] loop of [genericpath._splitext]:
    [remaining] is [dotIndex - filenameIndex]. *)
Fixpoint splitext_scan (p : string) (filenameIndex dotIndex : Z)
         (remaining : nat) : option (string * string) :=
  match remaining with
  | O => None
  | S remaining' =>
      if negb (String.eqb (PyStr.slice1 p filenameIndex)
                          (String extsep EmptyString))
      then Some (PyStr.slice_to p dotIndex, PyStr.slice_from p dotIndex)
      else splitext_scan p (filenameIndex + 1) dotIndex remaining'
  end.

(** [os.path.splitext(p)]: [posixpath] has no [altsep]. *)
Definition splitext (p : string) : string * string :=
  let sepIndex := PyStr.rfind p sep in
  let dotIndex := PyStr.rfind p extsep in
  let fallthrough := (p, PyStr.slice_to p 0) in
  if sepIndex <? dotIndex then
    let filenameIndex := sepIndex + 1 in
    match splitext_scan p filenameIndex dotIndex
                        (Z.to_nat (dotIndex - filenameIndex)) with
    | Some r => r
    | None => fallthrough
    end
  else fallthrough.

(** [os.path.join(a, b)] *)
Definition join (a b : string) : string :=
  if PyStr.startswith b (String sep EmptyString) then b
  else if negb (PyStr.truthy a) || PyStr.endswith a (String sep EmptyString)
       then a ++ b
       else a ++ String sep EmptyString ++ b.

End OsPath.

(** ** [base64.b64decode] with its default [validate=False]

  The decoder is [binascii.a2b_base64] in its non-strict mode, as CPython
  has it from 3.11 on: characters outside the alphabet are skipped, a pad
  sequence that completes a quad ends the input, and an incomplete quad at
  the end of the input is an error. *)

Module Base64.

Inductive binascii_error :=
| BadLength (data_characters : Z)
| IncorrectPadding.

Definition error_text (e : binascii_error) : string :=
  match e with
  | BadLength n =>
      "Invalid base64-encoded string: number of data characters ("
      ++ PyStr.of_Z n ++ ") cannot be 1 more than a multiple of 4"
  | IncorrectPadding => "Incorrect padding"
  end.

Definition code (c : ascii) : Z := Z.of_N (N_of_ascii c).

Definition BASE64_PAD : ascii := "="%char.

(** [table_a2b_base64]: the sextet of an alphabet character, 64 or more
    (here [None]) for every other character. *)
Definition table_a2b_base64 (c : ascii) : option Z :=
  let n := code c in
  if (65 <=? n) && (n <=? 90) then Some (n - 65)
  else if (97 <=? n) && (n <=? 122) then Some (n - 97 + 26)
  else if (48 <=? n) && (n <=? 57) then Some (n - 48 + 52)
  else if n =? 43 then Some 62
  else if n =? 47 then Some 63
  else None.

Definition u8 (z : Z) : Z := Z.land z 255.

Record decoder := {
  quad_pos : Z;
  leftchar : Z;
  pads : Z;
  bin_data : list Z;
}.

Definition decoder_init : decoder :=
  {| quad_pos := 0; leftchar := 0; pads := 0; bin_data := [] |}.

(** The [switch (quad_pos)] of [binascii_a2b_base64_impl]. *)
Definition push_sextet (d : decoder) (this_ch : Z) : decoder :=
  if quad_pos d =? 0 then
    {| quad_pos := 1; leftchar := this_ch; pads := 0; bin_data := bin_data d |}
  else if quad_pos d =? 1 then
    {| quad_pos := 2; leftchar := Z.land this_ch 15; pads := 0;
       bin_data := bin_data d
                   ++ [u8 (Z.lor (Z.shiftl (leftchar d) 2) (Z.shiftr this_ch 4))] |}
  else if quad_pos d =? 2 then
    {| quad_pos := 3; leftchar := Z.land this_ch 3; pads := 0;
       bin_data := bin_data d
                   ++ [u8 (Z.lor (Z.shiftl (leftchar d) 4) (Z.shiftr this_ch 2))] |}
  else
    {| quad_pos := 0; leftchar := 0; pads := 0;
       bin_data := bin_data d
                   ++ [u8 (Z.lor (Z.shiftl (leftchar d) 6) this_ch)] |}.

(** The [for] loop over the input in non-strict mode.  The boolean is
    [true] when the loop left through [goto done]. *)
Fixpoint a2b_loop (ascii_data : string) (d : decoder) : bool * decoder :=
  match ascii_data with
  | EmptyString => (false, d)
  | String this_ch rest =>
      if Ascii.eqb this_ch BASE64_PAD then
        if 2 <=? quad_pos d then
          let d' := {| quad_pos := quad_pos d; leftchar := leftchar d;
                       pads := pads d + 1; bin_data := bin_data d |} in
          if 4 <=? quad_pos d + pads d' then (true, d')
          else a2b_loop rest d'
        else a2b_loop rest d
      else
        match table_a2b_base64 this_ch with
        | None => a2b_loop rest d
        | Some v => a2b_loop rest (push_sextet d v)
        end
  end.

(** [binascii.a2b_base64(data)] *)
Definition a2b_base64 (ascii_data : string) : binascii_error + list Z :=
  let '(done, d) := a2b_loop ascii_data decoder_init in
  if done then inr (bin_data d)
  else if negb (quad_pos d =? 0) then
    if quad_pos d =? 1
    then inl (BadLength (Z.of_nat (List.length (bin_data d)) / 3 * 4 + 1))
    else inl IncorrectPadding
  else inr (bin_data d).

Fixpoint is_ascii (s : string) : bool :=
  match s with
  | EmptyString => true
  | String c s' => (code c <? 128) && is_ascii s'
  end.

Inductive decode_result :=
| Decoded (audio_bytes : list Z)
| RaisesBinasciiError (e : binascii_error)
| RaisesValueError (msg : string).

(** [base64.b64decode(s)] for a [str] argument: [_bytes_from_decode_data]
    encodes to ASCII first and raises a plain [ValueError] when it cannot. *)
Definition b64decode (s : string) : decode_result :=
  if is_ascii s then
    match a2b_base64 s with
    | inr data => Decoded data
    | inl e => RaisesBinasciiError e
    end
  else RaisesValueError "string argument should contain only ASCII characters".

End Base64.

(** ** Values, exceptions and the observable world *)

(** A value held by the provider's response mapping. *)
Inductive pyval :=
| PyStr (s : string)
| PyNone
| PyInt (z : Z).

(** The exceptions that can travel through the handlers.  All of them are
    instances of Python's [Exception]; [BinasciiError] is [binascii.Error]. *)
Inductive exn :=
| BinasciiError (e : Base64.binascii_error)
| ValueError (msg : string)
| TypeError (msg : string)
| OSError (msg : string)
| FileExistsError (msg : string)
| ValidationError (msg : string)
| PlainException (msg : string)
| HTTPException (status_code : Z) (detail : string).

(** [str(e)], as the f-strings of the handlers render an exception. *)
Definition str_exn (e : exn) : string :=
  match e with
  | BinasciiError b => Base64.error_text b
  | ValueError msg | TypeError msg | OSError msg | FileExistsError msg
  | ValidationError msg | PlainException msg => msg
  | HTTPException status_code detail => PyStr.of_Z status_code ++ ": " ++ detail
  end.

(** What a request does to the outside world, in order. *)
Inductive event :=
| Created (path : string)                       (* a file is created, or truncated, for writing *)
| Wrote (path : string) (data : list Z)         (* bytes reach the file *)
| Unlinked (path : string)                      (* the file is deleted *)
| ProviderCall (audio : list Z) (model language_code : string)
| Printed (line : string)
| PrintedResponse (response : gmap string pyval).

Record state := {
  fs : gmap string (list Z);
  trace : list event;
  temp_file_path : option string;
}.

Inductive provider_result :=
| Responds (response : gmap string pyval)
| Fails (error : string).

(** The provider SDK client: [speech_to_text.transcribe(file, model, language_code)]. *)
Record client := {
  transcribe : list Z -> string -> string -> provider_result;
}.

(** Everything the handlers take from their surroundings. *)
Record env := {
  SARVAM_CLIENT : option client;          (* the module-level client, [None] when not initialised *)
  gettempdir : string;                    (* [tempfile.gettempdir()] *)
  candidate_names : nat -> string;        (* the names [tempfile] draws, in order *)
  TMP_MAX : nat;                          (* how many names [tempfile] tries *)
  open_error : string -> option string;   (* the [OSError] text when a path cannot be opened for writing *)
  disk_free : option nat;                 (* bytes a write can store; [None] is no limit *)
  lax_str : pyval -> option string;       (* pydantic's coercion of a non-[str] value to a [str] field *)
  validation_text : pyval -> string;      (* the text of pydantic's [ValidationError] *)
}.

(** ** The state-and-exception monad *)

Definition M (A : Type) : Type := state -> (exn + A) * state.

#[global] Instance M_ret : MRet M := fun A (a : A) st => (inr a, st).

#[global] Instance M_bind : MBind M := fun A B (k : A -> M B) (m : M A) st =>
  match m st with
  | (inr a, st') => k a st'
  | (inl e, st') => (inl e, st')
  end.

Definition raise {A} (e : exn) : M A := fun st => (inl e, st).

(** [try: body  except Exception as e: handler e] *)
Definition try_except {A} (body : M A) (handler : exn -> M A) : M A := fun st =>
  match body st with
  | (inr a, st') => (inr a, st')
  | (inl e, st') => handler e st'
  end.

(** [try: body  finally: cleanup] *)
Definition try_finally {A} (body : M A) (cleanup : M unit) : M A := fun st =>
  match body st with
  | (r, st') =>
      match cleanup st' with
      | (inr _, st'') => (r, st'')
      | (inl e, st'') => (inl e, st'')
      end
  end.

Definition get_fs : M (gmap string (list Z)) := fun st => (inr (fs st), st).

Definition put_fs (files : gmap string (list Z)) : M unit := fun st =>
  (inr tt, {| fs := files; trace := trace st; temp_file_path := temp_file_path st |}).

Definition emit (ev : event) : M unit := fun st =>
  (inr tt, {| fs := fs st; trace := (trace st ++ [ev])%list;
              temp_file_path := temp_file_path st |}).

Definition get_temp_file_path : M (option string) := fun st =>
  (inr (temp_file_path st), st).

Definition set_temp_file_path (p : option string) : M unit := fun st =>
  (inr tt, {| fs := fs st; trace := trace st; temp_file_path := p |}).

Definition print (line : string) : M unit := emit (Printed line).

(** ** Files *)

Section Files.

Variable E : env.

(** [os.path.exists(path)] *)
Definition os_path_exists (path : string) : M bool :=
  files ← get_fs;
  mret (bool_decide (is_Some (files !! path))).

(** [os.unlink(path)] *)
Definition os_unlink (path : string) : M unit :=
  files ← get_fs;
  match files !! path with
  | Some _ => put_fs (delete path files);; emit (Unlinked path)
  | None => raise (OSError ("[Errno 2] No such file or directory: '" ++ path ++ "'"))
  end.

(** [open(path, "wb")] *)
Definition open_wb (path : string) : M unit :=
  match open_error E path with
  | Some msg => raise (OSError msg)
  | None =>
      files ← get_fs;
      put_fs (<[path := []]> files);;
      emit (Created path)
  end.

(** Writing [data] to the freshly opened file at [path].  When the disk has
    room for fewer bytes, those that fit are stored and the write raises. *)
Definition write (path : string) (data : list Z) : M unit :=
  files ← get_fs;
  match disk_free E with
  | Some room =>
      if (room <? List.length data)%nat then
        put_fs (<[path := firstn room data]> files);;
        emit (Wrote path (firstn room data));;
        raise (OSError "[Errno 28] No space left on device")
      else
        put_fs (<[path := data]> files);;
        emit (Wrote path data)
  | None =>
      put_fs (<[path := data]> files);;
      emit (Wrote path data)
  end.

(** [open(path, "rb")] followed by reading the whole file. *)
Definition open_rb (path : string) : M (list Z) :=
  files ← get_fs;
  match files !! path with
  | Some data => mret data
  | None => raise (OSError ("[Errno 2] No such file or directory: '" ++ path ++ "'"))
  end.

(** The loop of [tempfile._mkstemp_inner]: the first candidate that names no
    existing file is opened with [O_CREAT | O_EXCL]. *)
Fixpoint _mkstemp_inner (dir pre suf : string) (files : gmap string (list Z))
         (remaining seq : nat) : exn + string :=
  match remaining with
  | O => inl (FileExistsError "[Errno 17] No usable temporary file name found")
  | S remaining' =>
      let file := OsPath.join dir (pre ++ candidate_names E seq ++ suf) in
      match files !! file with
      | Some _ => _mkstemp_inner dir pre suf files remaining' (S seq)
      | None =>
          match open_error E file with
          | Some msg => inl (OSError msg)
          | None => inr file
          end
      end
  end.

(** [tempfile.NamedTemporaryFile(delete=False, suffix=suffix)]: the result is
    [tmp.name].  Leaving the [with] block closes the file and keeps it. *)
Definition NamedTemporaryFile (suffix : string) : M string :=
  files ← get_fs;
  match _mkstemp_inner (gettempdir E) "tmp" suffix files (TMP_MAX E) 0 with
  | inl e => raise e
  | inr file =>
      put_fs (<[file := []]> files);;
      emit (Created file);;
      mret file
  end.

(** [shutil.copyfileobj(src, tmp)] with the whole body of [src] in hand. *)
Definition copyfileobj (src : list Z) (tmp : string) : M unit := write tmp src.

End Files.

(** ** Request and response models *)

Module TranscriptionResponse.
Record t := {
  filename : string;
  transcribed_text : string;
}.
End TranscriptionResponse.

Module Base64AudioRequest.
Record t := {
  audio_data : string;
  file_extension : string;
  filename : string;
}.
Definition default_file_extension : string := ".wav".
Definition default_filename : string := "voice_note.wav".
End Base64AudioRequest.

Module UploadFile.
Record t := {
  filename : option string;
  content_type : option string;
  file : list Z;
}.
End UploadFile.

Definition DEFAULT_TRANSCRIPTION_MODEL : string := "saarika:v2.5".
Definition DEFAULT_LANGUAGE_CODE : string := "gu-IN".

Definition NOT_FOUND : string := "Transcription result not found in API response.".

(** [response.get(key, default)] *)
Definition dict_get (response : gmap string pyval) (key : string) (default : pyval) : pyval :=
  match response !! key with
  | Some v => v
  | None => default
  end.

(** [v == s] for a [str] [s]. *)
Definition pyval_eq_str (v : pyval) (s : string) : bool :=
  match v with
  | PyStr s' => String.eqb s' s
  | _ => false
  end.

(** ** The provider adapter and the two handlers *)

Section Handlers.

Variable E : env.

(** [SARVAM_CLIENT.speech_to_text.transcribe(file=..., model=..., language_code=...)] *)
Definition speech_to_text_transcribe (c : client) (audio : list Z)
           (model language_code : string) : M (gmap string pyval) :=
  emit (ProviderCall audio model language_code);;
  match transcribe c audio model language_code with
  | Responds response => mret response
  | Fails error => raise (PlainException error)
  end.

Definition _call_sarvam_transcription_api (file_path : string) : M pyval :=
  match SARVAM_CLIENT E with
  | None =>
      (* if SARVAM_CLIENT is None: raise Exception(...) *)
      raise (PlainException
               "Sarvam AI Client failed to initialize. Check SDK installation and API Key.")
  | Some sarvam_client =>
      (* with open(file_path, 'rb') as audio_file: try: ... *)
      audio_file ← open_rb file_path;
      try_except
        (response ← speech_to_text_transcribe sarvam_client audio_file
                      DEFAULT_TRANSCRIPTION_MODEL DEFAULT_LANGUAGE_CODE;
         let transcribed_text :=
           dict_get response "text" (dict_get response "transcript" (PyStr NOT_FOUND)) in
         (if pyval_eq_str transcribed_text NOT_FOUND
          then emit (PrintedResponse response)
          else mret tt);;
         mret transcribed_text)
        (* except Exception as e: raise Exception(f"Sarvam AI Transcription failed: {e}") *)
        (fun e => raise (PlainException ("Sarvam AI Transcription failed: " ++ str_exn e)))
  end.

(** [TranscriptionResponse(filename=..., transcribed_text=...)]: the model
    validates that [transcribed_text] is a [str]. *)
Definition new_TranscriptionResponse (filename : string) (transcribed_text : pyval)
  : M TranscriptionResponse.t :=
  match transcribed_text with
  | PyStr s =>
      mret {| TranscriptionResponse.filename := filename;
              TranscriptionResponse.transcribed_text := s |}
  | v =>
      match lax_str E v with
      | Some s =>
          mret {| TranscriptionResponse.filename := filename;
                  TranscriptionResponse.transcribed_text := s |}
      | None => raise (ValidationError (validation_text E v))
      end
  end.

(** Passing the local [temp_file_path] where a [str] is expected. *)
Definition the_temp_file_path : M string :=
  p ← get_temp_file_path;
  match p with
  | Some path => mret path
  | None => raise (TypeError "expected str, bytes or os.PathLike object, not NoneType")
  end.

(** [if temp_file_path and os.path.exists(temp_file_path): os.unlink(temp_file_path)] *)
Definition cleanup : M unit :=
  p ← get_temp_file_path;
  match p with
  | Some path =>
      if PyStr.truthy path then
        present ← os_path_exists path;
        if (present : bool) then os_unlink path else mret tt
      else mret tt
  | None => mret tt
  end.

Definition transcribe_audio_file (file : UploadFile.t) : M TranscriptionResponse.t :=
  (* if not file.content_type or not file.content_type.startswith('audio/') *)
  if match UploadFile.content_type file with
     | None => true
     | Some content_type =>
         negb (PyStr.truthy content_type) || negb (PyStr.startswith content_type "audio/")
     end
  then raise (HTTPException 400 "Invalid file type. Only audio files are accepted.")
  else
    set_temp_file_path None;;
    let ext := snd (OsPath.splitext (PyStr.or_else (UploadFile.filename file) "audio.wav")) in
    (* with tempfile.NamedTemporaryFile(delete=False, suffix=ext) as tmp: *)
    tmp ← NamedTemporaryFile E ext;
    try_finally
      (try_except
         (copyfileobj E (UploadFile.file file) tmp;;
          set_temp_file_path (Some tmp))
         (fun _ => raise (HTTPException 500 "Failed to save uploaded file temporarily.")))
      (* finally: file.file.close() *)
      (mret tt);;
    (* the second try/except/finally, reached only when nothing was raised above *)
    try_finally
      (try_except
         (print ("Sending uploaded file " ++ PyStr.format_opt (UploadFile.filename file)
                 ++ " to Sarvam AI for transcription...");;
          path ← the_temp_file_path;
          transcribed_text ← _call_sarvam_transcription_api path;
          new_TranscriptionResponse
            (PyStr.or_else (UploadFile.filename file) "audio_file") transcribed_text)
         (fun e =>
            print ("An unexpected error occurred during transcription: " ++ str_exn e);;
            raise (HTTPException 503 ("Transcription service failed: " ++ str_exn e))))
      cleanup.

(** [base64.b64decode(request.audio_data)] *)
Definition b64decode (s : string) : M (list Z) :=
  match Base64.b64decode s with
  | Base64.Decoded audio_bytes => mret audio_bytes
  | Base64.RaisesBinasciiError e => raise (BinasciiError e)
  | Base64.RaisesValueError msg => raise (ValueError msg)
  end.

(** The path the Base64 handler writes to. *)
Definition mic_recording_path (file_extension : string) : string :=
  OsPath.join (gettempdir E) ("mic_recording" ++ file_extension).

Definition transcribe_base64_audio (request : Base64AudioRequest.t)
  : M TranscriptionResponse.t :=
  set_temp_file_path None;;
  try_finally
    (try_except
       (audio_bytes ← b64decode (Base64AudioRequest.audio_data request);
        (* temp_file_path = os.path.join(tempfile.gettempdir(), f"mic_recording{...}") *)
        set_temp_file_path
          (Some (mic_recording_path (Base64AudioRequest.file_extension request)));;
        (* with open(temp_file_path, "wb") as f: f.write(audio_bytes) *)
        path ← the_temp_file_path;
        open_wb E path;;
        write E path audio_bytes;;
        print ("Sending Base64 audio (" ++ Base64AudioRequest.filename request
               ++ ") to Sarvam AI for transcription...");;
        path ← the_temp_file_path;
        transcribed_text ← _call_sarvam_transcription_api path;
        new_TranscriptionResponse (Base64AudioRequest.filename request) transcribed_text)
       (fun e =>
          match e with
          | BinasciiError _ =>
              (* except base64.binascii.Error *)
              raise (HTTPException 400 "Invalid Base64 audio data received.")
          | _ =>
              (* except Exception as e *)
              print ("An unexpected error occurred during Base64 transcription: "
                     ++ str_exn e);;
              raise (HTTPException 503 ("Transcription service failed: " ++ str_exn e))
          end))
    cleanup.

End Handlers.

(** ** Running a handler *)

(** The world a request starts in: the files on disk, nothing observed yet. *)
Definition start (files : gmap string (list Z)) : state :=
  {| fs := files; trace := []; temp_file_path := None |}.

(** The HTTP status the framework answers with: the routes declare 200, an
    [HTTPException] carries its own status, anything else is a server error. *)
Definition status_of {A} (r : exn + A) : Z :=
  match r with
  | inr _ => 200
  | inl (HTTPException status_code _) => status_code
  | inl _ => 500
  end.

(** The provider calls recorded in a trace. *)
Definition provider_calls (t : list event) : list (list Z * string * string) :=
  flat_map (fun ev : event => match ev with
                      | ProviderCall audio model language_code =>
                          [(audio, model, language_code)]
                      | _ => []
                      end) t.

(** The files a trace shows being created. *)
Definition created_files (t : list event) : list string :=
  flat_map (fun ev : event => match ev with
                      | Created path => [path]
                      | _ => []
                      end) t.

(** ** Fixtures: a provider mock and a plain environment *)

(** A provider that answers every call with the same mapping. *)
Definition mock_client (response : gmap string pyval) : client :=
  {| transcribe := fun _ _ _ => Responds response |}.

(** A temp directory [/tmp], distinct candidate names, no open failures, and
    the given client and disk room. *)
Definition mock_env (c : option client) (room : option nat) : env :=
  {| SARVAM_CLIENT := c;
     gettempdir := "/tmp";
     candidate_names := fun n => "abcdefg" ++ String (ascii_of_nat (97 + n)) EmptyString;
     TMP_MAX := 100;
     open_error := fun _ => None;
     disk_free := room;
     lax_str := fun _ => None;
     validation_text := fun _ => "1 validation error for TranscriptionResponse" |}.

Definition hello_world : gmap string pyval := {[ "text" := PyStr "hello world" ]}.

Definition ten_bytes : list Z := [82; 73; 70; 70; 2; 0; 0; 0; 87; 65].

Definition clip_wav : UploadFile.t :=
  {| UploadFile.filename := Some "clip.wav";
     UploadFile.content_type := Some "audio/wav";
     UploadFile.file := ten_bytes |}.

(** ** Notions the statements use *)

(** A declared content type that is missing or does not begin with [audio/]. *)
Definition not_audio (content_type : option string) : Prop :=
  match content_type with
  | None => True
  | Some ct => PyStr.startswith ct "audio/" = false
  end.

(** The same Base64 request under another [filename]. *)
Definition with_filename (request : Base64AudioRequest.t) (name : string)
  : Base64AudioRequest.t :=
  {| Base64AudioRequest.audio_data := Base64AudioRequest.audio_data request;
     Base64AudioRequest.file_extension := Base64AudioRequest.file_extension request;
     Base64AudioRequest.filename := name |}.

(** A trace without its log lines: what reached the disk and the provider. *)
Definition io_events (t : list event) : list event :=
  flat_map (fun ev : event => match ev with
                              | Printed _ | PrintedResponse _ => []
                              | _ => [ev]
                              end) t.

(** ** Specifications of computations *)

(** [emits_only allowed m]: whatever [m] adds to the trace is [allowed]. *)
Definition emits_only {A} (allowed : event -> Prop) (m : M A) : Prop :=
  forall st, exists evs,
    trace (snd (m st)) = (trace st ++ evs)%list /\ Forall allowed evs.

(** [returns_only R m]: whenever [m] returns rather than raises, the value it
    returns satisfies [R]. *)
Definition returns_only {A} (R : A -> Prop) (m : M A) : Prop :=
  forall st a, fst (m st) = inr a -> R a.

(** Two states that agree on everything but their log lines. *)
Definition sim (st1 st2 : state) : Prop :=
  fs st1 = fs st2
  /\ temp_file_path st1 = temp_file_path st2
  /\ io_events (trace st1) = io_events (trace st2).

(** Two outcomes that raise the same exception, or return [R]-related values. *)
Definition same_outcome {A} (R : A -> A -> Prop) (r1 r2 : exn + A) : Prop :=
  match r1, r2 with
  | inr a1, inr a2 => R a1 a2
  | inl e1, inl e2 => e1 = e2
  | _, _ => False
  end.

(** [related R m1 m2]: from states that agree up to log lines, [m1] and [m2]
    end in such states again, with the same outcome up to [R]. *)
Definition related {A} (R : A -> A -> Prop) (m1 m2 : M A) : Prop :=
  forall st1 st2, sim st1 st2 ->
    same_outcome R (fst (m1 st1)) (fst (m2 st2)) /\ sim (snd (m1 st1)) (snd (m2 st2)).

(** An event other than a provider call. *)
Definition not_provider_call (ev : event) : Prop :=
  match ev with
  | ProviderCall _ _ _ => False
  | _ => True
  end.

(** [s] ends with [suffix]. *)
Definition has_suffix (suffix s : string) : Prop := exists stem, s = stem ++ suffix.

(** An event that creates no file, or one whose name ends with [suffix]. *)
Definition creates_with_suffix (suffix : string) (ev : event) : Prop :=
  match ev with
  | Created path => has_suffix suffix path
  | _ => True
  end.

(** An event that creates no file. *)
Definition creates_nothing (ev : event) : Prop :=
  match ev with
  | Created _ => False
  | _ => True
  end.

(** A declared content type that begins with [audio/]. *)
Definition is_audio (content_type : option string) : Prop :=
  exists ct, content_type = Some ct /\ PyStr.startswith ct "audio/" = true.

(** The suffix the upload handler asks [tempfile] for. *)
Definition upload_suffix (file : UploadFile.t) : string :=
  snd (OsPath.splitext (PyStr.or_else (UploadFile.filename file) "audio.wav")).

(** [tempfile] finds the unused name [tmp] for [suffix] among [files]. *)
Definition temp_name (E : env) (suffix : string) (files : gmap string (list Z))
           (tmp : string) : Prop :=
  _mkstemp_inner E (gettempdir E) "tmp" suffix files (TMP_MAX E) 0 = inr tmp.

(** The disk has room for [data]. *)
Definition has_room (E : env) (data : list Z) : Prop :=
  match disk_free E with
  | Some room => (List.length data <= room)%nat
  | None => True
  end.

(** The key the adapter's probing settles on holds the string [T]. *)
Definition answers (response : gmap string pyval) (T : string) : Prop :=
  response !! "text" = Some (PyStr T)
  \/ (response !! "text" = None /\ response !! "transcript" = Some (PyStr T)).

(** The client answers the call for [audio] with [response]. *)
Definition responds_to (c : client) (audio : list Z) (response : gmap string pyval) : Prop :=
  transcribe c audio DEFAULT_TRANSCRIPTION_MODEL DEFAULT_LANGUAGE_CODE = Responds response.

(** The upload handler's state once the body is copied to the file [tmp]. *)
Definition upload_stored (file : UploadFile.t) (files : gmap string (list Z))
           (tmp : string) : state :=
  {| fs := <[tmp := UploadFile.file file]> (<[tmp := []]> files);
     trace := [Created tmp; Wrote tmp (UploadFile.file file)];
     temp_file_path := Some tmp |}.

(** The Base64 handler's state once the decoded bytes are in the file at
    [path] and the provider call is announced. *)
Definition base64_announced (request : Base64AudioRequest.t)
           (files : gmap string (list Z)) (path : string) (audio_bytes : list Z) : state :=
  {| fs := <[path := audio_bytes]> (<[path := []]> files);
     trace := [Created path; Wrote path audio_bytes;
               Printed ("Sending Base64 audio (" ++ Base64AudioRequest.filename request
                        ++ ") to Sarvam AI for transcription...")];
     temp_file_path := Some path |}.

(** [raises_only P m]: whenever [m] raises, the exception satisfies [P]. *)
Definition raises_only {A} (P : exn -> Prop) (m : M A) : Prop :=
  forall st e, fst (m st) = inl e -> P e.

(** An exception other than [binascii.Error]. *)
Definition not_binascii (e : exn) : Prop :=
  match e with
  | BinasciiError _ => False
  | _ => True
  end.

(** The lenient decoder rejects [s] with [binascii.Error]. *)
Definition rejected_by_decoder (s : string) : Prop :=
  exists e, Base64.b64decode s = Base64.RaisesBinasciiError e.

(** An [OSError]. *)
Definition is_os_error (e : exn) : Prop :=
  match e with
  | OSError _ => True
  | _ => False
  end.

(** [c in s] for a character [c]. *)
Fixpoint has_char (c : ascii) (s : string) : bool :=
  match s with
  | EmptyString => false
  | String a s' => Ascii.eqb a c || has_char c s'
  end.

(** ** Valid Base64, as RFC 4648 has it *)

(** The text after the leading run of alphabet characters. *)
Fixpoint after_alphabet (s : string) : string :=
  match s with
  | EmptyString => EmptyString
  | String c s' =>
      match Base64.table_a2b_base64 c with
      | Some _ => after_alphabet s'
      | None => s
      end
  end.

(** Valid Base64: characters of the alphabet only, then at most two [=], the
    whole a multiple of four characters long. *)
Definition valid_base64 (s : string) : bool :=
  (String.length s mod 4 =? 0)%nat
  && (String.eqb (after_alphabet s) ""
      || String.eqb (after_alphabet s) "="
      || String.eqb (after_alphabet s) "==").

(** ** More fixtures *)

Definition notes_txt : UploadFile.t :=
  {| UploadFile.filename := Some "notes.txt";
     UploadFile.content_type := Some "text/plain";
     UploadFile.file := ten_bytes |}.

(** An upload whose name has no extension. *)
Definition clip_no_extension : UploadFile.t :=
  {| UploadFile.filename := Some "clip";
     UploadFile.content_type := Some "audio/wav";
     UploadFile.file := ten_bytes |}.

(** An upload that carries no filename. *)
Definition nameless_upload : UploadFile.t :=
  {| UploadFile.filename := None;
     UploadFile.content_type := Some "audio/wav";
     UploadFile.file := ten_bytes |}.

(** A Base64 request with the model's defaults for the optional fields. *)
Definition base64_request (audio_data : string) : Base64AudioRequest.t :=
  {| Base64AudioRequest.audio_data := audio_data;
     Base64AudioRequest.file_extension := Base64AudioRequest.default_file_extension;
     Base64AudioRequest.filename := Base64AudioRequest.default_filename |}.

(** An environment with a working provider mock and an unlimited disk. *)
Definition working_env : env := mock_env (Some (mock_client hello_world)) None.

(** ** Further notions *)

(** The statuses the upload endpoint answers with. *)
Definition upload_status (z : Z) : Prop := z = 200 \/ z = 400 \/ z = 500 \/ z = 503.



(** An exception [tempfile] gives up with. *)
Definition tempfile_error (e : exn) : Prop :=
  match e with
  | OSError _ | FileExistsError _ => True
  | _ => False
  end.

(** The value the adapter reads off a response: [text], else [transcript],
    else the sentinel. *)
Definition probe (response : gmap string pyval) : pyval :=
  dict_get response "text" (dict_get response "transcript" (PyStr NOT_FOUND)).

(** The client's call for [audio] fails with [error]. *)
Definition fails_on (c : client) (audio : list Z) (error : string) : Prop :=
  transcribe c audio DEFAULT_TRANSCRIPTION_MODEL DEFAULT_LANGUAGE_CODE = Fails error.

(** The response model turns [v] down: it is no [str] and is not coerced. *)
Definition turned_down (E : env) (v : pyval) : Prop :=
  (forall s, v <> PyStr s) /\ lax_str E v = None.

(** An upload under the name [broken.wav] and a provider that is down. *)
Definition failing_client (error : string) : client :=
  {| transcribe := fun _ _ _ => Fails error |}.

(** ** The standard Base64 encoding

    What a client does to its bytes before it posts them: the encoding of
    RFC 4648, section 4, as [base64.b64encode] produces it. *)

(** [table_b2a_base64]: the character of a sextet. *)
Definition table_b2a_base64 (v : Z) : ascii :=
  if v <? 26 then ascii_of_N (Z.to_N (65 + v))
  else if v <? 52 then ascii_of_N (Z.to_N (97 + (v - 26)))
  else if v <? 62 then ascii_of_N (Z.to_N (48 + (v - 52)))
  else if v =? 62 then "+"%char
  else "/"%char.

(** The four sextets of three bytes. *)
Definition sextet1 (b1 : Z) : Z := Z.shiftr b1 2.
Definition sextet2 (b1 b2 : Z) : Z := Z.lor (Z.shiftl (Z.land b1 3) 4) (Z.shiftr b2 4).
Definition sextet3 (b2 b3 : Z) : Z := Z.lor (Z.shiftl (Z.land b2 15) 2) (Z.shiftr b3 6).
Definition sextet4 (b3 : Z) : Z := Z.land b3 63.

Fixpoint b64encode (bs : list Z) : string :=
  match bs with
  | [] => ""
  | [b1] =>
      String (table_b2a_base64 (sextet1 b1))
        (String (table_b2a_base64 (sextet2 b1 0)) "==")
  | [b1; b2] =>
      String (table_b2a_base64 (sextet1 b1))
        (String (table_b2a_base64 (sextet2 b1 b2))
           (String (table_b2a_base64 (sextet3 b2 0)) "="))
  | b1 :: b2 :: b3 :: rest =>
      String (table_b2a_base64 (sextet1 b1))
        (String (table_b2a_base64 (sextet2 b1 b2))
           (String (table_b2a_base64 (sextet3 b2 b3))
              (String (table_b2a_base64 (sextet4 b3)) (b64encode rest))))
  end.

(** An 8-bit value. *)
Definition is_byte (b : Z) : Prop := 0 <= b < 256.

(** The integers from 0 up to [n]. *)
Definition below (n : nat) : list Z := List.map Z.of_nat (seq 0 n).

(** The same Base64 request with another payload. *)
Definition with_audio_data (request : Base64AudioRequest.t) (audio_data : string)
  : Base64AudioRequest.t :=
  {| Base64AudioRequest.audio_data := audio_data;
     Base64AudioRequest.file_extension := Base64AudioRequest.file_extension request;
     Base64AudioRequest.filename := Base64AudioRequest.filename request |}.

(** A character the decoder skips: ASCII, outside the alphabet, not the pad. *)
Definition foreign (c : ascii) : Prop :=
  Base64.table_a2b_base64 c = None
  /\ Ascii.eqb c Base64.BASE64_PAD = false
  /\ (Base64.code c <? 128) = true.

(** * Properties *)

(** ** The library fragment on examples *)

Example splitext_clip_wav : OsPath.splitext "clip.wav" = ("clip", ".wav").
Proof. reflexivity. Qed.

Example splitext_dotfile : OsPath.splitext ".bashrc" = (".bashrc", "").
Proof. reflexivity. Qed.

Example splitext_dir_dot : OsPath.splitext "a.b/clip" = ("a.b/clip", "").
Proof. reflexivity. Qed.

Example splitext_two_dots : OsPath.splitext "a/..x.tar.gz" = ("a/..x.tar", ".gz").
Proof. reflexivity. Qed.

Example join_tmp : OsPath.join "/tmp" "mic_recording.wav" = "/tmp/mic_recording.wav".
Proof. reflexivity. Qed.

Example join_trailing_sep : OsPath.join "/tmp/" "mic_recording.wav" = "/tmp/mic_recording.wav".
Proof. reflexivity. Qed.

Example join_absolute : OsPath.join "/tmp" "/etc/passwd" = "/etc/passwd".
Proof. reflexivity. Qed.

Example endswith_wav : PyStr.endswith "/tmp/tmpabcdefga.wav" ".wav" = true.
Proof. reflexivity. Qed.

Example b64decode_empty : Base64.b64decode "" = Base64.Decoded [].
Proof. reflexivity. Qed.

Example b64decode_skips_foreign : Base64.b64decode "aG!k=" = Base64.Decoded [104; 105].
Proof. reflexivity. Qed.

Example b64decode_non_ascii :
  Base64.b64decode (String (ascii_of_nat 233) "") =
  Base64.RaisesValueError "string argument should contain only ASCII characters".
Proof. reflexivity. Qed.

Example valid_base64_padded : valid_base64 "aGk=" = true.
Proof. reflexivity. Qed.

Example valid_base64_foreign : valid_base64 "aG!k" = false.
Proof. reflexivity. Qed.

Example b64decode_hello : Base64.b64decode "aGVsbG8=" = Base64.Decoded [104; 101; 108; 108; 111].
Proof. reflexivity. Qed.

Example b64decode_not_base64 :
  Base64.b64decode "!!!not-base64!!!" = Base64.RaisesBinasciiError (Base64.BadLength 9).
Proof. reflexivity. Qed.

Example b64decode_bad_padding :
  Base64.b64decode "ab=c" = Base64.RaisesBinasciiError Base64.IncorrectPadding.
Proof. reflexivity. Qed.

(** ** Stepping through the monad *)

Ltac step_M :=
  unfold mbind, M_bind, mret, M_ret, raise, try_except, try_finally,
    get_fs, put_fs, emit, print, get_temp_file_path, set_temp_file_path in *.

Ltac step_io :=
  unfold the_temp_file_path, cleanup, os_path_exists, os_unlink, open_wb, write,
    open_rb, copyfileobj, b64decode, speech_to_text_transcribe,
    new_TranscriptionResponse in *.

(** ** The upload handler rejects what is not audio *)

Lemma startswith_audio_truthy ct :
  PyStr.startswith ct "audio/" = true -> PyStr.truthy ct = true.
Proof. destruct ct; [discriminate | reflexivity]. Qed.

(** C6: an upload whose declared content type is missing or does not begin
    with [audio/] is answered with the 400 client error, and the world is left
    exactly as it was: no file is created and the provider is not called. *)
Theorem upload_rejects_non_audio (E : env) (file : UploadFile.t) (st : state) :
  not_audio (UploadFile.content_type file) ->
  transcribe_audio_file E file st
  = (inl (HTTPException 400 "Invalid file type. Only audio files are accepted."), st)
  /\ status_of (fst (transcribe_audio_file E file st)) = 400
  /\ fs (snd (transcribe_audio_file E file st)) = fs st
  /\ created_files (trace (snd (transcribe_audio_file E file st))) = created_files (trace st)
  /\ provider_calls (trace (snd (transcribe_audio_file E file st))) = provider_calls (trace st).
Proof.
  intros Hct.
  assert (Hrun : transcribe_audio_file E file st
                 = (inl (HTTPException 400 "Invalid file type. Only audio files are accepted."), st)).
  { unfold transcribe_audio_file, not_audio in *.
    destruct (UploadFile.content_type file) as [ct|]; [|reflexivity].
    rewrite Hct. rewrite orb_true_r. reflexivity. }
  rewrite Hrun. repeat split; reflexivity.
Qed.

Lemma upload_rejects_non_audio_witness :
  status_of (fst (transcribe_audio_file
                    (mock_env (Some (mock_client hello_world)) None)
                    notes_txt (start ∅))) = 400.
Proof.
  apply (upload_rejects_non_audio
           (mock_env (Some (mock_client hello_world)) None)
           notes_txt (start ∅)).
  reflexivity.
Defined.

(** ** The adapter's reading of the provider's response *)

(** C4: once the provider has answered with a mapping, the adapter returns the
    value under [text] when that key is present, else the value under
    [transcript] when that one is present, else the fixed sentinel; in all
    three cases it returns and does not raise. *)
Theorem adapter_probes_text_then_transcript (E : env) (c : client)
    (file_path : string) (audio : list Z) (response : gmap string pyval) (st : state) :
  SARVAM_CLIENT E = Some c ->
  fs st !! file_path = Some audio ->
  transcribe c audio DEFAULT_TRANSCRIPTION_MODEL DEFAULT_LANGUAGE_CODE = Responds response ->
  (forall v, response !! "text" = Some v ->
             fst (_call_sarvam_transcription_api E file_path st) = inr v)
  /\ (forall v, response !! "text" = None -> response !! "transcript" = Some v ->
                fst (_call_sarvam_transcription_api E file_path st) = inr v)
  /\ (response !! "text" = None -> response !! "transcript" = None ->
      fst (_call_sarvam_transcription_api E file_path st)
      = inr (PyStr "Transcription result not found in API response.")).
Proof.
  intros Hc Hfile Hresp.
  unfold _call_sarvam_transcription_api. rewrite Hc.
  step_io. step_M. cbn [fs trace]. rewrite Hfile, Hresp.
  unfold dict_get.
  repeat split.
  - intros v Hv. rewrite Hv. destruct (pyval_eq_str v NOT_FOUND); reflexivity.
  - intros v Ht Hv. rewrite Ht, Hv. destruct (pyval_eq_str v NOT_FOUND); reflexivity.
  - intros Ht Hv. rewrite Ht, Hv. reflexivity.
Qed.

Lemma adapter_probes_text_then_transcript_witness :
  fst (_call_sarvam_transcription_api
         (mock_env (Some (mock_client {[ "transcript" := PyStr "namaste" ]})) None)
         "/tmp/a.wav" (start {[ "/tmp/a.wav" := ten_bytes ]}))
  = inr (PyStr "namaste").
Proof.
  assert (Hfile : fs (start {[ "/tmp/a.wav" := ten_bytes ]}) !! "/tmp/a.wav"
                  = Some ten_bytes) by (vm_compute; reflexivity).
  destruct (adapter_probes_text_then_transcript
              (mock_env (Some (mock_client {[ "transcript" := PyStr "namaste" ]})) None)
              (mock_client {[ "transcript" := PyStr "namaste" ]})
              "/tmp/a.wav" ten_bytes {[ "transcript" := PyStr "namaste" ]}
              (start {[ "/tmp/a.wav" := ten_bytes ]})
              eq_refl Hfile eq_refl) as (_ & Htranscript & _).
  apply Htranscript; vm_compute; reflexivity.
Defined.

(** ** What a computation may emit *)

Section EmitsOnly.

Context {A B : Type} (allowed : event -> Prop).

Lemma emits_ret (a : A) : emits_only allowed (mret a : M A).
Proof. intros st. exists []. split; [symmetry; apply app_nil_r | constructor]. Qed.

Lemma emits_raise (e : exn) : emits_only allowed (raise e : M A).
Proof. intros st. exists []. split; [symmetry; apply app_nil_r | constructor]. Qed.

Lemma emits_bind (m : M A) (k : A -> M B) :
  emits_only allowed m -> (forall a, emits_only allowed (k a)) ->
  emits_only allowed (m ≫= k).
Proof.
  intros Hm Hk st. unfold mbind, M_bind.
  destruct (Hm st) as (evs & Ht & Hall).
  destruct (m st) as [[e|a] st']; cbn [snd] in *.
  - exists evs. split; assumption.
  - destruct (Hk a st') as (evs' & Ht' & Hall').
    exists (evs ++ evs')%list. split.
    + rewrite Ht', Ht. symmetry. apply app_assoc.
    + apply Forall_app. split; assumption.
Qed.

Lemma emits_try_except (body : M A) (handler : exn -> M A) :
  emits_only allowed body -> (forall e, emits_only allowed (handler e)) ->
  emits_only allowed (try_except body handler).
Proof.
  intros Hb Hh st. unfold try_except.
  destruct (Hb st) as (evs & Ht & Hall).
  destruct (body st) as [[e|a] st']; cbn [snd] in *.
  - destruct (Hh e st') as (evs' & Ht' & Hall').
    exists (evs ++ evs')%list. split.
    + rewrite Ht', Ht. symmetry. apply app_assoc.
    + apply Forall_app. split; assumption.
  - exists evs. split; assumption.
Qed.

Lemma emits_try_finally (body : M A) (final : M unit) :
  emits_only allowed body -> emits_only allowed final ->
  emits_only allowed (try_finally body final).
Proof.
  intros Hb Hf st. unfold try_finally.
  destruct (Hb st) as (evs & Ht & Hall).
  destruct (body st) as [r st']; cbn [snd] in *.
  destruct (Hf st') as (evs' & Ht' & Hall').
  exists (evs ++ evs')%list. split.
  - destruct (final st') as [[e|u] st'']; cbn [snd] in *;
      rewrite Ht', Ht; symmetry; apply app_assoc.
  - apply Forall_app. split; assumption.
Qed.

Lemma emits_emit (ev : event) : allowed ev -> emits_only allowed (emit ev).
Proof. intros Hev st. exists [ev]. split; [reflexivity | repeat constructor; assumption]. Qed.

End EmitsOnly.

Lemma emits_get_fs allowed : emits_only allowed get_fs.
Proof. intros st. exists []. split; [symmetry; apply app_nil_r | constructor]. Qed.

Lemma emits_put_fs allowed files : emits_only allowed (put_fs files).
Proof. intros st. exists []. split; [symmetry; apply app_nil_r | constructor]. Qed.

Lemma emits_get_temp_file_path allowed : emits_only allowed get_temp_file_path.
Proof. intros st. exists []. split; [symmetry; apply app_nil_r | constructor]. Qed.

Lemma emits_set_temp_file_path allowed p : emits_only allowed (set_temp_file_path p).
Proof. intros st. exists []. split; [symmetry; apply app_nil_r | constructor]. Qed.

(** Walks through a computation, leaving the side conditions on its events. *)
Ltac emits_walk :=
  repeat first
    [ apply emits_ret
    | apply emits_raise
    | apply emits_get_fs
    | apply emits_put_fs
    | apply emits_get_temp_file_path
    | apply emits_set_temp_file_path
    | apply emits_bind; [| intros ?]
    | apply emits_try_except; [| intros ?]
    | apply emits_try_finally
    | apply emits_emit
    | match goal with
      | |- emits_only _ (match ?x with _ => _ end) => destruct x
      | |- emits_only _ (if ?x then _ else _) => destruct x
      end ].

(** ** Without a client the provider is never reached *)

Lemma provider_calls_app (t1 t2 : list event) :
  provider_calls (t1 ++ t2) = (provider_calls t1 ++ provider_calls t2)%list.
Proof. unfold provider_calls. apply flat_map_app. Qed.

Lemma provider_calls_none (evs : list event) :
  Forall not_provider_call evs -> provider_calls evs = [].
Proof.
  induction 1 as [|ev evs Hev _ IH]; [reflexivity|].
  destruct ev; cbn in *; try assumption. contradiction.
Qed.

Lemma emits_only_provider_calls {A} (m : M A) (st : state) :
  emits_only not_provider_call m ->
  provider_calls (trace (snd (m st))) = provider_calls (trace st).
Proof.
  intros Hm. destruct (Hm st) as (evs & -> & Hall).
  rewrite provider_calls_app, (provider_calls_none evs Hall). apply app_nil_r.
Qed.

Ltac quiet_walk := emits_walk; try exact I.

Lemma cleanup_quiet : emits_only not_provider_call cleanup.
Proof. unfold cleanup, os_path_exists, os_unlink. quiet_walk. Qed.

Lemma NamedTemporaryFile_quiet E suffix :
  emits_only not_provider_call (NamedTemporaryFile E suffix).
Proof. unfold NamedTemporaryFile. quiet_walk. Qed.

Lemma write_quiet E path data : emits_only not_provider_call (write E path data).
Proof. unfold write, print. quiet_walk. Qed.

Lemma open_wb_quiet E path : emits_only not_provider_call (open_wb E path).
Proof. unfold open_wb. quiet_walk. Qed.

Lemma adapter_uninitialised E file_path (st : state) :
  SARVAM_CLIENT E = None ->
  _call_sarvam_transcription_api E file_path st
  = (inl (PlainException
            "Sarvam AI Client failed to initialize. Check SDK installation and API Key."),
     st).
Proof. intros Hnone. unfold _call_sarvam_transcription_api. rewrite Hnone. reflexivity. Qed.

Lemma adapter_uninitialised_quiet E file_path :
  SARVAM_CLIENT E = None ->
  emits_only not_provider_call (_call_sarvam_transcription_api E file_path).
Proof.
  intros Hnone. unfold _call_sarvam_transcription_api. rewrite Hnone. apply emits_raise.
Qed.

Lemma upload_uninitialised_quiet E file :
  SARVAM_CLIENT E = None ->
  emits_only not_provider_call (transcribe_audio_file E file).
Proof.
  intros Hnone. unfold transcribe_audio_file.
  match goal with |- emits_only _ (if ?g then _ else _) => destruct g end;
    [apply emits_raise|].
  apply emits_bind; [apply emits_set_temp_file_path | intros _].
  apply emits_bind; [apply NamedTemporaryFile_quiet | intros tmp].
  apply emits_bind; [| intros _].
  - unfold copyfileobj.
    apply emits_try_finally; [| apply emits_ret].
    apply emits_try_except; [| intros ?; apply emits_raise].
    apply emits_bind; [apply write_quiet | intros _; apply emits_set_temp_file_path].
  - apply emits_try_finally; [| apply cleanup_quiet].
    apply emits_try_except.
    + unfold print, the_temp_file_path, new_TranscriptionResponse.
      apply emits_bind; [apply emits_emit; exact I | intros _].
      apply emits_bind; [quiet_walk | intros path].
      apply emits_bind; [apply adapter_uninitialised_quiet; assumption | intros text].
      quiet_walk.
    + intros e. unfold print. quiet_walk.
Qed.

Lemma base64_uninitialised_quiet E request :
  SARVAM_CLIENT E = None ->
  emits_only not_provider_call (transcribe_base64_audio E request).
Proof.
  intros Hnone. unfold transcribe_base64_audio.
  apply emits_bind; [apply emits_set_temp_file_path | intros _].
  apply emits_try_finally; [| apply cleanup_quiet].
  apply emits_try_except.
  - unfold print, the_temp_file_path, new_TranscriptionResponse, b64decode.
    apply emits_bind; [quiet_walk | intros audio_bytes].
    apply emits_bind; [apply emits_set_temp_file_path | intros _].
    apply emits_bind; [quiet_walk | intros path].
    apply emits_bind; [apply open_wb_quiet | intros _].
    apply emits_bind; [apply write_quiet | intros _].
    apply emits_bind; [apply emits_emit; exact I | intros _].
    apply emits_bind; [quiet_walk | intros path'].
    apply emits_bind; [apply adapter_uninitialised_quiet; assumption | intros text].
    quiet_walk.
  - intros e. unfold print. destruct e; quiet_walk.
Qed.

(** ** Facts about the library fragment *)

Lemma append_assoc (a b c : string) : (a ++ b) ++ c = a ++ b ++ c.
Proof.
  induction a as [|x a IH]; [reflexivity|].
  change (String x ((a ++ b) ++ c) = String x (a ++ b ++ c)). f_equal. exact IH.
Qed.

Lemma truthy_append_r (a b : string) :
  PyStr.truthy b = true -> PyStr.truthy (a ++ b) = true.
Proof. destruct a; [intros Hb; exact Hb | reflexivity]. Qed.

Lemma join_truthy (a b : string) :
  PyStr.truthy b = true -> PyStr.truthy (OsPath.join a b) = true.
Proof.
  intros Hb. unfold OsPath.join.
  destruct (PyStr.startswith b _); [exact Hb|].
  destruct (negb (PyStr.truthy a) || PyStr.endswith a _).
  - apply truthy_append_r, Hb.
  - apply truthy_append_r, truthy_append_r, Hb.
Qed.

Lemma join_has_suffix (a stem suffix : string) :
  PyStr.startswith (stem ++ suffix) "/" = false ->
  has_suffix suffix (OsPath.join a (stem ++ suffix)).
Proof.
  intros Hrel. unfold OsPath.join.
  change (String OsPath.sep "") with "/". rewrite Hrel.
  destruct (negb (PyStr.truthy a) || PyStr.endswith a "/").
  - exists (a ++ stem). symmetry. apply append_assoc.
  - exists (a ++ "/" ++ stem). rewrite !append_assoc. reflexivity.
Qed.

(** What [tempfile] promises about the name it settles on. *)
Lemma mkstemp_inner_inr E dir pre suf files remaining seq file :
  _mkstemp_inner E dir pre suf files remaining seq = inr file ->
  files !! file = None
  /\ open_error E file = None
  /\ exists name, file = OsPath.join dir (pre ++ name ++ suf).
Proof.
  revert seq. induction remaining as [|remaining IH]; intros seq; cbn [_mkstemp_inner]; cbv zeta.
  - discriminate.
  - destruct (files !! OsPath.join dir (pre ++ candidate_names E seq ++ suf)) eqn:Hfree.
    + apply IH.
    + destruct (open_error E (OsPath.join dir (pre ++ candidate_names E seq ++ suf)))
        eqn:Hopen; [discriminate|].
      intros [= <-]. repeat split; try assumption. eexists; reflexivity.
Qed.

Lemma temp_name_spec E suffix files tmp :
  temp_name E suffix files tmp ->
  files !! tmp = None
  /\ PyStr.truthy tmp = true
  /\ has_suffix suffix tmp.
Proof.
  intros Hname. apply mkstemp_inner_inr in Hname as (Hfree & _ & name & ->).
  repeat split.
  - exact Hfree.
  - apply join_truthy. reflexivity.
  - rewrite <- append_assoc. apply join_has_suffix. reflexivity.
Qed.

Lemma audio_passes_guard (content_type : option string) :
  is_audio content_type ->
  match content_type with
  | None => true
  | Some ct => negb (PyStr.truthy ct) || negb (PyStr.startswith ct "audio/")
  end = false.
Proof.
  intros (ct & -> & Hct). rewrite Hct, (startswith_audio_truthy ct Hct). reflexivity.
Qed.

Lemma guard_passed_by_audio (content_type : option string) :
  match content_type with
  | None => true
  | Some ct => negb (PyStr.truthy ct) || negb (PyStr.startswith ct "audio/")
  end = false ->
  is_audio content_type.
Proof.
  destruct content_type as [ct|]; [|discriminate].
  intros Hguard. apply orb_false_elim in Hguard as [_ Hct].
  exists ct. split; [reflexivity|]. destruct (PyStr.startswith ct "audio/"); [reflexivity|discriminate].
Qed.

Lemma answers_probe (response : gmap string pyval) (T : string) :
  answers response T ->
  dict_get response "text" (dict_get response "transcript" (PyStr NOT_FOUND)) = PyStr T.
Proof.
  unfold dict_get. intros [-> | [-> ->]]; reflexivity.
Qed.

(** ** Following one run *)

Section Stepping.

Context {A B : Type}.

Lemma bind_inr (m : M A) (k : A -> M B) st a st1 res :
  m st = (inr a, st1) -> k a st1 = res -> (m ≫= k) st = res.
Proof. intros Hm Hk. unfold mbind, M_bind. rewrite Hm. exact Hk. Qed.

Lemma bind_inl (m : M A) (k : A -> M B) st e st1 :
  m st = (inl e, st1) -> (m ≫= k) st = (inl e, st1).
Proof. intros Hm. unfold mbind, M_bind. rewrite Hm. reflexivity. Qed.

Lemma try_except_inr (body : M A) handler st a st1 :
  body st = (inr a, st1) -> try_except body handler st = (inr a, st1).
Proof. intros Hb. unfold try_except. rewrite Hb. reflexivity. Qed.

Lemma try_except_inl (body : M A) handler st e st1 res :
  body st = (inl e, st1) -> handler e st1 = res -> try_except body handler st = res.
Proof. intros Hb Hh. unfold try_except. rewrite Hb. exact Hh. Qed.

Lemma try_finally_run (body : M A) final st r st1 st2 :
  body st = (r, st1) -> final st1 = (inr tt, st2) -> try_finally body final st = (r, st2).
Proof. intros Hb Hf. unfold try_finally. rewrite Hb, Hf. reflexivity. Qed.

End Stepping.

Section Runs.

Variable E : env.

Lemma NamedTemporaryFile_ok suffix st tmp :
  temp_name E suffix (fs st) tmp ->
  NamedTemporaryFile E suffix st
  = (inr tmp, {| fs := <[tmp := []]> (fs st);
                 trace := (trace st ++ [Created tmp])%list;
                 temp_file_path := temp_file_path st |}).
Proof.
  intros Hname. unfold NamedTemporaryFile, temp_name in *.
  eapply bind_inr; [reflexivity|]. rewrite Hname. reflexivity.
Qed.

Lemma NamedTemporaryFile_fails suffix st e :
  _mkstemp_inner E (gettempdir E) "tmp" suffix (fs st) (TMP_MAX E) 0 = inl e ->
  NamedTemporaryFile E suffix st = (inl e, st).
Proof.
  intros Hname. unfold NamedTemporaryFile.
  eapply bind_inr; [reflexivity|]. rewrite Hname. reflexivity.
Qed.

Lemma open_wb_ok path st :
  open_error E path = None ->
  open_wb E path st
  = (inr tt, {| fs := <[path := []]> (fs st);
                trace := (trace st ++ [Created path])%list;
                temp_file_path := temp_file_path st |}).
Proof. intros Hopen. unfold open_wb. rewrite Hopen. reflexivity. Qed.

Lemma open_wb_fails path st msg :
  open_error E path = Some msg -> open_wb E path st = (inl (OSError msg), st).
Proof. intros Hopen. unfold open_wb. rewrite Hopen. reflexivity. Qed.

Lemma write_ok path data st :
  has_room E data ->
  write E path data st
  = (inr tt, {| fs := <[path := data]> (fs st);
                trace := (trace st ++ [Wrote path data])%list;
                temp_file_path := temp_file_path st |}).
Proof.
  unfold has_room, write. intros Hroom.
  eapply bind_inr; [reflexivity|].
  destruct (disk_free E) as [room|]; [|reflexivity].
  apply Nat.ltb_ge in Hroom. rewrite Hroom. reflexivity.
Qed.

Lemma write_full path data st room :
  disk_free E = Some room -> (room < List.length data)%nat ->
  write E path data st
  = (inl (OSError "[Errno 28] No space left on device"),
     {| fs := <[path := firstn room data]> (fs st);
        trace := (trace st ++ [Wrote path (firstn room data)])%list;
        temp_file_path := temp_file_path st |}).
Proof.
  unfold write. intros Hfree Hroom.
  eapply bind_inr; [reflexivity|]. rewrite Hfree.
  apply Nat.ltb_lt in Hroom. rewrite Hroom. reflexivity.
Qed.

Lemma the_temp_file_path_ok st path :
  temp_file_path st = Some path -> the_temp_file_path st = (inr path, st).
Proof.
  intros Hp. unfold the_temp_file_path.
  eapply bind_inr; [reflexivity|]. rewrite Hp. reflexivity.
Qed.

Lemma cleanup_unset st : temp_file_path st = None -> cleanup st = (inr tt, st).
Proof.
  intros Hp. unfold cleanup. eapply bind_inr; [reflexivity|]. rewrite Hp. reflexivity.
Qed.

Lemma cleanup_present st path data :
  temp_file_path st = Some path -> PyStr.truthy path = true ->
  fs st !! path = Some data ->
  cleanup st
  = (inr tt, {| fs := delete path (fs st);
                trace := (trace st ++ [Unlinked path])%list;
                temp_file_path := temp_file_path st |}).
Proof.
  intros Hp Htruthy Hfile. unfold cleanup.
  eapply bind_inr; [reflexivity|]. rewrite Hp, Htruthy.
  unfold os_path_exists, os_unlink.
  eapply bind_inr.
  { eapply bind_inr; reflexivity. }
  rewrite Hfile. cbn [bool_decide decide_rel is_Some_dec decide].
  eapply bind_inr; [reflexivity|]. rewrite Hfile.
  step_M. cbn [fs trace temp_file_path]. rewrite Hp. reflexivity.
Qed.

Lemma cleanup_absent st path :
  temp_file_path st = Some path -> fs st !! path = None -> cleanup st = (inr tt, st).
Proof.
  intros Hp Hfile. unfold cleanup.
  eapply bind_inr; [reflexivity|]. rewrite Hp.
  destruct (PyStr.truthy path); [|reflexivity].
  unfold os_path_exists.
  eapply bind_inr.
  { eapply bind_inr; reflexivity. }
  rewrite Hfile. reflexivity.
Qed.

Lemma adapter_answers c file_path audio response T st :
  SARVAM_CLIENT E = Some c ->
  fs st !! file_path = Some audio ->
  transcribe c audio DEFAULT_TRANSCRIPTION_MODEL DEFAULT_LANGUAGE_CODE = Responds response ->
  answers response T ->
  exists logged,
    _call_sarvam_transcription_api E file_path st
    = (inr (PyStr T),
       {| fs := fs st;
          trace := ((trace st
                     ++ [ProviderCall audio DEFAULT_TRANSCRIPTION_MODEL DEFAULT_LANGUAGE_CODE])
                    ++ logged)%list;
          temp_file_path := temp_file_path st |})
    /\ (logged = [] \/ logged = [PrintedResponse response]).
Proof.
  intros Hc Hfile Hresp Hans.
  unfold _call_sarvam_transcription_api. rewrite Hc.
  unfold open_rb, speech_to_text_transcribe.
  destruct (pyval_eq_str (PyStr T) NOT_FOUND) eqn:Hsentinel.
  - exists [PrintedResponse response]. split; [|right; reflexivity].
    eapply bind_inr.
    { eapply bind_inr; [reflexivity|]. rewrite Hfile. reflexivity. }
    eapply try_except_inr.
    eapply bind_inr.
    { eapply bind_inr; [reflexivity|]. rewrite Hresp. reflexivity. }
    rewrite (answers_probe _ _ Hans), Hsentinel.
    eapply bind_inr; reflexivity.
  - exists []. split; [|left; reflexivity].
    eapply bind_inr.
    { eapply bind_inr; [reflexivity|]. rewrite Hfile. reflexivity. }
    eapply try_except_inr.
    eapply bind_inr.
    { eapply bind_inr; [reflexivity|]. rewrite Hresp. reflexivity. }
    rewrite (answers_probe _ _ Hans), Hsentinel.
    eapply bind_inr; [reflexivity|]. cbn [fs trace temp_file_path].
    rewrite app_nil_r. destruct st; reflexivity.
Qed.

End Runs.

(** ** The adapter and the response model, run once *)

Lemma created_files_app (t1 t2 : list event) :
  created_files (t1 ++ t2) = (created_files t1 ++ created_files t2)%list.
Proof. unfold created_files. apply flat_map_app. Qed.

Lemma mic_recording_path_truthy E file_extension :
  PyStr.truthy (mic_recording_path E file_extension) = true.
Proof. apply join_truthy. reflexivity. Qed.

(** With a client and a readable file the adapter always reaches the
    provider, and fails with a plain [Exception] if it fails. *)
Lemma adapter_reaches_provider E c file_path audio st :
  SARVAM_CLIENT E = Some c ->
  fs st !! file_path = Some audio ->
  exists r logged,
    _call_sarvam_transcription_api E file_path st
    = (r, {| fs := fs st;
             trace := ((trace st
                        ++ [ProviderCall audio DEFAULT_TRANSCRIPTION_MODEL
                                         DEFAULT_LANGUAGE_CODE])
                       ++ logged)%list;
             temp_file_path := temp_file_path st |})
    /\ provider_calls logged = []
    /\ created_files logged = []
    /\ (forall e, r = inl e -> exists msg, e = PlainException msg).
Proof.
  intros Hc Hfile.
  unfold _call_sarvam_transcription_api. rewrite Hc.
  unfold open_rb, speech_to_text_transcribe.
  destruct (transcribe c audio DEFAULT_TRANSCRIPTION_MODEL DEFAULT_LANGUAGE_CODE)
    as [response|error] eqn:Hresp.
  - destruct (pyval_eq_str
                (dict_get response "text" (dict_get response "transcript" (PyStr NOT_FOUND)))
                NOT_FOUND) eqn:Hsentinel.
    + eexists _, [PrintedResponse response]. split.
      { eapply bind_inr.
        { eapply bind_inr; [reflexivity|]. rewrite Hfile. reflexivity. }
        eapply try_except_inr.
        eapply bind_inr.
        { eapply bind_inr; [reflexivity|]. rewrite Hresp. reflexivity. }
        rewrite Hsentinel. eapply bind_inr; reflexivity. }
      split; [reflexivity | split; [reflexivity | intros e He; discriminate He]].
    + eexists _, []. split.
      { eapply bind_inr.
        { eapply bind_inr; [reflexivity|]. rewrite Hfile. reflexivity. }
        eapply try_except_inr.
        eapply bind_inr.
        { eapply bind_inr; [reflexivity|]. rewrite Hresp. reflexivity. }
        rewrite Hsentinel. eapply bind_inr; [reflexivity|].
        cbn [fs trace temp_file_path]. rewrite app_nil_r. reflexivity. }
      split; [reflexivity | split; [reflexivity | intros e He; discriminate He]].
  - eexists _, []. split.
    { eapply bind_inr.
      { eapply bind_inr; [reflexivity|]. rewrite Hfile. reflexivity. }
      eapply try_except_inl.
      { eapply bind_inl. eapply bind_inr; [reflexivity|]. rewrite Hresp. reflexivity. }
      cbn [fs trace temp_file_path]. rewrite app_nil_r. reflexivity. }
    split; [reflexivity | split; [reflexivity |]].
    intros e [= <-]. eexists; reflexivity.
Qed.

(** Building the response changes nothing, and fails only in validation. *)
Lemma new_TranscriptionResponse_run E filename text st :
  exists r,
    new_TranscriptionResponse E filename text st = (r, st)
    /\ (forall e, r = inl e -> exists msg, e = ValidationError msg)
    /\ (forall a, r = inr a -> TranscriptionResponse.filename a = filename).
Proof.
  unfold new_TranscriptionResponse.
  destruct text as [s| |z]; try destruct (lax_str E _);
    eexists; (split; [reflexivity|]); split; intros ? [= <-];
    try reflexivity; eexists; reflexivity.
Qed.

(** ** The runs of the upload handler *)

Section UploadRuns.

Variables (E : env) (file : UploadFile.t) (files : gmap string (list Z)) (tmp : string).

Hypothesis Haudio : is_audio (UploadFile.content_type file).
Hypothesis Hname : temp_name E (upload_suffix file) files tmp.

Local Abbreviation stored := (upload_stored file files tmp).

Ltac upload_enter :=
  unfold transcribe_audio_file; rewrite (audio_passes_guard _ Haudio);
  eapply bind_inr; [reflexivity|];
  eapply bind_inr; [apply NamedTemporaryFile_ok; exact Hname|].

Ltac upload_store Hroom :=
  upload_enter;
  eapply bind_inr;
  [ eapply try_finally_run; [|reflexivity];
    eapply try_except_inr;
    eapply bind_inr; [apply write_ok; exact Hroom | reflexivity] |];
  cbn [fs trace temp_file_path app].

Lemma stored_cleanup (st : state) :
  fs st = fs stored -> temp_file_path st = Some tmp ->
  cleanup st = (inr tt, {| fs := files;
                           trace := (trace st ++ [Unlinked tmp])%list;
                           temp_file_path := Some tmp |}).
Proof.
  intros Hfs Hp.
  destruct (temp_name_spec _ _ _ _ Hname) as (Hfree & Htruthy & _).
  rewrite (cleanup_present st tmp (UploadFile.file file) Hp Htruthy).
  - rewrite Hfs, Hp. unfold upload_stored. cbn [fs].
    rewrite !delete_insert_eq, (delete_id _ _ Hfree). reflexivity.
  - rewrite Hfs. apply lookup_insert_eq.
Qed.

Lemma upload_run_answers c response T :
  has_room E (UploadFile.file file) ->
  SARVAM_CLIENT E = Some c -> responds_to c (UploadFile.file file) response ->
  answers response T ->
  exists st',
    transcribe_audio_file E file (start files)
    = (inr {| TranscriptionResponse.filename :=
                PyStr.or_else (UploadFile.filename file) "audio_file";
              TranscriptionResponse.transcribed_text := T |}, st')
    /\ fs st' = files
    /\ provider_calls (trace st')
       = [(UploadFile.file file, DEFAULT_TRANSCRIPTION_MODEL, DEFAULT_LANGUAGE_CODE)].
Proof.
  intros Hroom Hc Hresp Hans.
  destruct (adapter_answers E c tmp (UploadFile.file file) response T
              {| fs := fs stored;
                 trace := (trace stored
                           ++ [Printed ("Sending uploaded file "
                                        ++ PyStr.format_opt (UploadFile.filename file)
                                        ++ " to Sarvam AI for transcription...")])%list;
                 temp_file_path := Some tmp |}
              Hc (lookup_insert_eq _ _ _) Hresp Hans)
    as (logged & Hadapter & Hlogged).
  eexists. split; [|split].
  - upload_store Hroom.
    eapply try_finally_run.
    + eapply try_except_inr.
      eapply bind_inr; [reflexivity|].
      eapply bind_inr; [apply the_temp_file_path_ok; reflexivity|].
      eapply bind_inr; [exact Hadapter|]. reflexivity.
    + apply stored_cleanup; reflexivity.
  - reflexivity.
  - cbn [trace upload_stored fs temp_file_path].
    rewrite !provider_calls_app.
    destruct Hlogged as [-> | ->]; reflexivity.
Qed.

Lemma upload_run_uninitialised :
  has_room E (UploadFile.file file) ->
  SARVAM_CLIENT E = None ->
  exists st',
    transcribe_audio_file E file (start files)
    = (inl (HTTPException 503
              ("Transcription service failed: "
               ++ "Sarvam AI Client failed to initialize. Check SDK installation and API Key.")),
       st')
    /\ fs st' = files.
Proof.
  intros Hroom Hnone.
  eexists. split.
  - upload_store Hroom.
    eapply try_finally_run.
    + eapply try_except_inl.
      * eapply bind_inr; [reflexivity|].
        eapply bind_inr; [apply the_temp_file_path_ok; reflexivity|].
        eapply bind_inl. apply adapter_uninitialised. exact Hnone.
      * eapply bind_inr; reflexivity.
    + apply stored_cleanup; reflexivity.
  - reflexivity.
Qed.

Lemma upload_run_disk_full room :
  disk_free E = Some room -> (room < List.length (UploadFile.file file))%nat ->
  transcribe_audio_file E file (start files)
  = (inl (HTTPException 500 "Failed to save uploaded file temporarily."),
     {| fs := <[tmp := firstn room (UploadFile.file file)]> (<[tmp := []]> files);
        trace := [Created tmp; Wrote tmp (firstn room (UploadFile.file file))];
        temp_file_path := None |}).
Proof.
  intros Hfree Hroom.
  eassert (Hrun : transcribe_audio_file E file (start files) = (_, _)).
  { upload_enter.
    eapply bind_inl.
    eapply try_finally_run.
    - eapply try_except_inl.
      + eapply bind_inl. unfold copyfileobj. apply (write_full E _ _ _ room Hfree Hroom).
      + reflexivity.
    - reflexivity. }
  rewrite Hrun. reflexivity.
Qed.

(** Whatever the provider does, a stored upload reaches it exactly once, and
    its temporary file is gone when the handler returns. *)
Lemma upload_run_reaches_provider c :
  has_room E (UploadFile.file file) ->
  SARVAM_CLIENT E = Some c ->
  exists r st',
    transcribe_audio_file E file (start files) = (r, st')
    /\ fs st' = files
    /\ created_files (trace st') = [tmp]
    /\ provider_calls (trace st')
       = [(UploadFile.file file, DEFAULT_TRANSCRIPTION_MODEL, DEFAULT_LANGUAGE_CODE)].
Proof.
  intros Hroom Hc.
  set (sending := Printed ("Sending uploaded file "
                           ++ PyStr.format_opt (UploadFile.filename file)
                           ++ " to Sarvam AI for transcription...")).
  set (announced := {| fs := fs stored;
                       trace := (trace stored ++ [sending])%list;
                       temp_file_path := Some tmp |}).
  destruct (adapter_reaches_provider E c tmp (UploadFile.file file) announced Hc
              (lookup_insert_eq _ _ _))
    as (r & logged & Hadapter & Hcalls & Hcreated & Hplain).
  assert (Hobserved : forall tail st',
             trace st' = (((trace announced
                            ++ [ProviderCall (UploadFile.file file)
                                             DEFAULT_TRANSCRIPTION_MODEL
                                             DEFAULT_LANGUAGE_CODE])
                           ++ logged) ++ tail)%list ->
             created_files tail = [] -> provider_calls tail = [] ->
             created_files (trace st') = [tmp]
             /\ provider_calls (trace st')
                = [(UploadFile.file file, DEFAULT_TRANSCRIPTION_MODEL,
                    DEFAULT_LANGUAGE_CODE)]).
  { intros tail st' -> Htail_created Htail_calls.
    rewrite !created_files_app, !provider_calls_app.
    rewrite Hcreated, Hcalls, Htail_created, Htail_calls.
    split; reflexivity. }
  destruct r as [e|text].
  - destruct (Hplain e eq_refl) as [msg ->].
    eexists _, _. split.
    { upload_store Hroom.
      eapply try_finally_run.
      - eapply try_except_inl.
        + eapply bind_inr; [reflexivity|].
          eapply bind_inr; [apply the_temp_file_path_ok; reflexivity|].
          eapply bind_inl. exact Hadapter.
        + eapply bind_inr; reflexivity.
      - apply stored_cleanup; reflexivity. }
    split; [reflexivity|].
    eapply Hobserved; [cbn [trace]; rewrite <- app_assoc; reflexivity | |]; reflexivity.
  - destruct (new_TranscriptionResponse_run E
                (PyStr.or_else (UploadFile.filename file) "audio_file") text
                {| fs := fs announced;
                   trace := ((trace announced
                              ++ [ProviderCall (UploadFile.file file)
                                               DEFAULT_TRANSCRIPTION_MODEL
                                               DEFAULT_LANGUAGE_CODE])
                             ++ logged)%list;
                   temp_file_path := temp_file_path announced |})
      as (r & Hnew & Hinvalid & _).
    destruct r as [e|response].
    + destruct (Hinvalid e eq_refl) as [msg ->].
      eexists _, _. split.
      { upload_store Hroom.
        eapply try_finally_run.
        - eapply try_except_inl.
          + eapply bind_inr; [reflexivity|].
            eapply bind_inr; [apply the_temp_file_path_ok; reflexivity|].
            eapply bind_inr; [exact Hadapter|]. exact Hnew.
          + eapply bind_inr; reflexivity.
        - apply stored_cleanup; reflexivity. }
      split; [reflexivity|].
      eapply Hobserved; [cbn [trace]; rewrite <- app_assoc; reflexivity | |]; reflexivity.
    + eexists _, _. split.
      { upload_store Hroom.
        eapply try_finally_run.
        - eapply try_except_inr.
          eapply bind_inr; [reflexivity|].
          eapply bind_inr; [apply the_temp_file_path_ok; reflexivity|].
          eapply bind_inr; [exact Hadapter|]. exact Hnew.
        - apply stored_cleanup; reflexivity. }
      split; [reflexivity|].
      eapply Hobserved; [cbn [trace]; reflexivity | |]; reflexivity.
Qed.

(** Once the body is stored the disk is as it was when the handler returns. *)
Lemma upload_stored_leaves_no_file :
  has_room E (UploadFile.file file) ->
  fs (snd (transcribe_audio_file E file (start files))) = files.
Proof.
  intros Hroom. destruct (SARVAM_CLIENT E) as [c|] eqn:Hc.
  - destruct (upload_run_reaches_provider c Hroom Hc) as (r & st' & -> & Hfs & _).
    exact Hfs.
  - destruct (upload_run_uninitialised Hroom Hc) as (st' & -> & Hfs). exact Hfs.
Qed.

End UploadRuns.

(** ** The runs of the Base64 handler *)

Section Base64Runs.

Variables (E : env) (request : Base64AudioRequest.t) (files : gmap string (list Z)).
Variable audio_bytes : list Z.

Local Abbreviation path := (mic_recording_path E (Base64AudioRequest.file_extension request)).

Hypothesis Hdecoded :
  Base64.b64decode (Base64AudioRequest.audio_data request) = Base64.Decoded audio_bytes.
Hypothesis Hopen : open_error E path = None.
Hypothesis Hroom : has_room E audio_bytes.

Local Abbreviation announced := (base64_announced request files path audio_bytes).

Ltac base64_enter :=
  unfold transcribe_base64_audio;
  eapply bind_inr; [reflexivity|].

Ltac base64_store :=
  eapply bind_inr; [unfold b64decode; rewrite Hdecoded; reflexivity|];
  eapply bind_inr; [reflexivity|];
  eapply bind_inr; [apply the_temp_file_path_ok; reflexivity|];
  eapply bind_inr; [apply open_wb_ok; exact Hopen|];
  eapply bind_inr; [apply write_ok; exact Hroom|];
  eapply bind_inr; [reflexivity|];
  eapply bind_inr; [apply the_temp_file_path_ok; reflexivity|];
  cbn [fs trace temp_file_path app].

Lemma announced_cleanup (st : state) :
  fs st = fs announced -> temp_file_path st = Some path ->
  cleanup st = (inr tt, {| fs := delete path files;
                           trace := (trace st ++ [Unlinked path])%list;
                           temp_file_path := Some path |}).
Proof.
  intros Hfs Hp.
  rewrite (cleanup_present st path audio_bytes Hp (mic_recording_path_truthy _ _)).
  - rewrite Hfs, Hp. unfold base64_announced. cbn [fs].
    rewrite !delete_insert_eq. reflexivity.
  - rewrite Hfs. apply lookup_insert_eq.
Qed.

Lemma base64_run_answers c response T :
  SARVAM_CLIENT E = Some c -> responds_to c audio_bytes response ->
  answers response T ->
  exists st',
    transcribe_base64_audio E request (start files)
    = (inr {| TranscriptionResponse.filename := Base64AudioRequest.filename request;
              TranscriptionResponse.transcribed_text := T |}, st')
    /\ fs st' = delete path files
    /\ provider_calls (trace st')
       = [(audio_bytes, DEFAULT_TRANSCRIPTION_MODEL, DEFAULT_LANGUAGE_CODE)].
Proof.
  intros Hc Hresp Hans.
  destruct (adapter_answers E c path audio_bytes response T announced
              Hc (lookup_insert_eq _ _ _) Hresp Hans)
    as (logged & Hadapter & Hlogged).
  eexists. split; [|split].
  - base64_enter.
    eapply try_finally_run.
    + eapply try_except_inr. base64_store.
      eapply bind_inr; [exact Hadapter|]. reflexivity.
    + apply announced_cleanup; reflexivity.
  - reflexivity.
  - cbn [trace base64_announced fs temp_file_path].
    rewrite !provider_calls_app.
    destruct Hlogged as [-> | ->]; reflexivity.
Qed.

Lemma base64_run_uninitialised :
  SARVAM_CLIENT E = None ->
  exists st',
    transcribe_base64_audio E request (start files)
    = (inl (HTTPException 503
              ("Transcription service failed: "
               ++ "Sarvam AI Client failed to initialize. Check SDK installation and API Key.")),
       st')
    /\ fs st' = delete path files
    /\ created_files (trace st') = [path]
    /\ In (Wrote path audio_bytes) (trace st').
Proof.
  intros Hnone.
  eexists. split.
  - base64_enter.
    eapply try_finally_run.
    + eapply try_except_inl.
      * base64_store. eapply bind_inl. apply adapter_uninitialised. exact Hnone.
      * eapply bind_inr; reflexivity.
    + apply announced_cleanup; reflexivity.
  - repeat split; try reflexivity. cbn. tauto.
Qed.

(** Whatever the provider does, a stored payload reaches it exactly once. *)
Lemma base64_run_reaches_provider c :
  SARVAM_CLIENT E = Some c ->
  exists r st',
    transcribe_base64_audio E request (start files) = (r, st')
    /\ fs st' = delete path files
    /\ created_files (trace st') = [path]
    /\ In (Wrote path audio_bytes) (trace st')
    /\ provider_calls (trace st')
       = [(audio_bytes, DEFAULT_TRANSCRIPTION_MODEL, DEFAULT_LANGUAGE_CODE)].
Proof.
  intros Hc.
  destruct (adapter_reaches_provider E c path audio_bytes announced Hc
              (lookup_insert_eq _ _ _))
    as (r & logged & Hadapter & Hcalls & Hcreated & Hplain).
  assert (Hobserved : forall tail st',
             trace st' = (((trace announced
                            ++ [ProviderCall audio_bytes DEFAULT_TRANSCRIPTION_MODEL
                                             DEFAULT_LANGUAGE_CODE])
                           ++ logged) ++ tail)%list ->
             created_files tail = [] -> provider_calls tail = [] ->
             created_files (trace st') = [path]
             /\ In (Wrote path audio_bytes) (trace st')
             /\ provider_calls (trace st')
                = [(audio_bytes, DEFAULT_TRANSCRIPTION_MODEL, DEFAULT_LANGUAGE_CODE)]).
  { intros tail st' -> Htail_created Htail_calls.
    rewrite !created_files_app, !provider_calls_app, !in_app_iff.
    rewrite Hcreated, Hcalls, Htail_created, Htail_calls.
    repeat split; try reflexivity. unfold base64_announced. cbn. tauto. }
  destruct r as [e|text].
  - destruct (Hplain e eq_refl) as [msg ->].
    eexists _, _. split.
    { base64_enter.
      eapply try_finally_run.
      - eapply try_except_inl.
        + base64_store. eapply bind_inl. exact Hadapter.
        + eapply bind_inr; reflexivity.
      - apply announced_cleanup; reflexivity. }
    split; [reflexivity|].
    eapply Hobserved; [cbn [trace]; rewrite <- app_assoc; reflexivity | |]; reflexivity.
  - destruct (new_TranscriptionResponse_run E (Base64AudioRequest.filename request) text
                {| fs := fs announced;
                   trace := ((trace announced
                              ++ [ProviderCall audio_bytes DEFAULT_TRANSCRIPTION_MODEL
                                               DEFAULT_LANGUAGE_CODE])
                             ++ logged)%list;
                   temp_file_path := temp_file_path announced |})
      as (r & Hnew & Hinvalid & _).
    destruct r as [e|response].
    + destruct (Hinvalid e eq_refl) as [msg ->].
      eexists _, _. split.
      { base64_enter.
        eapply try_finally_run.
        - eapply try_except_inl.
          + base64_store. eapply bind_inr; [exact Hadapter|]. exact Hnew.
          + eapply bind_inr; reflexivity.
        - apply announced_cleanup; reflexivity. }
      split; [reflexivity|].
      eapply Hobserved; [cbn [trace]; rewrite <- app_assoc; reflexivity | |]; reflexivity.
    + eexists _, _. split.
      { base64_enter.
        eapply try_finally_run.
        - eapply try_except_inr. base64_store.
          eapply bind_inr; [exact Hadapter|]. exact Hnew.
        - apply announced_cleanup; reflexivity. }
      split; [reflexivity|].
      eapply Hobserved; [cbn [trace]; reflexivity | |]; reflexivity.
Qed.

End Base64Runs.

Lemma base64_run_invalid E request st e :
  Base64.b64decode (Base64AudioRequest.audio_data request) = Base64.RaisesBinasciiError e ->
  transcribe_base64_audio E request st
  = (inl (HTTPException 400 "Invalid Base64 audio data received."),
     {| fs := fs st; trace := trace st; temp_file_path := None |}).
Proof.
  intros Hdec. unfold transcribe_base64_audio.
  eapply bind_inr; [reflexivity|].
  eapply try_finally_run.
  - eapply try_except_inl.
    + eapply bind_inl. unfold b64decode. rewrite Hdec. reflexivity.
    + reflexivity.
  - reflexivity.
Qed.

(** ** What a computation may return, and what it may raise *)

Section Outcomes.

Context {A B : Type}.

Lemma returns_ret (R : A -> Prop) (a : A) : R a -> returns_only R (mret a : M A).
Proof. intros Ha st a' [= <-]. exact Ha. Qed.

Lemma returns_raise (R : A -> Prop) (e : exn) : returns_only R (raise e : M A).
Proof. intros st a H. discriminate H. Qed.

Lemma returns_bind (R : B -> Prop) (m : M A) (k : A -> M B) :
  (forall a, returns_only R (k a)) -> returns_only R (m ≫= k).
Proof.
  intros Hk st b. unfold mbind, M_bind.
  destruct (m st) as [[e|a] st']; [discriminate|]. apply Hk.
Qed.

Lemma returns_try_except (R : A -> Prop) (body : M A) handler :
  returns_only R body -> (forall e, returns_only R (handler e)) ->
  returns_only R (try_except body handler).
Proof.
  intros Hb Hh st a. unfold try_except.
  specialize (Hb st). destruct (body st) as [[e|a'] st']; [apply Hh | apply Hb].
Qed.

Lemma returns_try_finally (R : A -> Prop) (body : M A) final :
  returns_only R body -> returns_only R (try_finally body final).
Proof.
  intros Hb st a. unfold try_finally.
  specialize (Hb st a). destruct (body st) as [r st'].
  destruct (final st') as [[e|u] st'']; [discriminate | exact Hb].
Qed.

Lemma raises_ret (P : exn -> Prop) (a : A) : raises_only P (mret a : M A).
Proof. intros st e H. discriminate H. Qed.

Lemma raises_raise (P : exn -> Prop) (e : exn) : P e -> raises_only P (raise e : M A).
Proof. intros He st e' [= <-]. exact He. Qed.

Lemma raises_bind (P : exn -> Prop) (m : M A) (k : A -> M B) :
  raises_only P m -> (forall a, raises_only P (k a)) -> raises_only P (m ≫= k).
Proof.
  intros Hm Hk st e. unfold mbind, M_bind.
  specialize (Hm st). destruct (m st) as [[e'|a] st']; [|apply Hk].
  intros [= <-]. apply Hm. reflexivity.
Qed.

Lemma raises_try_except (P' P : exn -> Prop) (body : M A) handler :
  raises_only P' body -> (forall e, P' e -> raises_only P (handler e)) ->
  raises_only P (try_except body handler).
Proof.
  intros Hb Hh st e. unfold try_except.
  specialize (Hb st). destruct (body st) as [[e'|a] st']; [|discriminate].
  apply Hh, Hb. reflexivity.
Qed.

Lemma raises_try_finally (P : exn -> Prop) (body : M A) final :
  raises_only P body -> raises_only P final -> raises_only P (try_finally body final).
Proof.
  intros Hb Hf st e. unfold try_finally.
  specialize (Hb st e). specialize (Hf (snd (body st)) e).
  destruct (body st) as [r st']. cbn [snd] in Hf.
  destruct (final st') as [[e'|u] st'']; [|exact Hb].
  intros [= <-]. apply Hf. reflexivity.
Qed.

Lemma raises_weaken (P P' : exn -> Prop) (m : M A) :
  (forall e, P e -> P' e) -> raises_only P m -> raises_only P' m.
Proof. intros HP Hm st e He. apply HP, (Hm st e He). Qed.

End Outcomes.

Lemma raises_get_fs P : raises_only P get_fs.
Proof. intros st e H. discriminate H. Qed.

Lemma raises_put_fs P files : raises_only P (put_fs files).
Proof. intros st e H. discriminate H. Qed.

Lemma raises_emit P ev : raises_only P (emit ev).
Proof. intros st e H. discriminate H. Qed.

Lemma raises_get_temp_file_path P : raises_only P get_temp_file_path.
Proof. intros st e H. discriminate H. Qed.

Lemma raises_set_temp_file_path P p : raises_only P (set_temp_file_path p).
Proof. intros st e H. discriminate H. Qed.

(** Walks through a computation, leaving the conditions on what it raises. *)
Ltac raises_walk :=
  repeat first
    [ apply raises_ret
    | apply raises_get_fs
    | apply raises_put_fs
    | apply raises_emit
    | apply raises_get_temp_file_path
    | apply raises_set_temp_file_path
    | apply raises_bind; [| intros ?]
    | apply raises_try_finally
    | apply raises_raise
    | match goal with
      | |- raises_only _ (match ?x with _ => _ end) => destruct x
      | |- raises_only _ (if ?x then _ else _) => destruct x
      end ].

Lemma cleanup_raises : raises_only is_os_error cleanup.
Proof. unfold cleanup, os_path_exists, os_unlink. raises_walk; exact I. Qed.

Lemma adapter_raises E file_path :
  raises_only not_binascii (_call_sarvam_transcription_api E file_path).
Proof.
  unfold _call_sarvam_transcription_api, open_rb.
  destruct (SARVAM_CLIENT E); [|apply raises_raise; exact I].
  apply raises_bind; [raises_walk; exact I | intros audio].
  apply (raises_try_except (fun _ => True)).
  - intros st e _. exact I.
  - intros e _. apply raises_raise. exact I.
Qed.

Lemma new_TranscriptionResponse_raises E filename text :
  raises_only not_binascii (new_TranscriptionResponse E filename text).
Proof. unfold new_TranscriptionResponse. raises_walk; exact I. Qed.

Lemma new_TranscriptionResponse_returns E filename text :
  returns_only (fun r => TranscriptionResponse.filename r = filename)
               (new_TranscriptionResponse E filename text).
Proof.
  intros st a Ha.
  destruct (new_TranscriptionResponse_run E filename text st) as (r & Hrun & _ & Hname).
  rewrite Hrun in Ha. exact (Hname a Ha).
Qed.

(** The Base64 handler answers 400 only when the decoder raised
    [binascii.Error]: every other failure is told apart from it. *)
Lemma base64_400_only_when_rejected E request st :
  status_of (fst (transcribe_base64_audio E request st)) = 400 ->
  rejected_by_decoder (Base64AudioRequest.audio_data request).
Proof.
  set (P := fun e : exn => status_of (@inl exn TranscriptionResponse.t e) = 400 ->
                           rejected_by_decoder (Base64AudioRequest.audio_data request)).
  assert (Hweak : forall e, not_binascii e ->
                            not_binascii e \/
                            rejected_by_decoder (Base64AudioRequest.audio_data request))
    by (intros; left; assumption).
  assert (Hall : raises_only P (transcribe_base64_audio E request)).
  { unfold transcribe_base64_audio.
    apply raises_bind; [apply raises_set_temp_file_path | intros _].
    apply raises_try_finally.
    - apply (raises_try_except
               (fun e => not_binascii e
                         \/ rejected_by_decoder (Base64AudioRequest.audio_data request))).
      + apply raises_bind; [| intros audio_bytes].
        { unfold b64decode.
          destruct (Base64.b64decode (Base64AudioRequest.audio_data request))
            as [decoded|rejection|msg] eqn:Hdec.
          - apply raises_ret.
          - apply raises_raise. right. exists rejection. exact Hdec.
          - apply raises_raise. left. exact I. }
        apply (raises_weaken not_binascii); [exact Hweak|].
        unfold the_temp_file_path, open_wb, write, print.
        apply raises_bind; [apply raises_set_temp_file_path | intros _].
        apply raises_bind; [raises_walk; exact I | intros path].
        apply raises_bind; [raises_walk; exact I | intros _].
        apply raises_bind; [raises_walk; exact I | intros _].
        apply raises_bind; [apply raises_emit | intros _].
        apply raises_bind; [raises_walk; exact I | intros path'].
        apply raises_bind; [apply adapter_raises | intros text].
        apply new_TranscriptionResponse_raises.
      + intros e He. unfold print.
        destruct e; try (raises_walk; intros H; discriminate H).
        destruct He as [[] | Hrej]. apply raises_raise. intros _. exact Hrej.
    - apply (raises_weaken is_os_error); [|apply cleanup_raises].
      intros e He H. destruct e; try destruct He. discriminate H. }
  destruct (fst (transcribe_base64_audio E request st)) as [e|r] eqn:Hrun.
  - apply (Hall st e Hrun).
  - discriminate.
Qed.

(** ** Runs that differ in their log lines only *)

Lemma io_events_app (t1 t2 : list event) :
  io_events (t1 ++ t2) = (io_events t1 ++ io_events t2)%list.
Proof. unfold io_events. apply flat_map_app. Qed.

Lemma provider_calls_io_events (t : list event) :
  provider_calls (io_events t) = provider_calls t.
Proof.
  induction t as [|ev t IH]; [reflexivity|].
  change (ev :: t) with ([ev] ++ t)%list.
  rewrite io_events_app, !provider_calls_app, IH.
  destruct ev; reflexivity.
Qed.

Lemma sim_refl (st : state) : sim st st.
Proof. repeat split. Qed.

Section Related.

Context {A B : Type}.

Lemma related_ret (R : A -> A -> Prop) (a1 a2 : A) :
  R a1 a2 -> related R (mret a1 : M A) (mret a2).
Proof. intros Ha st1 st2 Hsim. split; [exact Ha | exact Hsim]. Qed.

Lemma related_raise (R : A -> A -> Prop) (e : exn) :
  related R (raise e : M A) (raise e).
Proof. intros st1 st2 Hsim. split; [reflexivity | exact Hsim]. Qed.

Lemma related_bind (RA : A -> A -> Prop) (R : B -> B -> Prop)
    (m1 m2 : M A) (k1 k2 : A -> M B) :
  related RA m1 m2 ->
  (forall a1 a2, RA a1 a2 -> related R (k1 a1) (k2 a2)) ->
  related R (m1 ≫= k1) (m2 ≫= k2).
Proof.
  intros Hm Hk st1 st2 Hsim. unfold mbind, M_bind.
  destruct (Hm st1 st2 Hsim) as [Hout Hsim'].
  destruct (m1 st1) as [[e1|a1] st1'], (m2 st2) as [[e2|a2] st2'];
    cbn [fst snd same_outcome] in *; try contradiction.
  - split; assumption.
  - apply Hk; assumption.
Qed.

Lemma related_try_except (R : A -> A -> Prop) (b1 b2 : M A) (h1 h2 : exn -> M A) :
  related R b1 b2 -> (forall e, related R (h1 e) (h2 e)) ->
  related R (try_except b1 h1) (try_except b2 h2).
Proof.
  intros Hb Hh st1 st2 Hsim. unfold try_except.
  destruct (Hb st1 st2 Hsim) as [Hout Hsim'].
  destruct (b1 st1) as [[e1|a1] st1'], (b2 st2) as [[e2|a2] st2'];
    cbn [fst snd same_outcome] in *; try contradiction.
  - subst e2. apply Hh; assumption.
  - split; assumption.
Qed.

Lemma related_try_finally (R : A -> A -> Prop) (b1 b2 : M A) (f1 f2 : M unit) :
  related R b1 b2 -> related eq f1 f2 ->
  related R (try_finally b1 f1) (try_finally b2 f2).
Proof.
  intros Hb Hf st1 st2 Hsim. unfold try_finally.
  destruct (Hb st1 st2 Hsim) as [Hout Hsim'].
  destruct (b1 st1) as [r1 st1'], (b2 st2) as [r2 st2']. cbn [fst snd] in *.
  destruct (Hf st1' st2' Hsim') as [Hout' Hsim''].
  destruct (f1 st1') as [[e1|u1] st1''], (f2 st2') as [[e2|u2] st2''];
    cbn [fst snd same_outcome] in *; try contradiction; split; assumption.
Qed.

End Related.

Lemma related_get_fs : related eq get_fs get_fs.
Proof. intros st1 st2 Hsim. split; [apply Hsim | exact Hsim]. Qed.

Lemma related_put_fs files : related eq (put_fs files) (put_fs files).
Proof.
  intros st1 st2 (Hfs & Hp & Hio). split; [reflexivity|].
  repeat split; assumption.
Qed.

Lemma related_get_temp_file_path : related eq get_temp_file_path get_temp_file_path.
Proof. intros st1 st2 Hsim. split; [apply Hsim | exact Hsim]. Qed.

Lemma related_set_temp_file_path p :
  related eq (set_temp_file_path p) (set_temp_file_path p).
Proof.
  intros st1 st2 (Hfs & Hp & Hio). split; [reflexivity|].
  repeat split; assumption.
Qed.

Lemma related_emit ev : related eq (emit ev) (emit ev).
Proof.
  intros st1 st2 (Hfs & Hp & Hio). split; [reflexivity|].
  repeat split; try assumption.
  cbn [trace emit snd]. rewrite !io_events_app, Hio. reflexivity.
Qed.

(** Two log lines may differ: neither is an effect on files or provider. *)
Lemma related_print line1 line2 : related eq (print line1) (print line2).
Proof.
  intros st1 st2 (Hfs & Hp & Hio). split; [reflexivity|].
  repeat split; try assumption.
  unfold print. cbn [trace emit snd]. rewrite !io_events_app, Hio. reflexivity.
Qed.

(** Walks through one computation run twice. *)
Ltac related_walk :=
  repeat first
    [ apply related_ret; reflexivity
    | apply related_raise
    | apply related_get_fs
    | apply related_put_fs
    | apply related_get_temp_file_path
    | apply related_set_temp_file_path
    | apply related_emit
    | apply related_print
    | apply (related_bind eq); [| intros ? ? <-]
    | apply related_try_except; [| intros ?]
    | apply related_try_finally
    | match goal with
      | |- related _ (match ?x with _ => _ end) (match ?x with _ => _ end) => destruct x
      | |- related _ (if ?x then _ else _) (if ?x then _ else _) => destruct x
      end ].

Lemma cleanup_related : related eq cleanup cleanup.
Proof. unfold cleanup, os_path_exists, os_unlink. related_walk. Qed.

Lemma adapter_related E file_path :
  related eq (_call_sarvam_transcription_api E file_path)
             (_call_sarvam_transcription_api E file_path).
Proof.
  unfold _call_sarvam_transcription_api, open_rb, speech_to_text_transcribe.
  related_walk.
Qed.

(** Two Base64 requests that differ in [filename] only: the runs agree on the
    disk, on the local [temp_file_path], on every effect on files and
    provider, and on the outcome up to the echoed name. *)
Lemma base64_filename_related E request name :
  related (fun r1 r2 =>
             TranscriptionResponse.transcribed_text r1
             = TranscriptionResponse.transcribed_text r2
             /\ TranscriptionResponse.filename r1 = Base64AudioRequest.filename request
             /\ TranscriptionResponse.filename r2 = name)
          (transcribe_base64_audio E request)
          (transcribe_base64_audio E (with_filename request name)).
Proof.
  unfold transcribe_base64_audio, with_filename.
  cbn [Base64AudioRequest.audio_data Base64AudioRequest.file_extension
       Base64AudioRequest.filename].
  apply (related_bind eq); [apply related_set_temp_file_path | intros _ _ _].
  apply related_try_finally; [| apply cleanup_related].
  apply related_try_except.
  - unfold b64decode, the_temp_file_path, open_wb, write.
    apply (related_bind eq); [related_walk | intros audio_bytes ? <-].
    apply (related_bind eq); [related_walk | intros _ _ _].
    apply (related_bind eq); [related_walk | intros path ? <-].
    apply (related_bind eq); [related_walk | intros _ _ _].
    apply (related_bind eq); [related_walk | intros _ _ _].
    apply (related_bind eq); [apply related_print | intros _ _ _].
    apply (related_bind eq); [related_walk | intros path' ? <-].
    apply (related_bind eq); [apply adapter_related | intros text ? <-].
    unfold new_TranscriptionResponse.
    destruct text as [s| |z]; try destruct (lax_str E _);
      first [apply related_raise | apply related_ret; repeat split].
  - intros e. destruct e; related_walk.
Qed.

(** ** The suffix of the upload handler's temporary file *)

Lemma rfind_from_absent (c : ascii) (s : string) (i last : Z) :
  has_char c s = false -> PyStr.rfind_from c s i last = last.
Proof.
  revert i last. induction s as [|a s IH]; intros i last Habsent; [reflexivity|].
  cbn [has_char PyStr.rfind_from] in *.
  apply orb_false_elim in Habsent as [Ha Hs]. rewrite Ha. apply IH, Hs.
Qed.

Lemma rfind_from_lower (c : ascii) (s : string) (i last : Z) :
  -1 <= last -> 0 <= i -> -1 <= PyStr.rfind_from c s i last.
Proof.
  revert i last. induction s as [|a s IH]; intros i last Hlast Hi; [exact Hlast|].
  cbn [PyStr.rfind_from]. apply IH; [|lia].
  destruct (Ascii.eqb a c); lia.
Qed.

(** A name without a dot has no extension. *)
Lemma splitext_no_dot (p : string) :
  has_char "."%char p = false -> snd (OsPath.splitext p) = "".
Proof.
  intros Hdot. unfold OsPath.splitext, PyStr.rfind.
  rewrite (rfind_from_absent OsPath.extsep p 0 (-1) Hdot).
  pose proof (rfind_from_lower OsPath.sep p 0 (-1) ltac:(lia) ltac:(lia)) as Hsep.
  apply Z.ltb_ge in Hsep. rewrite Hsep.
  destruct p; reflexivity.
Qed.

Lemma upload_suffix_absent (file : UploadFile.t) :
  UploadFile.filename file = None \/ UploadFile.filename file = Some "" ->
  upload_suffix file = ".wav".
Proof. unfold upload_suffix. intros [-> | ->]; reflexivity. Qed.

Lemma upload_suffix_no_dot (file : UploadFile.t) (name : string) :
  UploadFile.filename file = Some name -> name <> "" ->
  has_char "."%char name = false ->
  upload_suffix file = "".
Proof.
  intros Hname Hnonempty Hdot. unfold upload_suffix. rewrite Hname.
  destruct name as [|a name]; [contradiction|].
  cbn [PyStr.or_else PyStr.truthy String.eqb negb]. apply splitext_no_dot, Hdot.
Qed.

Lemma created_files_none (evs : list event) :
  Forall creates_nothing evs -> created_files evs = [].
Proof.
  induction 1 as [|ev evs Hev _ IH]; [reflexivity|].
  destruct ev; cbn in *; try assumption. contradiction.
Qed.

Lemma created_files_suffix (suffix : string) (evs : list event) :
  Forall (creates_with_suffix suffix) evs ->
  Forall (has_suffix suffix) (created_files evs).
Proof.
  induction 1 as [|ev evs Hev _ IH]; [constructor|].
  destruct ev; cbn in *; try assumption. constructor; assumption.
Qed.

Lemma adapter_creates_nothing E file_path :
  emits_only creates_nothing (_call_sarvam_transcription_api E file_path).
Proof.
  unfold _call_sarvam_transcription_api, open_rb, speech_to_text_transcribe.
  emits_walk; exact I.
Qed.

(** Once the temporary file is named, the upload handler creates no other. *)
Lemma upload_tail_creates_nothing E (file : UploadFile.t) (tmp : string) :
  emits_only creates_nothing
    (try_finally
       (try_except
          (copyfileobj E (UploadFile.file file) tmp;;
           set_temp_file_path (Some tmp))
          (fun _ => raise (HTTPException 500 "Failed to save uploaded file temporarily.")))
       (mret tt);;
     try_finally
       (try_except
          (print ("Sending uploaded file " ++ PyStr.format_opt (UploadFile.filename file)
                  ++ " to Sarvam AI for transcription...");;
           path ← the_temp_file_path;
           transcribed_text ← _call_sarvam_transcription_api E path;
           new_TranscriptionResponse E
             (PyStr.or_else (UploadFile.filename file) "audio_file") transcribed_text)
          (fun e =>
             print ("An unexpected error occurred during transcription: " ++ str_exn e);;
             raise (HTTPException 503 ("Transcription service failed: " ++ str_exn e))))
       cleanup).
Proof.
  unfold copyfileobj, write, print, the_temp_file_path, new_TranscriptionResponse,
    cleanup, os_path_exists, os_unlink.
  apply emits_bind; [emits_walk; exact I | intros _].
  apply emits_try_finally; [| emits_walk; exact I].
  apply emits_try_except; [| intros e; emits_walk; exact I].
  apply emits_bind; [emits_walk; exact I | intros _].
  apply emits_bind; [emits_walk; exact I | intros path].
  apply emits_bind; [apply adapter_creates_nothing | intros text].
  emits_walk; exact I.
Qed.

(** The upload handler creates at most the file [tempfile] names, and that
    name ends with the suffix derived from the uploaded filename. *)
Lemma upload_created_files E (file : UploadFile.t) (files : gmap string (list Z)) :
  created_files (trace (snd (transcribe_audio_file E file (start files)))) = []
  \/ exists tmp,
       is_audio (UploadFile.content_type file)
       /\ temp_name E (upload_suffix file) files tmp
       /\ created_files (trace (snd (transcribe_audio_file E file (start files)))) = [tmp].
Proof.
  unfold transcribe_audio_file.
  match goal with |- context [if ?g then _ else _] => destruct g eqn:Hguard end;
    [left; reflexivity|].
  apply guard_passed_by_audio in Hguard.
  destruct (_mkstemp_inner E (gettempdir E) "tmp" (upload_suffix file) files (TMP_MAX E) 0)
    as [e|tmp] eqn:Hname.
  - left.
    erewrite bind_inr; [| reflexivity | reflexivity].
    erewrite bind_inl; [| apply NamedTemporaryFile_fails; exact Hname].
    reflexivity.
  - right. exists tmp. split; [exact Hguard|]. split; [exact Hname|].
    erewrite bind_inr; [| reflexivity | reflexivity].
    erewrite bind_inr; [| apply NamedTemporaryFile_ok; exact Hname | reflexivity].
    destruct (upload_tail_creates_nothing E file tmp
                {| fs := <[tmp := []]> files;
                   trace := [Created tmp];
                   temp_file_path := None |})
      as (evs & Htrace & Hall).
    cbn [fs trace temp_file_path start app]. rewrite Htrace.
    rewrite created_files_app, (created_files_none evs Hall). reflexivity.
Qed.

(** ** Where the temporary file is removed *)

Lemma base64_run_value_error E request files msg :
  Base64.b64decode (Base64AudioRequest.audio_data request) = Base64.RaisesValueError msg ->
  transcribe_base64_audio E request (start files)
  = (inl (HTTPException 503 ("Transcription service failed: " ++ msg)),
     {| fs := files;
        trace := [Printed ("An unexpected error occurred during Base64 transcription: "
                           ++ msg)];
        temp_file_path := None |}).
Proof.
  intros Hdec. unfold transcribe_base64_audio.
  eapply bind_inr; [reflexivity|].
  eapply try_finally_run.
  - eapply try_except_inl.
    + eapply bind_inl. unfold b64decode. rewrite Hdec. reflexivity.
    + eapply bind_inr; reflexivity.
  - reflexivity.
Qed.

Lemma cleanup_deletes (st : state) (path : string) :
  temp_file_path st = Some path -> PyStr.truthy path = true ->
  exists st', cleanup st = (inr tt, st')
              /\ fs st' = delete path (fs st)
              /\ created_files (trace st') = created_files (trace st)
              /\ provider_calls (trace st') = provider_calls (trace st).
Proof.
  intros Hp Htruthy. destruct (fs st !! path) as [data|] eqn:Hfile.
  - eexists. split; [apply (cleanup_present st path data Hp Htruthy Hfile)|].
    split; [reflexivity|]. cbn [trace].
    rewrite created_files_app, provider_calls_app. split; apply app_nil_r.
  - exists st. split; [apply (cleanup_absent st path Hp Hfile)|].
    split; [symmetry; apply delete_id, Hfile | split; reflexivity].
Qed.

Lemma base64_run_open_fails E request files audio_bytes msg :
  Base64.b64decode (Base64AudioRequest.audio_data request) = Base64.Decoded audio_bytes ->
  open_error E (mic_recording_path E (Base64AudioRequest.file_extension request))
  = Some msg ->
  exists st',
    transcribe_base64_audio E request (start files)
    = (inl (HTTPException 503 ("Transcription service failed: " ++ msg)), st')
    /\ fs st' = delete (mic_recording_path E (Base64AudioRequest.file_extension request))
                       files
    /\ created_files (trace st') = []
    /\ provider_calls (trace st') = [].
Proof.
  intros Hdec Hopen.
  destruct (cleanup_deletes
              {| fs := files;
                 trace := [Printed ("An unexpected error occurred during Base64 transcription: "
                                    ++ msg)];
                 temp_file_path :=
                   Some (mic_recording_path E (Base64AudioRequest.file_extension request)) |}
              _ eq_refl (mic_recording_path_truthy _ _))
    as (st' & Hcleanup & Hfs & Hcreated & Hcalls).
  exists st'. split; [|split; [exact Hfs | split; [exact Hcreated | exact Hcalls]]].
  unfold transcribe_base64_audio.
  eapply bind_inr; [reflexivity|].
  eapply try_finally_run; [|exact Hcleanup].
  eapply try_except_inl.
  - eapply bind_inr; [unfold b64decode; rewrite Hdec; reflexivity|].
    eapply bind_inr; [reflexivity|].
    eapply bind_inr; [apply the_temp_file_path_ok; reflexivity|].
    eapply bind_inl. apply open_wb_fails. exact Hopen.
  - eapply bind_inr; reflexivity.
Qed.

Lemma base64_run_disk_full E request files audio_bytes room :
  Base64.b64decode (Base64AudioRequest.audio_data request) = Base64.Decoded audio_bytes ->
  open_error E (mic_recording_path E (Base64AudioRequest.file_extension request)) = None ->
  disk_free E = Some room -> (room < List.length audio_bytes)%nat ->
  exists st',
    transcribe_base64_audio E request (start files)
    = (inl (HTTPException 503
              ("Transcription service failed: " ++ "[Errno 28] No space left on device")),
       st')
    /\ fs st' = delete (mic_recording_path E (Base64AudioRequest.file_extension request))
                       files
    /\ created_files (trace st')
       = [mic_recording_path E (Base64AudioRequest.file_extension request)]
    /\ provider_calls (trace st') = [].
Proof.
  intros Hdec Hopen Hfree Hroom.
  set (path := mic_recording_path E (Base64AudioRequest.file_extension request)).
  destruct (cleanup_deletes
              {| fs := <[path := firstn room audio_bytes]> (<[path := []]> files);
                 trace := [Created path; Wrote path (firstn room audio_bytes);
                           Printed ("An unexpected error occurred during Base64 transcription: "
                                    ++ "[Errno 28] No space left on device")];
                 temp_file_path := Some path |}
              path eq_refl (mic_recording_path_truthy _ _))
    as (st' & Hcleanup & Hfs & Hcreated & Hcalls).
  exists st'. split; [|split; [|split]].
  - unfold transcribe_base64_audio.
    eapply bind_inr; [reflexivity|].
    eapply try_finally_run; [|exact Hcleanup].
    eapply try_except_inl.
    + eapply bind_inr; [unfold b64decode; rewrite Hdec; reflexivity|].
      eapply bind_inr; [reflexivity|].
      eapply bind_inr; [apply the_temp_file_path_ok; reflexivity|].
      eapply bind_inr; [apply open_wb_ok; exact Hopen|].
      eapply bind_inl. apply (write_full E _ _ _ room Hfree Hroom).
    + eapply bind_inr; reflexivity.
  - rewrite Hfs. cbn [fs]. rewrite !delete_insert_eq. reflexivity.
  - rewrite Hcreated. reflexivity.
  - rewrite Hcalls. reflexivity.
Qed.

Lemma has_room_dec E (data : list Z) :
  has_room E data
  \/ exists room, disk_free E = Some room /\ (room < List.length data)%nat.
Proof.
  unfold has_room. destruct (disk_free E) as [room|]; [|left; exact I].
  destruct (le_lt_dec (List.length data) room); [left; assumption | right; eauto].
Qed.

(** X14: the Base64 handler, on every path: the disk it leaves is the disk it
    found, less whatever sat at its fixed path, and no file the request
    created is still there. *)
Lemma base64_leaves_no_file E request files :
  (fs (snd (transcribe_base64_audio E request (start files))) = files
   \/ fs (snd (transcribe_base64_audio E request (start files)))
      = delete (mic_recording_path E (Base64AudioRequest.file_extension request)) files)
  /\ forall p,
       In p (created_files (trace (snd (transcribe_base64_audio E request (start files))))) ->
       fs (snd (transcribe_base64_audio E request (start files))) !! p = None.
Proof.
  set (path := mic_recording_path E (Base64AudioRequest.file_extension request)).
  assert (Hdeleted : forall st' : state,
             fs st' = delete path files ->
             (created_files (trace st') = [] \/ created_files (trace st') = [path]) ->
             (fs st' = files \/ fs st' = delete path files)
             /\ forall p, In p (created_files (trace st')) -> fs st' !! p = None).
  { intros st' Hfs Hcreated. split; [right; exact Hfs|].
    intros p Hin. destruct Hcreated as [Hc | Hc]; rewrite Hc in Hin.
    - destruct Hin.
    - destruct Hin as [<- | []]. rewrite Hfs. apply lookup_delete_eq. }
  destruct (Base64.b64decode (Base64AudioRequest.audio_data request))
    as [audio_bytes|e|msg] eqn:Hdec.
  - destruct (open_error E path) as [msg|] eqn:Hopen.
    + destruct (base64_run_open_fails E request files audio_bytes msg Hdec Hopen)
        as (st' & -> & Hfs & Hcreated & _).
      apply Hdeleted; [exact Hfs | left; exact Hcreated].
    + destruct (has_room_dec E audio_bytes) as [Hroom | (room & Hfree & Hroom)].
      * destruct (SARVAM_CLIENT E) as [c|] eqn:Hc.
        -- destruct (base64_run_reaches_provider E request files audio_bytes Hdec Hopen
                       Hroom c Hc) as (r & st' & -> & Hfs & Hcreated & _).
           apply Hdeleted; [exact Hfs | right; exact Hcreated].
        -- destruct (base64_run_uninitialised E request files audio_bytes Hdec Hopen
                       Hroom Hc) as (st' & -> & Hfs & Hcreated & _).
           apply Hdeleted; [exact Hfs | right; exact Hcreated].
      * destruct (base64_run_disk_full E request files audio_bytes room Hdec Hopen
                    Hfree Hroom) as (st' & -> & Hfs & Hcreated & _).
        apply Hdeleted; [exact Hfs | right; exact Hcreated].
  - rewrite (base64_run_invalid E request (start files) e Hdec).
    split; [left; reflexivity | intros p []].
  - rewrite (base64_run_value_error E request files msg Hdec).
    split; [left; reflexivity | intros p []].
Qed.

(** X15: the upload handler leaves a file it created on disk only when the
    copy of the uploaded body failed. *)
Lemma upload_residue_only_after_failed_copy E file files p :
  In p (created_files (trace (snd (transcribe_audio_file E file (start files))))) ->
  fs (snd (transcribe_audio_file E file (start files))) !! p <> None ->
  exists room, disk_free E = Some room /\ (room < List.length (UploadFile.file file))%nat.
Proof.
  intros Hin Hleft.
  destruct (upload_created_files E file files)
    as [Hnone | (tmp & Haudio & Hname & Hcreated)].
  - rewrite Hnone in Hin. destruct Hin.
  - rewrite Hcreated in Hin. destruct Hin as [<- | []].
    destruct (has_room_dec E (UploadFile.file file)) as [Hroom | Hfull]; [|exact Hfull].
    exfalso. apply Hleft.
    rewrite (upload_stored_leaves_no_file E file files tmp Haudio Hname Hroom).
    apply (temp_name_spec _ _ _ _ Hname).
Qed.

Lemma upload_residue_only_after_failed_copy_witness :
  exists room,
    disk_free (mock_env (Some (mock_client hello_world)) (Some 4%nat)) = Some room
    /\ (room < List.length (UploadFile.file clip_wav))%nat.
Proof.
  apply (upload_residue_only_after_failed_copy
           (mock_env (Some (mock_client hello_world)) (Some 4%nat))
           clip_wav ∅ "/tmp/tmpabcdefga.wav").
  - vm_compute. left. reflexivity.
  - vm_compute. discriminate.
Defined.

(** ** Temporary files left behind *)

(** C1: the upload handler does not delete its temporary file on every exit
    path.  When the copy of the uploaded body fails after [tempfile] has
    created the file, the handler answers 500 before [temp_file_path] is
    assigned and before the [try]/[finally] that unlinks it is entered: the
    file the request created, holding the bytes that fitted, is still on disk
    when the handler has returned. *)
Theorem upload_storage_failure_leaves_file (E : env) (file : UploadFile.t)
    (files : gmap string (list Z)) (tmp : string) (room : nat) :
  is_audio (UploadFile.content_type file) ->
  temp_name E (upload_suffix file) files tmp ->
  disk_free E = Some room ->
  (room < List.length (UploadFile.file file))%nat ->
  status_of (fst (transcribe_audio_file E file (start files))) = 500
  /\ created_files (trace (snd (transcribe_audio_file E file (start files)))) = [tmp]
  /\ files !! tmp = None
  /\ fs (snd (transcribe_audio_file E file (start files))) !! tmp
     = Some (firstn room (UploadFile.file file)).
Proof.
  intros Haudio Hname Hfree Hroom.
  rewrite (upload_run_disk_full E file files tmp Haudio Hname room Hfree Hroom).
  cbn [fst snd fs trace status_of].
  repeat split.
  - apply (temp_name_spec _ _ _ _ Hname).
  - apply lookup_insert_eq.
Qed.

Lemma upload_storage_failure_leaves_file_witness :
  status_of (fst (transcribe_audio_file
                    (mock_env (Some (mock_client hello_world)) (Some 4%nat))
                    clip_wav (start ∅))) = 500
  /\ fs (snd (transcribe_audio_file
                (mock_env (Some (mock_client hello_world)) (Some 4%nat))
                clip_wav (start ∅))) !! "/tmp/tmpabcdefga.wav"
     = Some [82; 73; 70; 70].
Proof.
  destruct (upload_storage_failure_leaves_file
              (mock_env (Some (mock_client hello_world)) (Some 4%nat))
              clip_wav ∅ "/tmp/tmpabcdefga.wav" 4%nat)
    as (Hstatus & _ & _ & Hfile).
  - exists "audio/wav". split; reflexivity.
  - reflexivity.
  - reflexivity.
  - cbn. lia.
  - split; [exact Hstatus | exact Hfile].
Defined.

(** ** Payloads the Base64 endpoint rejects *)

(** C2, as the code has it: a payload that the lenient decoder rejects with
    [binascii.Error] is answered with the 400 client error, and nothing else
    happens: no file is created and the provider is not called.  The payload
    ["!!!not-base64!!!"] is such a payload. *)
Theorem base64_rejected_payload_is_client_error (E : env)
    (request : Base64AudioRequest.t) (st : state) :
  (rejected_by_decoder (Base64AudioRequest.audio_data request) ->
   fst (transcribe_base64_audio E request st)
   = inl (HTTPException 400 "Invalid Base64 audio data received.")
   /\ status_of (fst (transcribe_base64_audio E request st)) = 400
   /\ provider_calls (trace (snd (transcribe_base64_audio E request st)))
      = provider_calls (trace st)
   /\ created_files (trace (snd (transcribe_base64_audio E request st)))
      = created_files (trace st)
   /\ fs (snd (transcribe_base64_audio E request st)) = fs st)
  /\ (Base64AudioRequest.audio_data request = "!!!not-base64!!!" ->
      status_of (fst (transcribe_base64_audio E request st)) = 400
      /\ provider_calls (trace (snd (transcribe_base64_audio E request st)))
         = provider_calls (trace st)).
Proof.
  assert (Hgeneral :
            rejected_by_decoder (Base64AudioRequest.audio_data request) ->
            transcribe_base64_audio E request st
            = (inl (HTTPException 400 "Invalid Base64 audio data received."),
               {| fs := fs st; trace := trace st; temp_file_path := None |})).
  { intros [e He]. exact (base64_run_invalid E request st e He). }
  split.
  - intros Hrej. rewrite (Hgeneral Hrej). repeat split.
  - intros Hdata. rewrite Hgeneral; [repeat split|].
    rewrite Hdata. exists (Base64.BadLength 9). reflexivity.
Qed.

Lemma base64_rejected_payload_is_client_error_witness :
  status_of (fst (transcribe_base64_audio working_env
                    (base64_request "!!!not-base64!!!") (start ∅))) = 400
  /\ provider_calls (trace (snd (transcribe_base64_audio working_env
                                   (base64_request "!!!not-base64!!!") (start ∅)))) = [].
Proof.
  destruct (base64_rejected_payload_is_client_error working_env
              (base64_request "!!!not-base64!!!") (start ∅)) as [Hgeneral Hscenario].
  destruct Hgeneral as (_ & Hstatus & _).
  - exists (Base64.BadLength 9). reflexivity.
  - destruct (Hscenario eq_refl) as [_ Hcalls]. split; [exact Hstatus | exact Hcalls].
Defined.

(** C2, as stated, fails: ["aG!k="] is not valid Base64, yet the decoder
    drops the [!] and decodes the rest, the handler answers 200 and the
    provider is called with the two decoded bytes. *)
Lemma base64_lenient_payload_reaches_provider :
  valid_base64 "aG!k=" = false
  /\ status_of (fst (transcribe_base64_audio working_env
                       (base64_request "aG!k=") (start ∅))) = 200
  /\ provider_calls (trace (snd (transcribe_base64_audio working_env
                                   (base64_request "aG!k=") (start ∅))))
     = [([104; 105], "saarika:v2.5", "gu-IN")].
Proof. repeat split; vm_compute; reflexivity. Qed.

(** ** The suffix of the stored upload *)

(** C3, as the code has it: the suffix handed to [tempfile] is the extension
    [os.path.splitext] finds in the uploaded filename, with [audio.wav]
    standing in for an absent (missing or empty) filename only: so the suffix
    is [.wav] when the filename is absent, and empty when a filename is
    present and has no dot.  Every file the handler creates has a name that
    ends with this suffix. *)
Theorem upload_suffix_from_filename (E : env) (file : UploadFile.t)
    (files : gmap string (list Z)) :
  upload_suffix file
  = snd (OsPath.splitext (PyStr.or_else (UploadFile.filename file) "audio.wav"))
  /\ (UploadFile.filename file = None \/ UploadFile.filename file = Some "" ->
      upload_suffix file = ".wav")
  /\ (forall name, UploadFile.filename file = Some name -> name <> "" ->
                   has_char "."%char name = false -> upload_suffix file = "")
  /\ (forall tmp,
        In tmp (created_files (trace (snd (transcribe_audio_file E file (start files))))) ->
        has_suffix (upload_suffix file) tmp)
  /\ (is_audio (UploadFile.content_type file) ->
      forall tmp, temp_name E (upload_suffix file) files tmp ->
        created_files (trace (snd (transcribe_audio_file E file (start files)))) = [tmp]).
Proof.
  split; [reflexivity|].
  split; [apply upload_suffix_absent|].
  split; [apply upload_suffix_no_dot|].
  destruct (upload_created_files E file files)
    as [Hnone | (tmp' & _ & Hname' & Hcreated)].
  - split.
    + intros tmp Hin. rewrite Hnone in Hin. destruct Hin.
    + intros Haudio tmp Hname. exfalso.
      revert Hnone. unfold transcribe_audio_file.
      rewrite (audio_passes_guard _ Haudio).
      erewrite bind_inr; [| reflexivity | reflexivity].
      erewrite bind_inr; [| apply NamedTemporaryFile_ok; exact Hname | reflexivity].
      destruct (upload_tail_creates_nothing E file tmp
                  {| fs := <[tmp := []]> files;
                     trace := [Created tmp];
                     temp_file_path := None |})
        as (evs & Htrace & _).
      cbn [fs trace temp_file_path start app]. rewrite Htrace.
      rewrite created_files_app. discriminate.
  - split.
    + intros tmp Hin. rewrite Hcreated in Hin. destruct Hin as [<- | []].
      apply (temp_name_spec _ _ _ _ Hname').
    + intros _ tmp Hname. rewrite Hcreated.
      unfold temp_name in *. congruence.
Qed.

Lemma upload_suffix_from_filename_witness :
  has_suffix ".wav" "/tmp/tmpabcdefga.wav"
  /\ upload_suffix nameless_upload = ".wav"
  /\ upload_suffix clip_no_extension = "".
Proof.
  destruct (upload_suffix_from_filename working_env clip_wav ∅)
    as (_ & _ & _ & Hcreated & _).
  destruct (upload_suffix_from_filename working_env nameless_upload ∅)
    as (_ & Habsent & _).
  destruct (upload_suffix_from_filename working_env clip_no_extension ∅)
    as (_ & _ & Hnodot & _).
  split; [|split].
  - apply (Hcreated "/tmp/tmpabcdefga.wav"). vm_compute. left. reflexivity.
  - apply Habsent. left. reflexivity.
  - apply (Hnodot "clip"); [reflexivity | discriminate | reflexivity].
Defined.

(** C3, as stated, fails: the filename [clip] supplies no extension, and the
    temporary file the handler creates for it has no [.wav] suffix, and no
    suffix at all. *)
Lemma upload_extensionless_name_gets_no_wav :
  UploadFile.filename clip_no_extension = Some "clip"
  /\ snd (OsPath.splitext "clip") = ""
  /\ created_files (trace (snd (transcribe_audio_file working_env clip_no_extension
                                  (start ∅))))
     = ["/tmp/tmpabcdefga"]
  /\ PyStr.endswith "/tmp/tmpabcdefga" ".wav" = false.
Proof. repeat split; vm_compute; reflexivity. Qed.

(** ** A client that did not initialise *)

(** C5, as the code has it: with [SARVAM_CLIENT] left at [None] no request on
    either endpoint ever reaches the provider, and every request that gets as
    far as the adapter (an audio upload that is stored, a payload that decodes
    and is written) is answered 503. *)
Theorem uninitialised_client_is_503 (E : env) :
  SARVAM_CLIENT E = None ->
  (forall file st,
      provider_calls (trace (snd (transcribe_audio_file E file st)))
      = provider_calls (trace st))
  /\ (forall request st,
         provider_calls (trace (snd (transcribe_base64_audio E request st)))
         = provider_calls (trace st))
  /\ (forall file files tmp,
         is_audio (UploadFile.content_type file) ->
         temp_name E (upload_suffix file) files tmp ->
         has_room E (UploadFile.file file) ->
         status_of (fst (transcribe_audio_file E file (start files))) = 503)
  /\ (forall request files audio_bytes,
         Base64.b64decode (Base64AudioRequest.audio_data request)
         = Base64.Decoded audio_bytes ->
         open_error E (mic_recording_path E (Base64AudioRequest.file_extension request))
         = None ->
         has_room E audio_bytes ->
         status_of (fst (transcribe_base64_audio E request (start files))) = 503).
Proof.
  intros Hnone. repeat split.
  - intros file st. apply emits_only_provider_calls, upload_uninitialised_quiet, Hnone.
  - intros request st. apply emits_only_provider_calls, base64_uninitialised_quiet, Hnone.
  - intros file files tmp Haudio Hname Hroom.
    destruct (upload_run_uninitialised E file files tmp Haudio Hname Hroom Hnone)
      as (st' & -> & _). reflexivity.
  - intros request files audio_bytes Hdec Hopen Hroom.
    destruct (base64_run_uninitialised E request files audio_bytes Hdec Hopen Hroom Hnone)
      as (st' & -> & _). reflexivity.
Qed.

Lemma uninitialised_client_is_503_witness :
  status_of (fst (transcribe_audio_file (mock_env None None) clip_wav (start ∅))) = 503
  /\ status_of (fst (transcribe_base64_audio (mock_env None None)
                       (base64_request "aGVsbG8=") (start ∅))) = 503
  /\ provider_calls (trace (snd (transcribe_audio_file (mock_env None None) clip_wav
                                   (start ∅)))) = [].
Proof.
  destruct (uninitialised_client_is_503 (mock_env None None) eq_refl)
    as (Hquiet & _ & Hupload & Hbase64).
  split; [|split].
  - apply (Hupload clip_wav ∅ "/tmp/tmpabcdefga.wav").
    + exists "audio/wav". split; reflexivity.
    + reflexivity.
    + exact I.
  - apply (Hbase64 (base64_request "aGVsbG8=") ∅ [104; 101; 108; 108; 111]).
    + reflexivity.
    + reflexivity.
    + exact I.
  - apply (Hquiet clip_wav (start ∅)).
Defined.

(** C5, as stated, fails: with no client an upload that is not audio is
    answered 400, not 503. *)
Lemma uninitialised_client_non_audio_upload_is_400 :
  SARVAM_CLIENT (mock_env None None) = None
  /\ status_of (fst (transcribe_audio_file (mock_env None None) notes_txt (start ∅))) = 400.
Proof. split; reflexivity. Qed.

(** ** The transcript comes back unchanged *)

(** C7: when the provider answers with a mapping that holds the string [T]
    under the key the adapter settles on, an audio upload that is stored and a
    Base64 payload that decodes and is written are both answered 200 with
    [transcribed_text] equal to [T]; in particular [clip.wav], declared
    [audio/wav], against a provider answering [{"text": "hello world"}] is
    answered 200 with filename [clip.wav] and text [hello world]. *)
Theorem transcript_round_trip (E : env) (c : client) :
  SARVAM_CLIENT E = Some c ->
  (forall response T, answers response T ->
     (forall file files tmp,
         is_audio (UploadFile.content_type file) ->
         temp_name E (upload_suffix file) files tmp ->
         has_room E (UploadFile.file file) ->
         responds_to c (UploadFile.file file) response ->
         status_of (fst (transcribe_audio_file E file (start files))) = 200
         /\ exists r, fst (transcribe_audio_file E file (start files)) = inr r
                      /\ TranscriptionResponse.transcribed_text r = T)
     /\ (forall request files audio_bytes,
            Base64.b64decode (Base64AudioRequest.audio_data request)
            = Base64.Decoded audio_bytes ->
            open_error E (mic_recording_path E (Base64AudioRequest.file_extension request))
            = None ->
            has_room E audio_bytes ->
            responds_to c audio_bytes response ->
            status_of (fst (transcribe_base64_audio E request (start files))) = 200
            /\ exists r, fst (transcribe_base64_audio E request (start files)) = inr r
                         /\ TranscriptionResponse.transcribed_text r = T))
  /\ (responds_to c ten_bytes hello_world ->
      forall files tmp,
        temp_name E ".wav" files tmp -> has_room E ten_bytes ->
        status_of (fst (transcribe_audio_file E clip_wav (start files))) = 200
        /\ fst (transcribe_audio_file E clip_wav (start files))
           = inr {| TranscriptionResponse.filename := "clip.wav";
                    TranscriptionResponse.transcribed_text := "hello world" |}).
Proof.
  intros Hc. split; [intros response T Hans; split|].
  - intros file files tmp Haudio Hname Hroom Hresp.
    destruct (upload_run_answers E file files tmp Haudio Hname c response T
                Hroom Hc Hresp Hans) as (st' & -> & _).
    split; [reflexivity|]. eexists. split; reflexivity.
  - intros request files audio_bytes Hdec Hopen Hroom Hresp.
    destruct (base64_run_answers E request files audio_bytes Hdec Hopen Hroom
                c response T Hc Hresp Hans) as (st' & -> & _).
    split; [reflexivity|]. eexists. split; reflexivity.
  - intros Hresp files tmp Hname Hroom.
    assert (Haudio : is_audio (UploadFile.content_type clip_wav))
      by (exists "audio/wav"; split; reflexivity).
    assert (Hans : answers hello_world "hello world") by (left; reflexivity).
    destruct (upload_run_answers E clip_wav files tmp Haudio Hname c hello_world
                "hello world" Hroom Hc Hresp Hans) as (st' & -> & _).
    split; reflexivity.
Qed.

Lemma transcript_round_trip_witness :
  fst (transcribe_audio_file working_env clip_wav (start ∅))
  = inr {| TranscriptionResponse.filename := "clip.wav";
           TranscriptionResponse.transcribed_text := "hello world" |}
  /\ status_of (fst (transcribe_base64_audio working_env (base64_request "aGVsbG8=")
                       (start ∅))) = 200.
Proof.
  destruct (transcript_round_trip working_env (mock_client hello_world) eq_refl)
    as [Hgeneral Hscenario].
  split.
  - apply (Hscenario eq_refl ∅ "/tmp/tmpabcdefga.wav"); [reflexivity | exact I].
  - destruct (Hgeneral hello_world "hello world" (or_introl eq_refl)) as [_ Hbase64].
    apply (Hbase64 (base64_request "aGVsbG8=") ∅ [104; 101; 108; 108; 111]);
      [reflexivity | reflexivity | exact I | reflexivity].
Defined.

(** ** The filename an upload is answered with *)

Lemma upload_returns_filename E (file : UploadFile.t) :
  returns_only
    (fun r => TranscriptionResponse.filename r
              = PyStr.or_else (UploadFile.filename file) "audio_file")
    (transcribe_audio_file E file).
Proof.
  unfold transcribe_audio_file.
  match goal with |- returns_only _ (if ?g then _ else _) => destruct g end;
    [apply returns_raise|].
  apply returns_bind; intros _.
  apply returns_bind; intros tmp.
  apply returns_bind; intros _.
  apply returns_try_finally.
  apply returns_try_except.
  - apply returns_bind; intros _.
    apply returns_bind; intros path.
    apply returns_bind; intros text.
    apply new_TranscriptionResponse_returns.
  - intros e. apply returns_bind; intros _. apply returns_raise.
Qed.

(** C8: an upload that carries no filename ([None] or the empty string) and
    is answered successfully is answered with the filename [audio_file]. *)
Theorem upload_placeholder_filename (E : env) (file : UploadFile.t) (st st' : state)
    (r : TranscriptionResponse.t) :
  UploadFile.filename file = None \/ UploadFile.filename file = Some "" ->
  transcribe_audio_file E file st = (inr r, st') ->
  TranscriptionResponse.filename r = "audio_file".
Proof.
  intros Habsent Hrun.
  rewrite (upload_returns_filename E file st r); [|rewrite Hrun; reflexivity].
  destruct Habsent as [-> | ->]; reflexivity.
Qed.

Lemma upload_placeholder_filename_witness :
  TranscriptionResponse.filename
    {| TranscriptionResponse.filename := "audio_file";
       TranscriptionResponse.transcribed_text := "hello world" |}
  = "audio_file"
  /\ fst (transcribe_audio_file working_env nameless_upload (start ∅))
     = inr {| TranscriptionResponse.filename := "audio_file";
              TranscriptionResponse.transcribed_text := "hello world" |}.
Proof.
  split; [|reflexivity].
  apply (upload_placeholder_filename working_env nameless_upload (start ∅)
           (snd (transcribe_audio_file working_env nameless_upload (start ∅)))).
  - left. reflexivity.
  - reflexivity.
Defined.

(** ** The empty payload *)

Lemma empty_has_room E : has_room E [].
Proof. unfold has_room. destruct (disk_free E); [cbn; lia | exact I]. Qed.

(** C9: the Base64 endpoint does not check that the payload is non-empty.
    The empty string decodes to zero bytes and is never answered with the 400
    client error; when the file can be opened an empty temporary file is
    written, and with a client in place the provider is called with it. *)
Theorem base64_empty_payload_reaches_provider (E : env)
    (request : Base64AudioRequest.t) (files : gmap string (list Z)) :
  Base64AudioRequest.audio_data request = "" ->
  Base64.b64decode (Base64AudioRequest.audio_data request) = Base64.Decoded []
  /\ status_of (fst (transcribe_base64_audio E request (start files))) <> 400
  /\ (open_error E (mic_recording_path E (Base64AudioRequest.file_extension request))
      = None ->
      created_files (trace (snd (transcribe_base64_audio E request (start files))))
      = [mic_recording_path E (Base64AudioRequest.file_extension request)]
      /\ In (Wrote (mic_recording_path E (Base64AudioRequest.file_extension request)) [])
            (trace (snd (transcribe_base64_audio E request (start files))))
      /\ (forall c, SARVAM_CLIENT E = Some c ->
            provider_calls (trace (snd (transcribe_base64_audio E request (start files))))
            = [([], DEFAULT_TRANSCRIPTION_MODEL, DEFAULT_LANGUAGE_CODE)])).
Proof.
  intros Hempty.
  assert (Hdec : Base64.b64decode (Base64AudioRequest.audio_data request)
                 = Base64.Decoded []) by (rewrite Hempty; reflexivity).
  split; [exact Hdec|]. split.
  - intros H400. apply base64_400_only_when_rejected in H400 as [e He].
    rewrite Hdec in He. discriminate He.
  - intros Hopen.
    destruct (SARVAM_CLIENT E) as [c|] eqn:Hc.
    + destruct (base64_run_reaches_provider E request files [] Hdec Hopen
                  (empty_has_room E) c Hc)
        as (r & st' & -> & _ & Hcreated & Hwrote & Hcalls).
      split; [exact Hcreated|]. split; [exact Hwrote|]. intros _ _. exact Hcalls.
    + destruct (base64_run_uninitialised E request files [] Hdec Hopen
                  (empty_has_room E) Hc)
        as (st' & -> & _ & Hcreated & Hwrote).
      split; [exact Hcreated|]. split; [exact Hwrote|]. intros c' Hc'. discriminate Hc'.
Qed.

Lemma base64_empty_payload_reaches_provider_witness :
  status_of (fst (transcribe_base64_audio working_env (base64_request "") (start ∅))) <> 400
  /\ provider_calls (trace (snd (transcribe_base64_audio working_env (base64_request "")
                                   (start ∅))))
     = [([], "saarika:v2.5", "gu-IN")].
Proof.
  destruct (base64_empty_payload_reaches_provider working_env (base64_request "") ∅ eq_refl)
    as (_ & Hstatus & Hwritten).
  split; [exact Hstatus|].
  destruct (Hwritten eq_refl) as (_ & _ & Hcalls).
  apply (Hcalls (mock_client hello_world)). reflexivity.
Defined.

(** ** The filename of a Base64 request *)

(** C10: a Base64 request's [filename] shows in the answer (and in a log line)
    and nowhere else: run from the same disk, a request and its copy under
    another filename use the same temporary path, leave the same disk, have
    the same effects on files and provider (the same bytes written to the same
    path, the same provider calls), and end alike: the same error, or two
    answers with the same text that echo the two filenames. *)
Theorem base64_filename_only_echoed (E : env) (request : Base64AudioRequest.t)
    (name : string) (files : gmap string (list Z)) :
  temp_file_path (snd (transcribe_base64_audio E request (start files)))
  = temp_file_path (snd (transcribe_base64_audio E (with_filename request name) (start files)))
  /\ fs (snd (transcribe_base64_audio E request (start files)))
     = fs (snd (transcribe_base64_audio E (with_filename request name) (start files)))
  /\ io_events (trace (snd (transcribe_base64_audio E request (start files))))
     = io_events (trace (snd (transcribe_base64_audio E (with_filename request name)
                                (start files))))
  /\ provider_calls (trace (snd (transcribe_base64_audio E request (start files))))
     = provider_calls (trace (snd (transcribe_base64_audio E (with_filename request name)
                                     (start files))))
  /\ same_outcome
       (fun r1 r2 =>
          TranscriptionResponse.transcribed_text r1
          = TranscriptionResponse.transcribed_text r2
          /\ TranscriptionResponse.filename r1 = Base64AudioRequest.filename request
          /\ TranscriptionResponse.filename r2 = name)
       (fst (transcribe_base64_audio E request (start files)))
       (fst (transcribe_base64_audio E (with_filename request name) (start files))).
Proof.
  destruct (base64_filename_related E request name (start files) (start files)
              (sim_refl _)) as [Hout (Hfs & Hp & Hio)].
  repeat split; try assumption.
  rewrite <- (provider_calls_io_events (trace (snd (transcribe_base64_audio E request
                                                     (start files))))).
  rewrite Hio. apply provider_calls_io_events.
Qed.

(** * Further properties of the handlers *)

(** ** The statuses the endpoints answer with *)

Lemma cleanup_returns (st : state) : fst (cleanup st) = inr tt.
Proof.
  destruct (temp_file_path st) as [p|] eqn:Hp.
  - destruct (fs st !! p) as [data|] eqn:Hfile.
    + destruct (PyStr.truthy p) eqn:Htruthy.
      * rewrite (cleanup_present st p data Hp Htruthy Hfile). reflexivity.
      * unfold cleanup. erewrite bind_inr; [| reflexivity | reflexivity].
        rewrite Hp, Htruthy. reflexivity.
    + rewrite (cleanup_absent st p Hp Hfile). reflexivity.
  - rewrite (cleanup_unset st Hp). reflexivity.
Qed.

Lemma cleanup_never_raises (P : exn -> Prop) : raises_only P cleanup.
Proof. intros st e He. rewrite cleanup_returns in He. discriminate He. Qed.

Lemma raises_anything {A} (m : M A) : raises_only (fun _ => True) m.
Proof. intros st e _. exact I. Qed.

Lemma guard_rejects_not_audio (content_type : option string) :
  match content_type with
  | None => true
  | Some ct => negb (PyStr.truthy ct) || negb (PyStr.startswith ct "audio/")
  end = true ->
  not_audio content_type.
Proof.
  destruct content_type as [ct|]; [|intros _; exact I].
  cbn [not_audio]. destruct ct as [|a ct]; [reflexivity|].
  cbn [PyStr.truthy String.eqb negb orb].
  destruct (PyStr.startswith (String a ct) "audio/"); [discriminate | reflexivity].
Qed.

Lemma mkstemp_inner_inl E dir pre suf files remaining seq e :
  _mkstemp_inner E dir pre suf files remaining seq = inl e -> tempfile_error e.
Proof.
  revert seq. induction remaining as [|remaining IH]; intros seq; cbn [_mkstemp_inner]; cbv zeta.
  - intros [= <-]. exact I.
  - destruct (files !! OsPath.join dir (pre ++ candidate_names E seq ++ suf)).
    + apply IH.
    + destruct (open_error E (OsPath.join dir (pre ++ candidate_names E seq ++ suf)));
        [intros [= <-]; exact I | discriminate].
Qed.

Lemma NamedTemporaryFile_raises E suffix :
  raises_only tempfile_error (NamedTemporaryFile E suffix).
Proof.
  intros st e. unfold NamedTemporaryFile.
  erewrite bind_inr; [| reflexivity | reflexivity].
  destruct (_mkstemp_inner E (gettempdir E) "tmp" suffix (fs st) (TMP_MAX E) 0)
    as [e'|file] eqn:Hname.
  - intros [= <-]. apply (mkstemp_inner_inl _ _ _ _ _ _ _ _ Hname).
  - discriminate.
Qed.

(** What the upload handler raises: its three [HTTPException]s, or what
    [tempfile] gave up with; the 400 only for a content type that is not
    audio. *)
Lemma upload_raises E (file : UploadFile.t) :
  raises_only
    (fun e => upload_status (status_of (@inl exn TranscriptionResponse.t e))
              /\ (status_of (@inl exn TranscriptionResponse.t e) = 400 ->
                  not_audio (UploadFile.content_type file)))
    (transcribe_audio_file E file).
Proof.
  unfold transcribe_audio_file.
  match goal with |- raises_only _ (if ?g then _ else _) => destruct g eqn:Hguard end.
  - apply raises_raise. split; [right; left; reflexivity|].
    intros _. apply guard_rejects_not_audio, Hguard.
  - apply raises_bind; [apply raises_set_temp_file_path | intros _].
    apply raises_bind; [| intros tmp].
    { apply (raises_weaken tempfile_error); [|apply NamedTemporaryFile_raises].
      intros e He. destruct e; try destruct He;
        (split; [right; right; left; reflexivity | discriminate]). }
    apply raises_bind; [| intros _].
    { apply raises_try_finally; [|apply raises_ret].
      apply (raises_try_except (fun _ => True)); [apply raises_anything|].
      intros e _. apply raises_raise.
      split; [right; right; left; reflexivity | discriminate]. }
    apply raises_try_finally; [|apply cleanup_never_raises].
    apply (raises_try_except (fun _ => True)); [apply raises_anything|].
    intros e _. unfold print.
    apply raises_bind; [apply raises_emit | intros _].
    apply raises_raise. split; [right; right; right; reflexivity | discriminate].
Qed.

Lemma upload_rejects_non_audio_run E (file : UploadFile.t) (st : state) :
  not_audio (UploadFile.content_type file) ->
  transcribe_audio_file E file st
  = (inl (HTTPException 400 "Invalid file type. Only audio files are accepted."), st).
Proof.
  intros Hct. unfold transcribe_audio_file, not_audio in *.
  destruct (UploadFile.content_type file) as [ct|]; [|reflexivity].
  rewrite Hct, orb_true_r. reflexivity.
Qed.

(** X1: the upload endpoint answers 200, 400, 500 or 503 and nothing else,
    and it answers 400 exactly when the declared content type is missing or
    does not begin with [audio/]. *)
Theorem upload_status_400_iff_not_audio (E : env) (file : UploadFile.t) (st : state) :
  upload_status (status_of (fst (transcribe_audio_file E file st)))
  /\ (status_of (fst (transcribe_audio_file E file st)) = 400
      <-> not_audio (UploadFile.content_type file)).
Proof.
  pose proof (upload_raises E file st) as Hraises.
  split; [|split].
  - destruct (fst (transcribe_audio_file E file st)) as [e|r].
    + apply (Hraises e eq_refl).
    + left. reflexivity.
  - destruct (fst (transcribe_audio_file E file st)) as [e|r].
    + apply (Hraises e eq_refl).
    + discriminate.
  - intros Hnot. rewrite (upload_rejects_non_audio_run E file st Hnot). reflexivity.
Qed.



(** ** What a request does to the disk and to the provider *)

Lemma content_type_dec (content_type : option string) :
  not_audio content_type \/ is_audio content_type.
Proof.
  destruct content_type as [ct|]; [|left; exact I].
  destruct (PyStr.startswith ct "audio/") eqn:Hct.
  - right. exists ct. split; [reflexivity | exact Hct].
  - left. exact Hct.
Qed.

(** The three ways an upload ends: nothing stored and nothing sent; the body
    stored, sent at most once and removed; or the copy cut short, the part
    that fitted left behind. *)
Lemma upload_outcomes E (file : UploadFile.t) (files : gmap string (list Z)) :
  (fs (snd (transcribe_audio_file E file (start files))) = files
   /\ provider_calls (trace (snd (transcribe_audio_file E file (start files)))) = [])
  \/ (is_audio (UploadFile.content_type file)
      /\ fs (snd (transcribe_audio_file E file (start files))) = files
      /\ provider_calls (trace (snd (transcribe_audio_file E file (start files))))
         = [(UploadFile.file file, DEFAULT_TRANSCRIPTION_MODEL, DEFAULT_LANGUAGE_CODE)])
  \/ (exists tmp room,
         files !! tmp = None
         /\ disk_free E = Some room
         /\ (room < List.length (UploadFile.file file))%nat
         /\ fs (snd (transcribe_audio_file E file (start files)))
            = <[tmp := firstn room (UploadFile.file file)]> files
         /\ provider_calls (trace (snd (transcribe_audio_file E file (start files)))) = []).
Proof.
  destruct (content_type_dec (UploadFile.content_type file)) as [Hnot | Haudio].
  { left. rewrite (upload_rejects_non_audio_run E file _ Hnot). split; reflexivity. }
  destruct (_mkstemp_inner E (gettempdir E) "tmp" (upload_suffix file) files (TMP_MAX E) 0)
    as [e|tmp] eqn:Hname.
  { left. unfold transcribe_audio_file. rewrite (audio_passes_guard _ Haudio).
    erewrite bind_inr; [| reflexivity | reflexivity].
    erewrite bind_inl; [| apply NamedTemporaryFile_fails; exact Hname].
    split; reflexivity. }
  destruct (has_room_dec E (UploadFile.file file)) as [Hroom | (room & Hfree & Hroom)].
  - destruct (SARVAM_CLIENT E) as [c|] eqn:Hc.
    + right. left.
      destruct (upload_run_reaches_provider E file files tmp Haudio Hname c Hroom Hc)
        as (r & st' & -> & Hfs & _ & Hcalls).
      split; [exact Haudio | split; [exact Hfs | exact Hcalls]].
    + left. split.
      * apply (upload_stored_leaves_no_file E file files tmp Haudio Hname Hroom).
      * apply (emits_only_provider_calls _ (start files)),
          upload_uninitialised_quiet, Hc.
  - right. right. exists tmp, room.
    rewrite (upload_run_disk_full E file files tmp Haudio Hname room Hfree Hroom).
    cbn [fst snd fs trace].
    repeat split; try assumption.
    + apply (temp_name_spec _ _ _ _ Hname).
    + apply insert_insert_eq.
Qed.

(** X3: an upload request calls the provider at most once, and then with
    exactly the uploaded bytes and the fixed model and language; a request
    that is not audio never reaches it. *)
Theorem upload_calls_provider_at_most_once (E : env) (file : UploadFile.t)
    (files : gmap string (list Z)) :
  provider_calls (trace (snd (transcribe_audio_file E file (start files)))) = []
  \/ (is_audio (UploadFile.content_type file)
      /\ provider_calls (trace (snd (transcribe_audio_file E file (start files))))
         = [(UploadFile.file file, "saarika:v2.5", "gu-IN")]).
Proof.
  destruct (upload_outcomes E file files)
    as [[_ Hcalls] | [(Haudio & _ & Hcalls) | (tmp & room & _ & _ & _ & _ & Hcalls)]].
  - left. exact Hcalls.
  - right. split; [exact Haudio | exact Hcalls].
  - left. exact Hcalls.
Qed.

(** X4: the upload handler never changes or removes a file that was on disk
    before the request: its temporary file always gets a name that is not in
    use. *)
Theorem upload_keeps_existing_files (E : env) (file : UploadFile.t)
    (files : gmap string (list Z)) (p : string) (data : list Z) :
  files !! p = Some data ->
  fs (snd (transcribe_audio_file E file (start files))) !! p = Some data.
Proof.
  intros Hp.
  destruct (upload_outcomes E file files)
    as [[Hfs _] | [(_ & Hfs & _) | (tmp & room & Hfree & _ & _ & Hfs & _)]];
    rewrite Hfs; try exact Hp.
  rewrite lookup_insert_ne; [exact Hp|]. intros ->. congruence.
Qed.

Lemma upload_keeps_existing_files_witness :
  fs (snd (transcribe_audio_file working_env clip_wav
             (start {[ "/tmp/tmpabcdefga.wav" := [1; 2; 3] ]})))
  !! "/tmp/tmpabcdefga.wav" = Some [1; 2; 3].
Proof.
  apply (upload_keeps_existing_files working_env clip_wav
           {[ "/tmp/tmpabcdefga.wav" := [1; 2; 3] ]} "/tmp/tmpabcdefga.wav" [1; 2; 3]).
  vm_compute. reflexivity.
Defined.

(** The ways a Base64 request ends: a payload that does not decode touches
    nothing; one that decodes leaves the disk without whatever was at the
    fixed path, and is sent at most once. *)
Lemma base64_outcomes E (request : Base64AudioRequest.t) (files : gmap string (list Z)) :
  ((forall audio_bytes, Base64.b64decode (Base64AudioRequest.audio_data request)
                        <> Base64.Decoded audio_bytes)
   /\ fs (snd (transcribe_base64_audio E request (start files))) = files
   /\ provider_calls (trace (snd (transcribe_base64_audio E request (start files)))) = [])
  \/ (exists audio_bytes,
         Base64.b64decode (Base64AudioRequest.audio_data request)
         = Base64.Decoded audio_bytes
         /\ fs (snd (transcribe_base64_audio E request (start files)))
            = delete (mic_recording_path E (Base64AudioRequest.file_extension request)) files
         /\ (provider_calls (trace (snd (transcribe_base64_audio E request (start files))))
             = []
             \/ provider_calls (trace (snd (transcribe_base64_audio E request
                                              (start files))))
                = [(audio_bytes, DEFAULT_TRANSCRIPTION_MODEL, DEFAULT_LANGUAGE_CODE)])).
Proof.
  destruct (Base64.b64decode (Base64AudioRequest.audio_data request))
    as [audio_bytes|e|msg] eqn:Hdec.
  - right. exists audio_bytes. split; [reflexivity|].
    destruct (open_error E (mic_recording_path E
                              (Base64AudioRequest.file_extension request)))
      as [msg|] eqn:Hopen.
    + destruct (base64_run_open_fails E request files audio_bytes msg Hdec Hopen)
        as (st' & -> & Hfs & _ & Hcalls).
      split; [exact Hfs | left; exact Hcalls].
    + destruct (has_room_dec E audio_bytes) as [Hroom | (room & Hfree & Hroom)].
      * destruct (SARVAM_CLIENT E) as [c|] eqn:Hc.
        -- destruct (base64_run_reaches_provider E request files audio_bytes Hdec Hopen
                       Hroom c Hc) as (r & st' & -> & Hfs & _ & _ & Hcalls).
           split; [exact Hfs | right; exact Hcalls].
        -- destruct (base64_run_uninitialised E request files audio_bytes Hdec Hopen
                       Hroom Hc) as (st' & Hrun & Hfs & _).
           split; [rewrite Hrun; exact Hfs | left].
           apply (emits_only_provider_calls _ (start files)),
             base64_uninitialised_quiet, Hc.
      * destruct (base64_run_disk_full E request files audio_bytes room Hdec Hopen
                    Hfree Hroom) as (st' & -> & Hfs & _ & Hcalls).
        split; [exact Hfs | left; exact Hcalls].
  - left. rewrite (base64_run_invalid E request (start files) e Hdec).
    split; [discriminate | split; reflexivity].
  - left. rewrite (base64_run_value_error E request files msg Hdec).
    split; [discriminate | split; reflexivity].
Qed.

(** X5: a Base64 request calls the provider at most once, and then with
    exactly the bytes its payload decodes to and the fixed model and
    language. *)
Theorem base64_calls_provider_at_most_once (E : env) (request : Base64AudioRequest.t)
    (files : gmap string (list Z)) :
  provider_calls (trace (snd (transcribe_base64_audio E request (start files)))) = []
  \/ exists audio_bytes,
       Base64.b64decode (Base64AudioRequest.audio_data request)
       = Base64.Decoded audio_bytes
       /\ provider_calls (trace (snd (transcribe_base64_audio E request (start files))))
          = [(audio_bytes, "saarika:v2.5", "gu-IN")].
Proof.
  destruct (base64_outcomes E request files)
    as [(_ & _ & Hcalls) | (audio_bytes & Hdec & _ & [Hcalls | Hcalls])].
  - left. exact Hcalls.
  - left. exact Hcalls.
  - right. exists audio_bytes. split; [exact Hdec | exact Hcalls].
Qed.



(** ** What comes back from the adapter *)

Lemma adapter_provider_fails E c file_path audio error st :
  SARVAM_CLIENT E = Some c ->
  fs st !! file_path = Some audio ->
  fails_on c audio error ->
  _call_sarvam_transcription_api E file_path st
  = (inl (PlainException ("Sarvam AI Transcription failed: " ++ error)),
     {| fs := fs st;
        trace := (trace st ++ [ProviderCall audio DEFAULT_TRANSCRIPTION_MODEL
                                            DEFAULT_LANGUAGE_CODE])%list;
        temp_file_path := temp_file_path st |}).
Proof.
  intros Hc Hfile Hfails.
  unfold _call_sarvam_transcription_api. rewrite Hc.
  unfold open_rb, speech_to_text_transcribe.
  eapply bind_inr.
  { eapply bind_inr; [reflexivity|]. rewrite Hfile. reflexivity. }
  eapply try_except_inl.
  - eapply bind_inl. eapply bind_inr; [reflexivity|]. rewrite Hfails. reflexivity.
  - reflexivity.
Qed.

Lemma adapter_returns_probe E c file_path audio response st :
  SARVAM_CLIENT E = Some c ->
  fs st !! file_path = Some audio ->
  responds_to c audio response ->
  _call_sarvam_transcription_api E file_path st
  = (inr (probe response),
     {| fs := fs st;
        trace := ((trace st ++ [ProviderCall audio DEFAULT_TRANSCRIPTION_MODEL
                                             DEFAULT_LANGUAGE_CODE])
                  ++ (if pyval_eq_str (probe response) NOT_FOUND
                      then [PrintedResponse response] else []))%list;
        temp_file_path := temp_file_path st |}).
Proof.
  intros Hc Hfile Hresp.
  unfold _call_sarvam_transcription_api. rewrite Hc.
  unfold open_rb, speech_to_text_transcribe.
  eapply bind_inr.
  { eapply bind_inr; [reflexivity|]. rewrite Hfile. reflexivity. }
  eapply try_except_inr.
  eapply bind_inr.
  { eapply bind_inr; [reflexivity|]. rewrite Hresp. reflexivity. }
  fold (probe response).
  destruct (pyval_eq_str (probe response) NOT_FOUND).
  - eapply bind_inr; reflexivity.
  - eapply bind_inr; [reflexivity|]. cbn [fs trace temp_file_path].
    rewrite app_nil_r. reflexivity.
Qed.

Lemma new_TranscriptionResponse_turned_down E filename v st :
  turned_down E v ->
  new_TranscriptionResponse E filename v st = (inl (ValidationError (validation_text E v)), st).
Proof.
  intros [Hnot Hlax]. unfold new_TranscriptionResponse.
  destruct v as [s| |z]; [destruct (Hnot s eq_refl)| |]; rewrite Hlax; reflexivity.
Qed.

Section UploadAnswers.

Variables (E : env) (file : UploadFile.t) (files : gmap string (list Z)) (tmp : string).

Hypothesis Haudio : is_audio (UploadFile.content_type file).
Hypothesis Hname : temp_name E (upload_suffix file) files tmp.
Hypothesis Hroom : has_room E (UploadFile.file file).

(** The state in which the upload handler calls the adapter. *)
Local Abbreviation sending :=
  {| fs := fs (upload_stored file files tmp);
     trace := (trace (upload_stored file files tmp)
               ++ [Printed ("Sending uploaded file "
                            ++ PyStr.format_opt (UploadFile.filename file)
                            ++ " to Sarvam AI for transcription...")])%list;
     temp_file_path := Some tmp |}.

Ltac upload_to_adapter :=
  unfold transcribe_audio_file; rewrite (audio_passes_guard _ Haudio);
  eapply bind_inr; [reflexivity|];
  eapply bind_inr; [apply NamedTemporaryFile_ok; exact Hname|];
  eapply bind_inr;
  [ eapply try_finally_run; [|reflexivity];
    eapply try_except_inr;
    eapply bind_inr; [apply write_ok; exact Hroom | reflexivity] |];
  cbn [fs trace temp_file_path app].

(** The adapter raises: the handler logs, answers 503 with the text of the
    exception, and removes the file. *)
Lemma upload_run_adapter_raises e st1 :
  _call_sarvam_transcription_api E tmp sending = (inl e, st1) ->
  fs st1 = fs (upload_stored file files tmp) -> temp_file_path st1 = Some tmp ->
  transcribe_audio_file E file (start files)
  = (inl (HTTPException 503 ("Transcription service failed: " ++ str_exn e)),
     {| fs := files;
        trace := ((trace st1
                   ++ [Printed ("An unexpected error occurred during transcription: "
                                ++ str_exn e)])
                  ++ [Unlinked tmp])%list;
        temp_file_path := Some tmp |}).
Proof.
  intros Hadapter Hfs Hp.
  eassert (Hrun : transcribe_audio_file E file (start files) = (_, _)).
  { upload_to_adapter.
    eapply try_finally_run.
    - eapply try_except_inl.
      + eapply bind_inr; [reflexivity|].
        eapply bind_inr; [apply the_temp_file_path_ok; reflexivity|].
        eapply bind_inl. exact Hadapter.
      + eapply bind_inr; reflexivity.
    - apply (stored_cleanup E file files tmp Hname); [exact Hfs | exact Hp]. }
  rewrite Hrun. reflexivity.
Qed.

(** The adapter returns: the outcome is that of building the response. *)
Lemma upload_run_adapter_returns v st1 r :
  _call_sarvam_transcription_api E tmp sending = (inr v, st1) ->
  fs st1 = fs (upload_stored file files tmp) -> temp_file_path st1 = Some tmp ->
  new_TranscriptionResponse E (PyStr.or_else (UploadFile.filename file) "audio_file") v st1
  = (r, st1) ->
  transcribe_audio_file E file (start files)
  = match r with
    | inr response =>
        (inr response,
         {| fs := files;
            trace := (trace st1 ++ [Unlinked tmp])%list;
            temp_file_path := Some tmp |})
    | inl e =>
        (inl (HTTPException 503 ("Transcription service failed: " ++ str_exn e)),
         {| fs := files;
            trace := ((trace st1
                       ++ [Printed ("An unexpected error occurred during transcription: "
                                    ++ str_exn e)])
                      ++ [Unlinked tmp])%list;
            temp_file_path := Some tmp |})
    end.
Proof.
  intros Hadapter Hfs Hp Hnew.
  destruct r as [e|response].
  - eassert (Hrun : transcribe_audio_file E file (start files) = (_, _)).
    { upload_to_adapter.
      eapply try_finally_run.
      - eapply try_except_inl.
        + eapply bind_inr; [reflexivity|].
          eapply bind_inr; [apply the_temp_file_path_ok; reflexivity|].
          eapply bind_inr; [exact Hadapter|]. exact Hnew.
        + eapply bind_inr; reflexivity.
      - apply (stored_cleanup E file files tmp Hname); [exact Hfs | exact Hp]. }
    rewrite Hrun. reflexivity.
  - eassert (Hrun : transcribe_audio_file E file (start files) = (_, _)).
    { upload_to_adapter.
      eapply try_finally_run.
      - eapply try_except_inr.
        eapply bind_inr; [reflexivity|].
        eapply bind_inr; [apply the_temp_file_path_ok; reflexivity|].
        eapply bind_inr; [exact Hadapter|]. exact Hnew.
      - apply (stored_cleanup E file files tmp Hname); [exact Hfs | exact Hp]. }
    rewrite Hrun. reflexivity.
Qed.

End UploadAnswers.

Section Base64Answers.

Variables (E : env) (request : Base64AudioRequest.t) (files : gmap string (list Z)).
Variable audio_bytes : list Z.

Local Abbreviation path := (mic_recording_path E (Base64AudioRequest.file_extension request)).
Local Abbreviation announced := (base64_announced request files path audio_bytes).

Hypothesis Hdecoded :
  Base64.b64decode (Base64AudioRequest.audio_data request) = Base64.Decoded audio_bytes.
Hypothesis Hopen : open_error E path = None.
Hypothesis Hroom : has_room E audio_bytes.

Ltac base64_to_adapter :=
  unfold transcribe_base64_audio;
  eapply bind_inr; [reflexivity|];
  eapply try_finally_run.

Ltac base64_body :=
  eapply bind_inr; [unfold b64decode; rewrite Hdecoded; reflexivity|];
  eapply bind_inr; [reflexivity|];
  eapply bind_inr; [apply the_temp_file_path_ok; reflexivity|];
  eapply bind_inr; [apply open_wb_ok; exact Hopen|];
  eapply bind_inr; [apply write_ok; exact Hroom|];
  eapply bind_inr; [reflexivity|];
  eapply bind_inr; [apply the_temp_file_path_ok; reflexivity|];
  cbn [fs trace temp_file_path app].

Lemma base64_run_adapter_raises e st1 :
  _call_sarvam_transcription_api E path announced = (inl e, st1) ->
  not_binascii e ->
  fs st1 = fs announced -> temp_file_path st1 = Some path ->
  transcribe_base64_audio E request (start files)
  = (inl (HTTPException 503 ("Transcription service failed: " ++ str_exn e)),
     {| fs := delete path files;
        trace := ((trace st1
                   ++ [Printed ("An unexpected error occurred during Base64 transcription: "
                                ++ str_exn e)])
                  ++ [Unlinked path])%list;
        temp_file_path := Some path |}).
Proof.
  intros Hadapter Hkind Hfs Hp.
  eassert (Hrun : transcribe_base64_audio E request (start files) = (_, _)).
  { base64_to_adapter.
    - eapply try_except_inl.
      + base64_body. eapply bind_inl. exact Hadapter.
      + destruct e; try destruct Hkind; eapply bind_inr; reflexivity.
    - apply (announced_cleanup E request files audio_bytes); [exact Hfs | exact Hp]. }
  rewrite Hrun. destruct e; try destruct Hkind; reflexivity.
Qed.

Lemma base64_run_adapter_returns v st1 r :
  _call_sarvam_transcription_api E path announced = (inr v, st1) ->
  fs st1 = fs announced -> temp_file_path st1 = Some path ->
  new_TranscriptionResponse E (Base64AudioRequest.filename request) v st1 = (r, st1) ->
  (forall e, r = inl e -> not_binascii e) ->
  transcribe_base64_audio E request (start files)
  = match r with
    | inr response =>
        (inr response,
         {| fs := delete path files;
            trace := (trace st1 ++ [Unlinked path])%list;
            temp_file_path := Some path |})
    | inl e =>
        (inl (HTTPException 503 ("Transcription service failed: " ++ str_exn e)),
         {| fs := delete path files;
            trace := ((trace st1
                       ++ [Printed ("An unexpected error occurred during Base64 transcription: "
                                    ++ str_exn e)])
                      ++ [Unlinked path])%list;
            temp_file_path := Some path |})
    end.
Proof.
  intros Hadapter Hfs Hp Hnew Hkind.
  destruct r as [e|response].
  - specialize (Hkind e eq_refl).
    eassert (Hrun : transcribe_base64_audio E request (start files) = (_, _)).
    { base64_to_adapter.
      - eapply try_except_inl.
        + base64_body. eapply bind_inr; [exact Hadapter|]. exact Hnew.
        + destruct e; try destruct Hkind; eapply bind_inr; reflexivity.
      - apply (announced_cleanup E request files audio_bytes); [exact Hfs | exact Hp]. }
    rewrite Hrun. destruct e; try destruct Hkind; reflexivity.
  - eassert (Hrun : transcribe_base64_audio E request (start files) = (_, _)).
    { base64_to_adapter.
      - eapply try_except_inr. base64_body.
        eapply bind_inr; [exact Hadapter|]. exact Hnew.
      - apply (announced_cleanup E request files audio_bytes); [exact Hfs | exact Hp]. }
    rewrite Hrun. reflexivity.
Qed.

End Base64Answers.

(** X7: when the provider call fails, both endpoints answer 503, the text of
    the provider's error is carried in the detail of the answer, and the
    temporary file is removed all the same. *)
Theorem provider_failure_surfaces_in_503 (E : env) (c : client) (error : string) :
  SARVAM_CLIENT E = Some c ->
  (forall file files tmp,
      is_audio (UploadFile.content_type file) ->
      temp_name E (upload_suffix file) files tmp ->
      has_room E (UploadFile.file file) ->
      fails_on c (UploadFile.file file) error ->
      fst (transcribe_audio_file E file (start files))
      = inl (HTTPException 503
               ("Transcription service failed: "
                ++ "Sarvam AI Transcription failed: " ++ error))
      /\ fs (snd (transcribe_audio_file E file (start files))) = files)
  /\ (forall request files audio_bytes,
         Base64.b64decode (Base64AudioRequest.audio_data request)
         = Base64.Decoded audio_bytes ->
         open_error E (mic_recording_path E (Base64AudioRequest.file_extension request))
         = None ->
         has_room E audio_bytes ->
         fails_on c audio_bytes error ->
         fst (transcribe_base64_audio E request (start files))
         = inl (HTTPException 503
                  ("Transcription service failed: "
                   ++ "Sarvam AI Transcription failed: " ++ error))
         /\ fs (snd (transcribe_base64_audio E request (start files)))
            = delete (mic_recording_path E (Base64AudioRequest.file_extension request))
                     files).
Proof.
  intros Hc. split.
  - intros file files tmp Haudio Hname Hroom Hfails.
    erewrite (upload_run_adapter_raises E file files tmp Haudio Hname Hroom);
      [ | apply (adapter_provider_fails E c tmp (UploadFile.file file) error _ Hc);
          [apply lookup_insert_eq | exact Hfails]
        | reflexivity | reflexivity ].
    split; reflexivity.
  - intros request files audio_bytes Hdec Hopen Hroom Hfails.
    erewrite (base64_run_adapter_raises E request files audio_bytes Hdec Hopen Hroom);
      [ | apply (adapter_provider_fails E c _ audio_bytes error _ Hc);
          [apply lookup_insert_eq | exact Hfails]
        | exact I | reflexivity | reflexivity ].
    split; reflexivity.
Qed.

Lemma provider_failure_surfaces_in_503_witness :
  fst (transcribe_audio_file (mock_env (Some (failing_client "quota exceeded")) None)
         clip_wav (start ∅))
  = inl (HTTPException 503
           "Transcription service failed: Sarvam AI Transcription failed: quota exceeded")
  /\ fst (transcribe_base64_audio (mock_env (Some (failing_client "quota exceeded")) None)
            (base64_request "aGVsbG8=") (start ∅))
     = inl (HTTPException 503
              "Transcription service failed: Sarvam AI Transcription failed: quota exceeded").
Proof.
  destruct (provider_failure_surfaces_in_503
              (mock_env (Some (failing_client "quota exceeded")) None)
              (failing_client "quota exceeded") "quota exceeded" eq_refl)
    as [Hupload Hbase64].
  split.
  - apply (Hupload clip_wav ∅ "/tmp/tmpabcdefga.wav").
    + exists "audio/wav". split; reflexivity.
    + reflexivity.
    + exact I.
    + reflexivity.
  - apply (Hbase64 (base64_request "aGVsbG8=") ∅ [104; 101; 108; 108; 111]).
    + reflexivity.
    + reflexivity.
    + exact I.
    + reflexivity.
Defined.

Lemma probe_missing (response : gmap string pyval) :
  response !! "text" = None -> response !! "transcript" = None ->
  probe response = PyStr NOT_FOUND.
Proof. intros Htext Htranscript. unfold probe, dict_get. rewrite Htext, Htranscript. reflexivity. Qed.

(** X8: a provider response that holds neither [text] nor [transcript] is not
    treated as a failure: both endpoints answer 200, with the sentinel
    sentence as [transcribed_text], and the response is printed to the log. *)
Theorem missing_transcript_is_answered_200 (E : env) (c : client)
    (response : gmap string pyval) :
  SARVAM_CLIENT E = Some c ->
  response !! "text" = None -> response !! "transcript" = None ->
  (forall file files tmp,
      is_audio (UploadFile.content_type file) ->
      temp_name E (upload_suffix file) files tmp ->
      has_room E (UploadFile.file file) ->
      responds_to c (UploadFile.file file) response ->
      fst (transcribe_audio_file E file (start files))
      = inr {| TranscriptionResponse.filename :=
                 PyStr.or_else (UploadFile.filename file) "audio_file";
               TranscriptionResponse.transcribed_text :=
                 "Transcription result not found in API response." |}
      /\ In (PrintedResponse response)
            (trace (snd (transcribe_audio_file E file (start files)))))
  /\ (forall request files audio_bytes,
         Base64.b64decode (Base64AudioRequest.audio_data request)
         = Base64.Decoded audio_bytes ->
         open_error E (mic_recording_path E (Base64AudioRequest.file_extension request))
         = None ->
         has_room E audio_bytes ->
         responds_to c audio_bytes response ->
         fst (transcribe_base64_audio E request (start files))
         = inr {| TranscriptionResponse.filename := Base64AudioRequest.filename request;
                  TranscriptionResponse.transcribed_text :=
                    "Transcription result not found in API response." |}
         /\ In (PrintedResponse response)
               (trace (snd (transcribe_base64_audio E request (start files))))).
Proof.
  intros Hc Htext Htranscript.
  pose proof (probe_missing response Htext Htranscript) as Hprobe.
  split.
  - intros file files tmp Haudio Hname Hroom Hresp.
    erewrite (upload_run_adapter_returns E file files tmp Haudio Hname Hroom
                (PyStr NOT_FOUND) _ (inr _));
      [ | rewrite <- Hprobe;
          apply (adapter_returns_probe E c tmp (UploadFile.file file) response _ Hc);
          [apply lookup_insert_eq | exact Hresp]
        | reflexivity | reflexivity | reflexivity ].
    split; [reflexivity|].
    cbn [snd trace]. rewrite Hprobe. cbn [pyval_eq_str].
    rewrite !in_app_iff. left. right. left. reflexivity.
  - intros request files audio_bytes Hdec Hopen Hroom Hresp.
    erewrite (base64_run_adapter_returns E request files audio_bytes Hdec Hopen Hroom
                (PyStr NOT_FOUND) _ (inr _));
      [ | rewrite <- Hprobe;
          apply (adapter_returns_probe E c _ audio_bytes response _ Hc);
          [apply lookup_insert_eq | exact Hresp]
        | reflexivity | reflexivity | reflexivity | intros e He; discriminate He ].
    split; [reflexivity|].
    cbn [snd trace]. rewrite Hprobe. cbn [pyval_eq_str].
    rewrite !in_app_iff. left. right. left. reflexivity.
Qed.

Lemma missing_transcript_is_answered_200_witness :
  fst (transcribe_audio_file
         (mock_env (Some (mock_client {[ "request_id" := PyStr "r-1" ]})) None)
         clip_wav (start ∅))
  = inr {| TranscriptionResponse.filename := "clip.wav";
           TranscriptionResponse.transcribed_text :=
             "Transcription result not found in API response." |}.
Proof.
  destruct (missing_transcript_is_answered_200
              (mock_env (Some (mock_client {[ "request_id" := PyStr "r-1" ]})) None)
              (mock_client {[ "request_id" := PyStr "r-1" ]})
              {[ "request_id" := PyStr "r-1" ]} eq_refl)
    as [Hupload _]; [vm_compute; reflexivity | vm_compute; reflexivity |].
  apply (Hupload clip_wav ∅ "/tmp/tmpabcdefga.wav").
  - exists "audio/wav". split; reflexivity.
  - reflexivity.
  - exact I.
  - reflexivity.
Defined.

(** X9: a value under the probed key that the response model turns down (one
    that is no string and is not coerced to one, such as [None]) makes both
    endpoints answer 503, not 200: the response is built inside the handlers'
    [try], so the validation error is reported as a failure of the
    transcription service, and the temporary file is removed. *)
Theorem unusable_transcript_is_503 (E : env) (c : client) (response : gmap string pyval) :
  SARVAM_CLIENT E = Some c ->
  turned_down E (probe response) ->
  (forall file files tmp,
      is_audio (UploadFile.content_type file) ->
      temp_name E (upload_suffix file) files tmp ->
      has_room E (UploadFile.file file) ->
      responds_to c (UploadFile.file file) response ->
      fst (transcribe_audio_file E file (start files))
      = inl (HTTPException 503
               ("Transcription service failed: " ++ validation_text E (probe response)))
      /\ fs (snd (transcribe_audio_file E file (start files))) = files)
  /\ (forall request files audio_bytes,
         Base64.b64decode (Base64AudioRequest.audio_data request)
         = Base64.Decoded audio_bytes ->
         open_error E (mic_recording_path E (Base64AudioRequest.file_extension request))
         = None ->
         has_room E audio_bytes ->
         responds_to c audio_bytes response ->
         fst (transcribe_base64_audio E request (start files))
         = inl (HTTPException 503
                  ("Transcription service failed: " ++ validation_text E (probe response)))
         /\ fs (snd (transcribe_base64_audio E request (start files)))
            = delete (mic_recording_path E (Base64AudioRequest.file_extension request))
                     files).
Proof.
  intros Hc Hdown. split.
  - intros file files tmp Haudio Hname Hroom Hresp.
    erewrite (upload_run_adapter_returns E file files tmp Haudio Hname Hroom
                (probe response) _ (inl _));
      [ | apply (adapter_returns_probe E c tmp (UploadFile.file file) response _ Hc);
          [apply lookup_insert_eq | exact Hresp]
        | reflexivity | reflexivity
        | apply new_TranscriptionResponse_turned_down; exact Hdown ].
    split; reflexivity.
  - intros request files audio_bytes Hdec Hopen Hroom Hresp.
    erewrite (base64_run_adapter_returns E request files audio_bytes Hdec Hopen Hroom
                (probe response) _ (inl _));
      [ | apply (adapter_returns_probe E c _ audio_bytes response _ Hc);
          [apply lookup_insert_eq | exact Hresp]
        | reflexivity | reflexivity
        | apply new_TranscriptionResponse_turned_down; exact Hdown
        | intros e [= <-]; exact I ].
    split; reflexivity.
Qed.

Lemma unusable_transcript_is_503_witness :
  status_of (fst (transcribe_audio_file
                    (mock_env (Some (mock_client {[ "text" := PyNone ]})) None)
                    clip_wav (start ∅))) = 503.
Proof.
  destruct (unusable_transcript_is_503
              (mock_env (Some (mock_client {[ "text" := PyNone ]})) None)
              (mock_client {[ "text" := PyNone ]})
              {[ "text" := PyNone ]} eq_refl)
    as [Hupload _].
  - split; [intros s; vm_compute; discriminate | reflexivity].
  - destruct (Hupload clip_wav ∅ "/tmp/tmpabcdefga.wav") as [Hrun _].
    + exists "audio/wav". split; reflexivity.
    + reflexivity.
    + exact I.
    + reflexivity.
    + rewrite Hrun. reflexivity.
Defined.

(** ** The filename in the answer *)




(** ** [os.path.splitext], as the upload handler relies on it *)

Lemma append_cons (c : ascii) (a b : string) : String c a ++ b = String c (a ++ b).
Proof. reflexivity. Qed.

Lemma append_nil_r (a : string) : a ++ "" = a.
Proof.
  induction a as [|c a IH]; [reflexivity|]. rewrite append_cons, IH. reflexivity.
Qed.

Lemma substring_all (s : string) : substring 0 (String.length s) s = s.
Proof. induction s as [|c s IH]; [reflexivity|]. cbn. rewrite IH. reflexivity. Qed.

Lemma substring_split (s : string) (k : nat) :
  substring 0 k s ++ substring k (String.length s - k) s = s.
Proof.
  revert k. induction s as [|c s IH]; intros k.
  - destruct k; reflexivity.
  - destruct k as [|k].
    + cbn [substring]. change ("" ++ ?x) with x. cbn [String.length Nat.sub].
      f_equal. apply substring_all.
    + cbn [substring String.length Nat.sub]. rewrite append_cons. f_equal. apply IH.
Qed.

Lemma slice_split (s : string) (k : Z) : PyStr.slice_to s k ++ PyStr.slice_from s k = s.
Proof. apply substring_split. Qed.

Lemma splitext_scan_some p filenameIndex dotIndex remaining r :
  OsPath.splitext_scan p filenameIndex dotIndex remaining = Some r ->
  r = (PyStr.slice_to p dotIndex, PyStr.slice_from p dotIndex).
Proof.
  revert filenameIndex. induction remaining as [|remaining IH]; intros filenameIndex;
    cbn [OsPath.splitext_scan]; [discriminate|].
  destruct (negb _); [intros [= <-]; reflexivity | apply IH].
Qed.

(** What [splitext] returns: the path unsplit, or the path cut at its last dot,
    which then lies behind the last separator. *)
Lemma splitext_cases (p : string) :
  OsPath.splitext p = (p, "")
  \/ (OsPath.splitext p
      = (PyStr.slice_to p (PyStr.rfind p OsPath.extsep),
         PyStr.slice_from p (PyStr.rfind p OsPath.extsep))
      /\ PyStr.rfind p OsPath.sep < PyStr.rfind p OsPath.extsep).
Proof.
  unfold OsPath.splitext.
  assert (Hempty : PyStr.slice_to p 0 = "") by (destruct p; reflexivity).
  rewrite Hempty.
  destruct (PyStr.rfind p OsPath.sep <? PyStr.rfind p OsPath.extsep) eqn:Hlt;
    [|left; reflexivity].
  destruct (OsPath.splitext_scan _ _ _ _) as [r|] eqn:Hscan; [|left; reflexivity].
  right. apply splitext_scan_some in Hscan as ->.
  split; [reflexivity | apply Z.ltb_lt, Hlt].
Qed.

Lemma rfind_from_ge_last (c : ascii) (s : string) (i last : Z) :
  last <= i -> last <= PyStr.rfind_from c s i last.
Proof.
  revert i last. induction s as [|a s IH]; intros i last Hle; cbn [PyStr.rfind_from]; [lia|].
  destruct (Ascii.eqb a c).
  - etransitivity; [exact Hle|]. apply IH. lia.
  - apply IH. lia.
Qed.

(** Behind a position that lies after the last [c] there is no [c]. *)
Lemma rfind_from_none_after (c : ascii) (s : string) (i last : Z) (k : nat) :
  last < i ->
  PyStr.rfind_from c s i last < i + Z.of_nat k ->
  has_char c (substring k (String.length s - k) s) = false.
Proof.
  revert i last k. induction s as [|a s IH]; intros i last k Hlast Hfound.
  - destruct k; reflexivity.
  - cbn [PyStr.rfind_from] in Hfound. destruct k as [|k].
    + rewrite Nat.sub_0_r, substring_all.
      destruct (Ascii.eqb a c) eqn:Hac.
      * pose proof (rfind_from_ge_last c s (i + 1) i ltac:(lia)). lia.
      * cbn [has_char]. rewrite Hac. cbn [orb].
        specialize (IH (i + 1) last 0%nat ltac:(lia) ltac:(lia)).
        cbn [Nat.sub] in IH. rewrite Nat.sub_0_r, substring_all in IH. exact IH.
    + cbn [substring String.length Nat.sub].
      apply (IH (i + 1) (if Ascii.eqb a c then i else last)).
      * destruct (Ascii.eqb a c); lia.
      * lia.
Qed.

(** At the position of the last [c] stands a [c], with no [c] behind it. *)
Lemma rfind_from_found (c : ascii) (s : string) (i last : Z) :
  last < i -> 0 <= i ->
  i <= PyStr.rfind_from c s i last ->
  exists rest,
    substring (Z.to_nat (PyStr.rfind_from c s i last - i))
              (String.length s - Z.to_nat (PyStr.rfind_from c s i last - i)) s
    = String c rest
    /\ has_char c rest = false.
Proof.
  revert i last. induction s as [|a s IH]; intros i last Hlast Hi Hfound.
  - cbn [PyStr.rfind_from] in Hfound. lia.
  - cbn [PyStr.rfind_from] in *.
    destruct (Z.eq_dec (PyStr.rfind_from c s (i + 1) (if Ascii.eqb a c then i else last)) i)
      as [Heq | Hne].
    + rewrite Heq, Z.sub_diag. cbn [Z.to_nat]. rewrite Nat.sub_0_r, substring_all.
      destruct (Ascii.eqb a c) eqn:Hac.
      * apply Ascii.eqb_eq in Hac as ->. exists s. split; [reflexivity|].
        pose proof (rfind_from_none_after c s (i + 1) i 0 ltac:(lia) ltac:(lia)) as Hnone.
        rewrite Nat.sub_0_r, substring_all in Hnone. exact Hnone.
      * exfalso.
        destruct (Z_lt_le_dec (PyStr.rfind_from c s (i + 1) last) (i + 1)) as [Hlt | Hge].
        -- pose proof (rfind_from_none_after c s (i + 1) last 0 ltac:(lia) ltac:(lia))
            as Hnone.
           rewrite Nat.sub_0_r, substring_all in Hnone.
           rewrite (rfind_from_absent c s (i + 1) last Hnone) in Heq. lia.
        -- lia.
    + assert (Hstep : i + 1 <= PyStr.rfind_from c s (i + 1)
                                  (if Ascii.eqb a c then i else last)).
      { destruct (Ascii.eqb a c) eqn:Hac.
        - pose proof (rfind_from_ge_last c s (i + 1) i ltac:(lia)). lia.
        - lia. }
      destruct (IH (i + 1) (if Ascii.eqb a c then i else last)
                  ltac:(destruct (Ascii.eqb a c); lia) ltac:(lia) Hstep)
        as (rest & Hrest & Hnone).
      exists rest. split; [|exact Hnone].
      replace (Z.to_nat (PyStr.rfind_from c s (i + 1) (if Ascii.eqb a c then i else last) - i))
        with (S (Z.to_nat (PyStr.rfind_from c s (i + 1)
                             (if Ascii.eqb a c then i else last) - (i + 1))))
        by lia.
      cbn [substring String.length Nat.sub]. exact Hrest.
Qed.

(** [os.path.splitext] only cuts: root and extension put together again give
    the path.  The extension is empty, or it is a dot followed by characters
    among which there is neither a dot nor a separator. *)
Lemma splitext_shape (p : string) :
  fst (OsPath.splitext p) ++ snd (OsPath.splitext p) = p
  /\ (snd (OsPath.splitext p) = ""
      \/ exists rest,
           snd (OsPath.splitext p) = String "."%char rest
           /\ has_char "."%char rest = false
           /\ has_char "/"%char rest = false).
Proof.
  destruct (splitext_cases p) as [-> | [-> Hsep]]; cbn [fst snd].
  - split; [apply append_nil_r | left; reflexivity].
  - split; [apply slice_split|]. right.
    assert (Hdot : 0 <= PyStr.rfind p OsPath.extsep).
    { pose proof (rfind_from_ge_last OsPath.sep p 0 (-1) ltac:(lia)).
      unfold PyStr.rfind in *. lia. }
    destruct (rfind_from_found OsPath.extsep p 0 (-1) ltac:(lia) ltac:(lia) Hdot)
      as (rest & Hrest & Hnone).
    rewrite Z.sub_0_r in Hrest.
    exists rest. unfold PyStr.slice_from. fold (PyStr.rfind p OsPath.extsep) in Hrest.
    split; [exact Hrest|]. split; [exact Hnone|].
    pose proof (rfind_from_none_after OsPath.sep p 0 (-1)
                  (Z.to_nat (PyStr.rfind p OsPath.extsep)) ltac:(lia)) as Hnosep.
    fold (PyStr.rfind p OsPath.sep) in Hnosep.
    rewrite Hrest in Hnosep.
    specialize (Hnosep ltac:(lia)). cbn [has_char] in Hnosep.
    apply orb_false_elim in Hnosep as [_ Hnosep]. exact Hnosep.
Qed.

(** ** Decoding what a client encoded *)

Example b64encode_hello : b64encode [104; 101; 108; 108; 111] = "aGVsbG8=".
Proof. reflexivity. Qed.

Example b64encode_hi : b64encode [104; 105] = "aGk=".
Proof. reflexivity. Qed.

Example b64encode_one : b64encode [255] = "/w==".
Proof. reflexivity. Qed.

Lemma below_forallb (n : nat) (f : Z -> bool) :
  forallb f (below n) = true -> forall z, 0 <= z < Z.of_nat n -> f z = true.
Proof.
  intros Hall z Hz. rewrite forallb_forall in Hall. apply Hall.
  unfold below. apply in_map_iff. exists (Z.to_nat z).
  split; [lia |]. apply in_seq. lia.
Qed.

Lemma below_forallb2 (n m : nat) (f : Z -> Z -> bool) :
  forallb (fun a => forallb (f a) (below m)) (below n) = true ->
  forall a b, 0 <= a < Z.of_nat n -> 0 <= b < Z.of_nat m -> f a b = true.
Proof.
  intros Hall a b Ha Hb.
  apply (below_forallb m (f a)); [|exact Hb].
  apply (below_forallb n (fun a => forallb (f a) (below m)) Hall a Ha).
Qed.

(** The two tables are inverse on sextets, and the characters of the
    alphabet are ASCII and are not the pad. *)
Lemma table_round_trip (v : Z) :
  0 <= v < 64 ->
  Base64.table_a2b_base64 (table_b2a_base64 v) = Some v
  /\ Ascii.eqb (table_b2a_base64 v) Base64.BASE64_PAD = false
  /\ (Base64.code (table_b2a_base64 v) <? 128) = true.
Proof.
  intros Hv.
  pose proof (below_forallb 64
                (fun v => match Base64.table_a2b_base64 (table_b2a_base64 v) with
                          | Some w => w =? v
                          | None => false
                          end
                          && negb (Ascii.eqb (table_b2a_base64 v) Base64.BASE64_PAD)
                          && (Base64.code (table_b2a_base64 v) <? 128))
                ltac:(vm_compute; reflexivity) v Hv) as Hcheck.
  cbv beta in Hcheck.
  apply andb_prop in Hcheck as [Hcheck Hascii].
  apply andb_prop in Hcheck as [Htable Hpad].
  split; [|split].
  - destruct (Base64.table_a2b_base64 (table_b2a_base64 v)) as [w|]; [|discriminate].
    apply Z.eqb_eq in Htable as ->. reflexivity.
  - apply negb_true_iff, Hpad.
  - exact Hascii.
Qed.

(** The sextets of bytes are sextets, and the decoder's masks and shifts find
    the bits of the bytes in them. *)
Lemma sextets_of_bytes (b1 b2 : Z) :
  is_byte b1 -> is_byte b2 ->
  (0 <= sextet1 b1 < 64) /\ (0 <= sextet2 b1 b2 < 64)
  /\ (0 <= sextet3 b1 b2 < 64) /\ (0 <= sextet4 b1 < 64)
  /\ Base64.u8 (Z.lor (Z.shiftl (sextet1 b1) 2) (Z.shiftr (sextet2 b1 b2) 4)) = b1
  /\ Z.land (sextet2 b1 b2) 15 = Z.shiftr b2 4
  /\ Z.shiftr (sextet3 b1 b2) 2 = Z.land b1 15
  /\ Base64.u8 (Z.lor (Z.shiftl (Z.shiftr b1 4) 4) (Z.land b1 15)) = b1
  /\ Base64.u8 (Z.lor (Z.shiftl (Z.land (sextet3 b1 b2) 3) 6) (sextet4 b2)) = b2.
Proof.
  intros H1 H2.
  pose proof (below_forallb2 256 256
                (fun b1 b2 =>
                   (0 <=? sextet1 b1) && (sextet1 b1 <? 64)
                   && (0 <=? sextet2 b1 b2) && (sextet2 b1 b2 <? 64)
                   && (0 <=? sextet3 b1 b2) && (sextet3 b1 b2 <? 64)
                   && (0 <=? sextet4 b1) && (sextet4 b1 <? 64)
                   && (Base64.u8 (Z.lor (Z.shiftl (sextet1 b1) 2)
                                        (Z.shiftr (sextet2 b1 b2) 4)) =? b1)
                   && (Z.land (sextet2 b1 b2) 15 =? Z.shiftr b2 4)
                   && (Z.shiftr (sextet3 b1 b2) 2 =? Z.land b1 15)
                   && (Base64.u8 (Z.lor (Z.shiftl (Z.shiftr b1 4) 4) (Z.land b1 15)) =? b1)
                   && (Base64.u8 (Z.lor (Z.shiftl (Z.land (sextet3 b1 b2) 3) 6)
                                        (sextet4 b2)) =? b2))
                ltac:(vm_compute; reflexivity) b1 b2 H1 H2) as Hcheck.
  cbv beta in Hcheck.
  repeat (apply andb_prop in Hcheck as [Hcheck ?]).
  repeat match goal with
         | H : (_ <=? _) = true |- _ => apply Z.leb_le in H
         | H : (_ <? _) = true |- _ => apply Z.ltb_lt in H
         | H : (_ =? _) = true |- _ => apply Z.eqb_eq in H
         end.
  repeat split; assumption.
Qed.

Lemma a2b_loop_sextet (v : Z) (rest : string) (d : Base64.decoder) :
  0 <= v < 64 ->
  Base64.a2b_loop (String (table_b2a_base64 v) rest) d
  = Base64.a2b_loop rest (Base64.push_sextet d v).
Proof.
  intros Hv. destruct (table_round_trip v Hv) as (Htable & Hpad & _).
  cbn [Base64.a2b_loop]. rewrite Hpad, Htable. reflexivity.
Qed.

(** Four characters of the alphabet, read from the start of a quad, give the
    three bytes they encode. *)
Lemma a2b_loop_group (b1 b2 b3 : Z) (rest : string) (l p : Z) (bd : list Z) :
  is_byte b1 -> is_byte b2 -> is_byte b3 ->
  Base64.a2b_loop
    (String (table_b2a_base64 (sextet1 b1))
       (String (table_b2a_base64 (sextet2 b1 b2))
          (String (table_b2a_base64 (sextet3 b2 b3))
             (String (table_b2a_base64 (sextet4 b3)) rest))))
    {| Base64.quad_pos := 0; Base64.leftchar := l; Base64.pads := p; Base64.bin_data := bd |}
  = Base64.a2b_loop rest
      {| Base64.quad_pos := 0; Base64.leftchar := 0; Base64.pads := 0;
         Base64.bin_data := (bd ++ [b1; b2; b3])%list |}.
Proof.
  intros H1 H2 H3.
  destruct (sextets_of_bytes b1 b2 H1 H2) as (Hs1 & Hs2 & _ & _ & Hbyte1 & Hleft & _).
  destruct (sextets_of_bytes b2 b3 H2 H3)
    as (_ & _ & Hs3 & _ & _ & _ & Hmid & Hbyte2 & Hbyte3).
  destruct (sextets_of_bytes b3 b3 H3 H3) as (_ & _ & _ & Hs4 & _).
  rewrite !a2b_loop_sextet by assumption.
  unfold Base64.push_sextet.
  cbn [Base64.quad_pos Base64.leftchar Base64.pads Base64.bin_data Z.eqb Pos.eqb].
  rewrite Hbyte1, Hleft, Hmid, Hbyte2, Hbyte3.
  rewrite <- !app_assoc. reflexivity.
Qed.

(** The decoder's loop on an encoded byte sequence: it reads the bytes back
    and stops at the end of a quad or at the padding; the text is ASCII. *)
Lemma a2b_loop_encoded (n : nat) :
  forall (bs : list Z) (l p : Z) (bd : list Z),
    (List.length bs <= n)%nat -> Forall is_byte bs ->
    Base64.is_ascii (b64encode bs) = true
    /\ exists done d,
         Base64.a2b_loop (b64encode bs)
           {| Base64.quad_pos := 0; Base64.leftchar := l; Base64.pads := p;
              Base64.bin_data := bd |} = (done, d)
         /\ Base64.bin_data d = (bd ++ bs)%list
         /\ (done = true \/ Base64.quad_pos d = 0).
Proof.
  induction n as [|n IH]; intros bs l p bd Hlen Hbytes.
  { destruct bs; [|cbn in Hlen; lia].
    split; [reflexivity|]. eexists _, _. split; [reflexivity|].
    split; [symmetry; apply app_nil_r | right; reflexivity]. }
  destruct bs as [|b1 [|b2 [|b3 rest]]].
  - split; [reflexivity|]. eexists _, _. split; [reflexivity|].
    split; [symmetry; apply app_nil_r | right; reflexivity].
  - apply Forall_cons_iff in Hbytes as [H1 _].
    assert (H0 : is_byte 0) by (unfold is_byte; lia).
    destruct (sextets_of_bytes b1 0 H1 H0) as (Hs1 & Hs2 & _ & _ & Hbyte1 & _).
    destruct (table_round_trip _ Hs1) as (_ & _ & Ha1).
    destruct (table_round_trip _ Hs2) as (_ & _ & Ha2).
    split.
    + cbn [b64encode Base64.is_ascii]. rewrite Ha1, Ha2. reflexivity.
    + eexists _, _. split; [|split].
      * cbn [b64encode]. rewrite !a2b_loop_sextet by assumption.
        unfold Base64.push_sextet.
        cbn [Base64.quad_pos Base64.leftchar Base64.pads Base64.bin_data Z.eqb Pos.eqb].
        rewrite Hbyte1. reflexivity.
      * reflexivity.
      * left. reflexivity.
  - apply Forall_cons_iff in Hbytes as [H1 Hbytes].
    apply Forall_cons_iff in Hbytes as [H2 _].
    assert (H0 : is_byte 0) by (unfold is_byte; lia).
    destruct (sextets_of_bytes b1 b2 H1 H2) as (Hs1 & Hs2 & _ & _ & Hbyte1 & Hleft & _).
    destruct (sextets_of_bytes b2 0 H2 H0) as (_ & _ & Hs3 & _ & _ & _ & Hmid & Hbyte2 & _).
    destruct (table_round_trip _ Hs1) as (_ & _ & Ha1).
    destruct (table_round_trip _ Hs2) as (_ & _ & Ha2).
    destruct (table_round_trip _ Hs3) as (_ & _ & Ha3).
    split.
    + cbn [b64encode Base64.is_ascii]. rewrite Ha1, Ha2, Ha3. reflexivity.
    + eexists _, _. split; [|split].
      * cbn [b64encode]. rewrite !a2b_loop_sextet by assumption.
        unfold Base64.push_sextet.
        cbn [Base64.quad_pos Base64.leftchar Base64.pads Base64.bin_data Z.eqb Pos.eqb].
        rewrite Hbyte1, Hleft, Hmid, Hbyte2. reflexivity.
      * cbn [Base64.bin_data]. rewrite <- app_assoc. reflexivity.
      * left. reflexivity.
  - apply Forall_cons_iff in Hbytes as [H1 Hbytes].
    apply Forall_cons_iff in Hbytes as [H2 Hbytes].
    apply Forall_cons_iff in Hbytes as [H3 Hbytes].
    cbn [List.length] in Hlen.
    destruct (IH rest 0 0 (bd ++ [b1; b2; b3])%list ltac:(lia) Hbytes)
      as (Hascii & done & d & Hloop & Hdata & Hend).
    destruct (sextets_of_bytes b1 b2 H1 H2) as (Hs1 & Hs2 & _).
    destruct (sextets_of_bytes b2 b3 H2 H3) as (_ & _ & Hs3 & _).
    destruct (sextets_of_bytes b3 b3 H3 H3) as (_ & _ & _ & Hs4 & _).
    destruct (table_round_trip _ Hs1) as (_ & _ & Ha1).
    destruct (table_round_trip _ Hs2) as (_ & _ & Ha2).
    destruct (table_round_trip _ Hs3) as (_ & _ & Ha3).
    destruct (table_round_trip _ Hs4) as (_ & _ & Ha4).
    split.
    + cbn [b64encode Base64.is_ascii]. rewrite Ha1, Ha2, Ha3, Ha4, Hascii. reflexivity.
    + exists done, d. split; [|split].
      * cbn [b64encode]. rewrite (a2b_loop_group b1 b2 b3 _ l p bd H1 H2 H3). exact Hloop.
      * rewrite Hdata, <- app_assoc. reflexivity.
      * exact Hend.
Qed.

(** Decoding undoes the standard encoding. *)
Lemma b64decode_encoded (bs : list Z) :
  Forall is_byte bs -> Base64.b64decode (b64encode bs) = Base64.Decoded bs.
Proof.
  intros Hbytes.
  destruct (a2b_loop_encoded (List.length bs) bs 0 0 [] ltac:(lia) Hbytes)
    as (Hascii & done & d & Hloop & Hdata & Hend).
  unfold Base64.b64decode, Base64.a2b_base64, Base64.decoder_init.
  rewrite Hascii, Hloop. cbn [app] in Hdata.
  destruct done.
  - rewrite Hdata. reflexivity.
  - destruct Hend as [Hdone | Hquad]; [discriminate|].
    rewrite Hquad, Hdata. reflexivity.
Qed.

(** X12: the bytes a client encodes are the bytes that arrive.  For every
    byte sequence, a Base64 request carrying its standard encoding decodes to
    exactly these bytes; when the file can be written and a client is in
    place, exactly these bytes are written to the temporary file and handed
    to the provider, once. *)
Theorem base64_payload_arrives_intact (E : env) (request : Base64AudioRequest.t)
    (files : gmap string (list Z)) (bs : list Z) :
  Forall is_byte bs ->
  Base64AudioRequest.audio_data request = b64encode bs ->
  Base64.b64decode (Base64AudioRequest.audio_data request) = Base64.Decoded bs
  /\ status_of (fst (transcribe_base64_audio E request (start files))) <> 400
  /\ (open_error E (mic_recording_path E (Base64AudioRequest.file_extension request))
      = None ->
      has_room E bs ->
      forall c, SARVAM_CLIENT E = Some c ->
        In (Wrote (mic_recording_path E (Base64AudioRequest.file_extension request)) bs)
           (trace (snd (transcribe_base64_audio E request (start files))))
        /\ provider_calls (trace (snd (transcribe_base64_audio E request (start files))))
           = [(bs, "saarika:v2.5", "gu-IN")]).
Proof.
  intros Hbytes Hdata.
  assert (Hdec : Base64.b64decode (Base64AudioRequest.audio_data request)
                 = Base64.Decoded bs)
    by (rewrite Hdata; apply b64decode_encoded, Hbytes).
  split; [exact Hdec|]. split.
  - intros H400. apply base64_400_only_when_rejected in H400 as [e He].
    rewrite Hdec in He. discriminate He.
  - intros Hopen Hroom c Hc.
    destruct (base64_run_reaches_provider E request files bs Hdec Hopen Hroom c Hc)
      as (r & st' & -> & _ & _ & Hwrote & Hcalls).
    split; [exact Hwrote | exact Hcalls].
Qed.

Lemma base64_payload_arrives_intact_witness :
  provider_calls (trace (snd (transcribe_base64_audio working_env
                                (base64_request "aGVsbG8=") (start ∅))))
  = [([104; 101; 108; 108; 111], "saarika:v2.5", "gu-IN")].
Proof.
  destruct (base64_payload_arrives_intact working_env (base64_request "aGVsbG8=") ∅
              [104; 101; 108; 108; 111]) as (_ & _ & Harrives).
  - repeat constructor; unfold is_byte; lia.
  - reflexivity.
  - apply (Harrives eq_refl I (mock_client hello_world) eq_refl).
Defined.

(** ** Characters the decoder skips *)

Lemma a2b_loop_skips (c : ascii) (s1 s2 : string) (d : Base64.decoder) :
  foreign c ->
  Base64.a2b_loop (s1 ++ String c s2) d = Base64.a2b_loop (s1 ++ s2) d.
Proof.
  intros (Htable & Hpad & _). revert d.
  induction s1 as [|a s1 IH]; intros d.
  - change ("" ++ ?x) with x. cbn [Base64.a2b_loop]. rewrite Hpad, Htable. reflexivity.
  - rewrite !append_cons. cbn [Base64.a2b_loop].
    destruct (Ascii.eqb a Base64.BASE64_PAD).
    + destruct (2 <=? Base64.quad_pos d); [|apply IH].
      destruct (4 <=? _); [reflexivity | apply IH].
    + destruct (Base64.table_a2b_base64 a); apply IH.
Qed.

Lemma is_ascii_skips (c : ascii) (s1 s2 : string) :
  foreign c -> Base64.is_ascii (s1 ++ String c s2) = Base64.is_ascii (s1 ++ s2).
Proof.
  intros (_ & _ & Hascii).
  induction s1 as [|a s1 IH].
  - change ("" ++ ?x) with x. cbn [Base64.is_ascii]. rewrite Hascii. reflexivity.
  - rewrite !append_cons. cbn [Base64.is_ascii]. rewrite IH. reflexivity.
Qed.

Lemma b64decode_skips (c : ascii) (s1 s2 : string) :
  foreign c -> Base64.b64decode (s1 ++ String c s2) = Base64.b64decode (s1 ++ s2).
Proof.
  intros Hc. unfold Base64.b64decode, Base64.a2b_base64.
  rewrite (is_ascii_skips c s1 s2 Hc), (a2b_loop_skips c s1 s2 _ Hc). reflexivity.
Qed.

(** X13: the Base64 endpoint does not see the characters its decoder skips.
    A payload with an ASCII character that is neither of the alphabet nor the
    pad (a space, a line break, a [!]) anywhere in it is handled exactly as
    the payload without that character: the same answer, the same effects. *)
Theorem base64_ignores_foreign_characters (E : env) (request : Base64AudioRequest.t)
    (c : ascii) (s1 s2 : string) (st : state) :
  foreign c ->
  Base64AudioRequest.audio_data request = s1 ++ String c s2 ->
  transcribe_base64_audio E request st
  = transcribe_base64_audio E (with_audio_data request (s1 ++ s2)) st.
Proof.
  intros Hc Hdata.
  unfold transcribe_base64_audio, b64decode, with_audio_data.
  cbn [Base64AudioRequest.audio_data Base64AudioRequest.file_extension
       Base64AudioRequest.filename].
  rewrite Hdata, (b64decode_skips c s1 s2 Hc). reflexivity.
Qed.

Lemma base64_ignores_foreign_characters_witness :
  transcribe_base64_audio working_env (base64_request "aGVs bG8=") (start ∅)
  = transcribe_base64_audio working_env
      (with_audio_data (base64_request "aGVs bG8=") "aGVsbG8=") (start ∅).
Proof.
  apply (base64_ignores_foreign_characters working_env (base64_request "aGVs bG8=")
           " "%char "aGVs" "bG8=" (start ∅)).
  - repeat split.
  - reflexivity.
Defined.

(** ** Where the upload's temporary file is put *)

(** X11: the uploaded filename reaches the name of the temporary file through
    its extension only.  The suffix is what [os.path.splitext] cuts off the
    filename (or off [audio.wav] when there is none): put behind the root it
    gives the filename again, and it is empty or a dot followed by characters
    among which there is neither a dot nor a separator.  Every file the
    handler creates is [tmp], a name [tempfile] drew, and this suffix, joined
    to the temp directory. *)
Theorem upload_suffix_is_an_extension (E : env) (file : UploadFile.t)
    (files : gmap string (list Z)) :
  fst (OsPath.splitext (PyStr.or_else (UploadFile.filename file) "audio.wav"))
  ++ upload_suffix file
  = PyStr.or_else (UploadFile.filename file) "audio.wav"
  /\ (upload_suffix file = ""
      \/ exists rest,
           upload_suffix file = String "."%char rest
           /\ has_char "."%char rest = false
           /\ has_char "/"%char rest = false)
  /\ (forall tmp,
         In tmp (created_files (trace (snd (transcribe_audio_file E file (start files))))) ->
         exists name,
           tmp = OsPath.join (gettempdir E) ("tmp" ++ name ++ upload_suffix file)).
Proof.
  destruct (splitext_shape (PyStr.or_else (UploadFile.filename file) "audio.wav"))
    as [Hcut Hshape].
  split; [exact Hcut|]. split; [exact Hshape|].
  intros tmp Hin.
  destruct (upload_created_files E file files)
    as [Hnone | (tmp' & _ & Hname & Hcreated)].
  - rewrite Hnone in Hin. destruct Hin.
  - rewrite Hcreated in Hin. destruct Hin as [<- | []].
    apply mkstemp_inner_inr in Hname as (_ & _ & Hjoin). exact Hjoin.
Qed.

Lemma upload_suffix_is_an_extension_witness :
  exists name,
    "/tmp/tmpabcdefga.gz"
    = OsPath.join "/tmp"
        ("tmp" ++ name
         ++ upload_suffix {| UploadFile.filename := Some "../../etc/notes.tar.gz";
                             UploadFile.content_type := Some "audio/wav";
                             UploadFile.file := ten_bytes |}).
Proof.
  destruct (upload_suffix_is_an_extension working_env
              {| UploadFile.filename := Some "../../etc/notes.tar.gz";
                 UploadFile.content_type := Some "audio/wav";
                 UploadFile.file := ten_bytes |} ∅) as (_ & _ & Hcreated).
  apply (Hcreated "/tmp/tmpabcdefga.gz"). vm_compute. left. reflexivity.
Defined.

(** ** Failures before the provider is reached *)



(** X17: a payload with a character outside ASCII is not answered as invalid
    input.  The decoder raises a plain [ValueError] for it, which the handler
    does not tell apart from a failure of the service: the answer is 503,
    nothing is written and the provider is not called. *)
Theorem base64_non_ascii_payload_is_503 (E : env) (request : Base64AudioRequest.t)
    (files : gmap string (list Z)) :
  Base64.is_ascii (Base64AudioRequest.audio_data request) = false ->
  fst (transcribe_base64_audio E request (start files))
  = inl (HTTPException 503
           ("Transcription service failed: "
            ++ "string argument should contain only ASCII characters"))
  /\ fs (snd (transcribe_base64_audio E request (start files))) = files
  /\ created_files (trace (snd (transcribe_base64_audio E request (start files)))) = []
  /\ provider_calls (trace (snd (transcribe_base64_audio E request (start files)))) = [].
Proof.
  intros Hascii.
  rewrite (base64_run_value_error E request files
             "string argument should contain only ASCII characters").
  - repeat split.
  - unfold Base64.b64decode. rewrite Hascii. reflexivity.
Qed.

Lemma base64_non_ascii_payload_is_503_witness :
  status_of (fst (transcribe_base64_audio working_env
                    (base64_request (String (ascii_of_nat 233) "aGk=")) (start ∅))) = 503.
Proof.
  destruct (base64_non_ascii_payload_is_503 working_env
              (base64_request (String (ascii_of_nat 233) "aGk=")) ∅ eq_refl)
    as [Hrun _].
  rewrite Hrun. reflexivity.
Defined.

(** X18: the upload handler creates its temporary file outside any [try].
    When [tempfile] finds no usable name, or cannot open the one it found, its
    exception leaves the handler as it is, not as an [HTTPException]; nothing
    has been written and the provider has not been called. *)
Theorem upload_tempfile_failure_escapes (E : env) (file : UploadFile.t)
    (files : gmap string (list Z)) (e : exn) :
  is_audio (UploadFile.content_type file) ->
  _mkstemp_inner E (gettempdir E) "tmp" (upload_suffix file) files (TMP_MAX E) 0 = inl e ->
  fst (transcribe_audio_file E file (start files)) = inl e
  /\ tempfile_error e
  /\ status_of (fst (transcribe_audio_file E file (start files))) = 500
  /\ fs (snd (transcribe_audio_file E file (start files))) = files
  /\ trace (snd (transcribe_audio_file E file (start files))) = [].
Proof.
  intros Haudio Hname.
  pose proof (mkstemp_inner_inl _ _ _ _ _ _ _ _ Hname) as Hkind.
  assert (Hrun : transcribe_audio_file E file (start files)
                 = (inl e, {| fs := files; trace := []; temp_file_path := None |})).
  { unfold transcribe_audio_file. rewrite (audio_passes_guard _ Haudio).
    eapply bind_inr; [reflexivity|].
    eapply bind_inl. apply NamedTemporaryFile_fails. exact Hname. }
  rewrite Hrun. repeat split; try assumption.
  destruct e; try destruct Hkind; reflexivity.
Qed.

Lemma upload_tempfile_failure_escapes_witness :
  fst (transcribe_audio_file
         {| SARVAM_CLIENT := Some (mock_client hello_world);
            gettempdir := "/tmp";
            candidate_names := fun _ => "abcdefgh";
            TMP_MAX := 3;
            open_error := fun _ => None;
            disk_free := None;
            lax_str := fun _ => None;
            validation_text := fun _ => "" |}
         clip_wav (start {[ "/tmp/tmpabcdefgh.wav" := [] ]}))
  = inl (FileExistsError "[Errno 17] No usable temporary file name found").
Proof.
  destruct (upload_tempfile_failure_escapes
              {| SARVAM_CLIENT := Some (mock_client hello_world);
                 gettempdir := "/tmp";
                 candidate_names := fun _ => "abcdefgh";
                 TMP_MAX := 3;
                 open_error := fun _ => None;
                 disk_free := None;
                 lax_str := fun _ => None;
                 validation_text := fun _ => "" |}
              clip_wav {[ "/tmp/tmpabcdefgh.wav" := [] ]}
              (FileExistsError "[Errno 17] No usable temporary file name found"))
    as [Hrun _].
  - exists "audio/wav". split; reflexivity.
  - vm_compute. reflexivity.
  - exact Hrun.
Defined.

(** ** The order of the effects *)

(** With a client and a readable file the adapter's only effect on files and
    provider is one provider call. *)
Lemma adapter_one_call E c file_path audio st :
  SARVAM_CLIENT E = Some c ->
  fs st !! file_path = Some audio ->
  exists r st1,
    _call_sarvam_transcription_api E file_path st = (r, st1)
    /\ fs st1 = fs st
    /\ temp_file_path st1 = temp_file_path st
    /\ io_events (trace st1)
       = (io_events (trace st)
          ++ [ProviderCall audio DEFAULT_TRANSCRIPTION_MODEL DEFAULT_LANGUAGE_CODE])%list
    /\ (forall e, r = inl e -> not_binascii e).
Proof.
  intros Hc Hfile.
  destruct (transcribe c audio DEFAULT_TRANSCRIPTION_MODEL DEFAULT_LANGUAGE_CODE)
    as [response|error] eqn:Hresp.
  - eexists _, _. split; [apply (adapter_returns_probe E c file_path audio response st Hc Hfile Hresp)|].
    split; [reflexivity|]. split; [reflexivity|]. split; [|intros e He; discriminate He].
    cbn [trace]. rewrite !io_events_app.
    destruct (pyval_eq_str (probe response) NOT_FOUND); cbn; rewrite ?app_nil_r; reflexivity.
  - eexists _, _. split; [apply (adapter_provider_fails E c file_path audio error st Hc Hfile Hresp)|].
    split; [reflexivity|]. split; [reflexivity|]. split; [|intros e [= <-]; exact I].
    cbn [trace]. rewrite !io_events_app. reflexivity.
Qed.

(** X19: the effects of a request that reaches the provider, in their order.
    Whatever the provider answers, an upload that is stored with a client in
    place creates its temporary file, writes the body, calls the provider
    once and unlinks the file, in this order and with nothing else done to
    files or provider; a Base64 payload that decodes and is written does the
    same at its fixed path. *)
Theorem effects_in_order (E : env) (c : client) :
  SARVAM_CLIENT E = Some c ->
  (forall file files tmp,
      is_audio (UploadFile.content_type file) ->
      temp_name E (upload_suffix file) files tmp ->
      has_room E (UploadFile.file file) ->
      io_events (trace (snd (transcribe_audio_file E file (start files))))
      = [Created tmp;
         Wrote tmp (UploadFile.file file);
         ProviderCall (UploadFile.file file) "saarika:v2.5" "gu-IN";
         Unlinked tmp])
  /\ (forall request files audio_bytes,
         Base64.b64decode (Base64AudioRequest.audio_data request)
         = Base64.Decoded audio_bytes ->
         open_error E (mic_recording_path E (Base64AudioRequest.file_extension request))
         = None ->
         has_room E audio_bytes ->
         io_events (trace (snd (transcribe_base64_audio E request (start files))))
         = [Created (mic_recording_path E (Base64AudioRequest.file_extension request));
            Wrote (mic_recording_path E (Base64AudioRequest.file_extension request))
                  audio_bytes;
            ProviderCall audio_bytes "saarika:v2.5" "gu-IN";
            Unlinked (mic_recording_path E (Base64AudioRequest.file_extension request))]).
Proof.
  intros Hc. split.
  - intros file files tmp Haudio Hname Hroom.
    destruct (adapter_one_call E c tmp (UploadFile.file file)
                {| fs := fs (upload_stored file files tmp);
                   trace := (trace (upload_stored file files tmp)
                             ++ [Printed ("Sending uploaded file "
                                          ++ PyStr.format_opt (UploadFile.filename file)
                                          ++ " to Sarvam AI for transcription...")])%list;
                   temp_file_path := Some tmp |}
                Hc (lookup_insert_eq _ _ _))
      as (r & st1 & Hadapter & Hfs & Hp & Hio & _).
    destruct r as [e|v].
    + rewrite (upload_run_adapter_raises E file files tmp Haudio Hname Hroom e st1
                 Hadapter Hfs Hp).
      cbn [snd trace]. rewrite !io_events_app, Hio. reflexivity.
    + destruct (new_TranscriptionResponse_run E
                  (PyStr.or_else (UploadFile.filename file) "audio_file") v st1)
        as (r & Hnew & _).
      rewrite (upload_run_adapter_returns E file files tmp Haudio Hname Hroom v st1 r
                 Hadapter Hfs Hp Hnew).
      destruct r as [e|response]; cbn [snd trace]; rewrite !io_events_app, Hio; reflexivity.
  - intros request files audio_bytes Hdec Hopen Hroom.
    destruct (adapter_one_call E c
                (mic_recording_path E (Base64AudioRequest.file_extension request))
                audio_bytes
                (base64_announced request files
                   (mic_recording_path E (Base64AudioRequest.file_extension request))
                   audio_bytes)
                Hc (lookup_insert_eq _ _ _))
      as (r & st1 & Hadapter & Hfs & Hp & Hio & Hkind).
    destruct r as [e|v].
    + rewrite (base64_run_adapter_raises E request files audio_bytes Hdec Hopen Hroom e st1
                 Hadapter (Hkind e eq_refl) Hfs Hp).
      cbn [snd trace]. rewrite !io_events_app, Hio. reflexivity.
    + destruct (new_TranscriptionResponse_run E (Base64AudioRequest.filename request) v st1)
        as (r & Hnew & Hinvalid & _).
      rewrite (base64_run_adapter_returns E request files audio_bytes Hdec Hopen Hroom
                 v st1 r Hadapter Hfs Hp Hnew).
      * destruct r as [e|response]; cbn [snd trace]; rewrite !io_events_app, Hio;
          reflexivity.
      * intros e He. destruct (Hinvalid e He) as [msg ->]. exact I.
Qed.

Lemma effects_in_order_witness :
  io_events (trace (snd (transcribe_audio_file
                           (mock_env (Some (failing_client "quota exceeded")) None)
                           clip_wav (start ∅))))
  = [Created "/tmp/tmpabcdefga.wav";
     Wrote "/tmp/tmpabcdefga.wav" ten_bytes;
     ProviderCall ten_bytes "saarika:v2.5" "gu-IN";
     Unlinked "/tmp/tmpabcdefga.wav"].
Proof.
  destruct (effects_in_order (mock_env (Some (failing_client "quota exceeded")) None)
              (failing_client "quota exceeded") eq_refl) as [Hupload _].
  apply (Hupload clip_wav ∅ "/tmp/tmpabcdefga.wav").
  - exists "audio/wav". split; reflexivity.
  - reflexivity.
  - exact I.
Defined.

(** ** The adapter on its own *)

(** X20: the adapter only reads.  Whatever the client, the file and the
    provider do, a call of the adapter leaves the disk and the caller's local
    variable as they were and creates no file; it calls the provider at most
    once, and then with the content of the file at the given path and the
    fixed model and language. *)
Theorem adapter_only_reads (E : env) (file_path : string) (st : state) :
  fs (snd (_call_sarvam_transcription_api E file_path st)) = fs st
  /\ temp_file_path (snd (_call_sarvam_transcription_api E file_path st))
     = temp_file_path st
  /\ created_files (trace (snd (_call_sarvam_transcription_api E file_path st)))
     = created_files (trace st)
  /\ (provider_calls (trace (snd (_call_sarvam_transcription_api E file_path st)))
      = provider_calls (trace st)
      \/ exists audio,
           fs st !! file_path = Some audio
           /\ provider_calls (trace (snd (_call_sarvam_transcription_api E file_path st)))
              = (provider_calls (trace st) ++ [(audio, "saarika:v2.5", "gu-IN")])%list).
Proof.
  assert (Hcreated :
            created_files (trace (snd (_call_sarvam_transcription_api E file_path st)))
            = created_files (trace st)).
  { destruct (adapter_creates_nothing E file_path st) as (evs & -> & Hall).
    rewrite created_files_app, (created_files_none evs Hall). apply app_nil_r. }
  destruct (SARVAM_CLIENT E) as [c|] eqn:Hc.
  - destruct (fs st !! file_path) as [audio|] eqn:Hfile.
    + destruct (adapter_one_call E c file_path audio st Hc Hfile)
        as (r & st1 & Hrun & Hfs & Hp & Hio & _).
      rewrite Hrun in *. cbn [snd] in *.
      split; [exact Hfs|]. split; [exact Hp|]. split; [exact Hcreated|].
      right. exists audio. split; [reflexivity|].
      rewrite <- (provider_calls_io_events (trace st1)), Hio, provider_calls_app,
        provider_calls_io_events. reflexivity.
    + assert (Hrun : _call_sarvam_transcription_api E file_path st
                     = (inl (OSError ("[Errno 2] No such file or directory: '"
                                      ++ file_path ++ "'")), st)).
      { unfold _call_sarvam_transcription_api, open_rb. rewrite Hc.
        eapply bind_inl. eapply bind_inr; [reflexivity|]. rewrite Hfile. reflexivity. }
      rewrite Hrun. cbn [snd]. repeat split. left. reflexivity.
  - rewrite (adapter_uninitialised E file_path st Hc). cbn [snd].
    repeat split. left. reflexivity.
Qed.
